(** * Relationship and dating services of the social/dating backend

    A shallow embedding of the service layer ([app/services/block.py],
    [follow.py], [like.py], [dating.py]), of the result records
    ([app/schemas/database_records.py]) and of the dating models
    ([app/models/dating.py]).

    - The graph database is a record of finite maps: nodes by their id,
      relationships by the ordered pair of ids they connect, each carrying
      the properties the queries read or write.  At most one relationship
      of a type connects an ordered pair of nodes; every writer below
      creates relationships through [MERGE] or through a [CREATE] guarded
      by a test that none exists, but for the [CREATE] of
      [_accept_follow_request], which is read on graphs where the requester
      does not follow the target yet.
    - A Cypher query is a function from the graph to the updated graph and
      the rows it returns, written clause by clause from the text of the
      query.  The text of the potential-matches query names an index in a
      [USING INDEX] hint and carries a [#] comment; whether the engine
      accepts it is an argument of the dating service ([query_rejected]).
      The other queries are read as the engine runs them.
    - A row is a column name with its value, and a result map is a list of
      keys with their values, so that [record["result"]] and the
      construction of a record from the keys of a map find, or fail to
      find, the names the query wrote.
    - A value has the type the driver returns it with.  A property written
      from a Python [datetime] or by Cypher's [date()] is a temporal value
      of the database and comes back as [neo4j.time.DateTime] or
      [neo4j.time.Date], which the [datetime] and [date] fields of the
      pydantic models refuse; a timestamp written from [isoformat()] is a
      string and comes back as one, which those fields parse.  A node or a
      relationship is handed to a model as the map of its properties.
    - Python exceptions are values ([exn]) and a service call returns a
      [result] together with the graph; [execute_write] discards the
      writes of a transaction function that raises.  Of the text of a
      pydantic validation error the head line is kept, with its count of
      errors.
    - Numbers that are floats in the source are exact rationals here; a
      [string] is the sequence of the characters of a Python [str]; the
      clock ([datetime.now], [date.today]) and fresh identifiers ([uuid4])
      are arguments. *)

From Stdlib Require Import ZArith QArith Lqa Ascii String List Sorted.
From Stdlib Require Import DecimalString.
From stdpp Require Import gmap strings list sorting.

Close Scope Q_scope.
Open Scope string_scope.

(** ** Python values and exceptions *)

Abbreviation UUID := N (only parsing).
Abbreviation Time := N (only parsing).

Inductive exn_class :=
| Exception
| ValueError
| KeyError
| ValidationError
| BlockError
| BlockNotFoundError
| BlockUpdateError
| FollowError
| FollowNotFoundError
| FollowRequestNotFoundError
| FollowCreationError
| FollowRequestError
| DatingError
| MatchCreationError
| ActionRecordingError
| CypherSyntaxError.

Record exn := Raise { exn_type : exn_class; exn_str : string }.

(** The base class each exception class is declared with. *)
Definition base_class (c : exn_class) : option exn_class :=
  match c with
  | Exception => None
  | ValidationError => Some ValueError
  | BlockNotFoundError | BlockUpdateError => Some BlockError
  | FollowNotFoundError | FollowRequestNotFoundError
  | FollowCreationError | FollowRequestError => Some FollowError
  | MatchCreationError | ActionRecordingError => Some DatingError
  | _ => Some Exception
  end.

Definition exn_class_eqb (a b : exn_class) : bool :=
  match a, b with
  | Exception, Exception | ValueError, ValueError | KeyError, KeyError
  | ValidationError, ValidationError | BlockError, BlockError
  | BlockNotFoundError, BlockNotFoundError
  | BlockUpdateError, BlockUpdateError | FollowError, FollowError
  | FollowNotFoundError, FollowNotFoundError
  | FollowRequestNotFoundError, FollowRequestNotFoundError
  | FollowCreationError, FollowCreationError
  | FollowRequestError, FollowRequestError | DatingError, DatingError
  | MatchCreationError, MatchCreationError
  | ActionRecordingError, ActionRecordingError
  | CypherSyntaxError, CypherSyntaxError => true
  | _, _ => false
  end.

(** [isinstance e c]: the test an [except c] clause makes.  The class
    hierarchy is three levels deep. *)
Definition isinstance (e : exn) (c : exn_class) : bool :=
  let t := exn_type e in
  exn_class_eqb t c ||
  match base_class t with
  | None => false
  | Some b =>
      exn_class_eqb b c ||
      match base_class b with
      | None => false
      | Some b' => exn_class_eqb b' c
      end
  end.

Inductive result (A : Type) :=
| Ok (a : A)
| Err (e : exn).
Arguments Ok {A} a.
Arguments Err {A} e.

Definition is_ok {A} (r : result A) : bool :=
  match r with Ok _ => true | Err _ => false end.

(** [str.lower()] on ASCII text and the [in] test on strings. *)
Definition lower_ascii (c : ascii) : ascii :=
  let n := nat_of_ascii c in
  if ((65 <=? n) && (n <=? 90))%nat then ascii_of_nat (n + 32) else c.

Fixpoint lower (s : string) : string :=
  match s with
  | EmptyString => EmptyString
  | String c r => String (lower_ascii c) (lower r)
  end.

Fixpoint contains (sub s : string) : bool :=
  String.prefix sub s ||
  match s with
  | EmptyString => false
  | String _ r => contains sub r
  end.

(** ** The graph store *)

Inductive InteractionType :=
| LIKE | COMMENT | SHARE | FOLLOW | BLOCK | REPORT
| SWIPE_LEFT | SWIPE_RIGHT | SUPER_LIKE | MATCH | MESSAGE.

Definition InteractionType_value (a : InteractionType) : string :=
  match a with
  | LIKE => "LIKE" | COMMENT => "COMMENT" | SHARE => "SHARE"
  | FOLLOW => "FOLLOW" | BLOCK => "BLOCK" | REPORT => "REPORT"
  | SWIPE_LEFT => "SWIPE_LEFT" | SWIPE_RIGHT => "SWIPE_RIGHT"
  | SUPER_LIKE => "SUPER_LIKE" | MATCH => "MATCH" | MESSAGE => "MESSAGE"
  end.

Definition InteractionType_code (a : InteractionType) : nat :=
  match a with
  | LIKE => 0 | COMMENT => 1 | SHARE => 2 | FOLLOW => 3 | BLOCK => 4
  | REPORT => 5 | SWIPE_LEFT => 6 | SWIPE_RIGHT => 7 | SUPER_LIKE => 8
  | MATCH => 9 | MESSAGE => 10
  end.

Definition InteractionType_of_code (n : nat) : option InteractionType :=
  match n with
  | 0 => Some LIKE | 1 => Some COMMENT | 2 => Some SHARE | 3 => Some FOLLOW
  | 4 => Some BLOCK | 5 => Some REPORT | 6 => Some SWIPE_LEFT
  | 7 => Some SWIPE_RIGHT | 8 => Some SUPER_LIKE | 9 => Some MATCH
  | 10 => Some MESSAGE | _ => None
  end.

#[global] Instance InteractionType_eq_dec : EqDecision InteractionType.
Proof. solve_decision. Defined.

#[global] Instance InteractionType_countable : Countable InteractionType.
Proof.
  apply (inj_countable InteractionType_code InteractionType_of_code).
  intros []; reflexivity.
Defined.

Inductive Gender := MALE | FEMALE | NON_BINARY | OTHER.

Inductive Sexuality :=
| STRAIGHT | GAY | LESBIAN | BISEXUAL | PANSEXUAL | ASEXUAL | OTHER_SEXUALITY.

#[global] Instance Gender_eq_dec : EqDecision Gender.
Proof. solve_decision. Defined.

Inductive FollowRequestStatus := PENDING | ACCEPTED | DENIED.

(** A [:User] node: the properties the queries below touch.  A property
    that is not set reads as [None] (Cypher [null]).  [other_errors] is
    the number of errors [User], built from the node, reports on the
    properties the queries do not touch (of which [user_id], [auth_id],
    [username], [email], [display_name], [profile_picture_s3_key],
    [created_at] and [bio] are required by [app/models/user.py]): a node
    as [_create_user_from_auth0] writes it has no [bio], which is one
    error. *)
Record UserNode := {
  following_count : option Z;
  follower_count : option Z;
  is_private : option bool;
  latitude : option Q;
  longitude : option Q;
  embedding : option (list Q);
  other_errors : nat
}.

Record PostNode := { like_count : option Z }.

(** A [:DatingProfile] node, as [_create_dating_profile] writes it.  Dates
    are day numbers. *)
Record ProfileNode := {
  p_user_id : UUID;
  p_bio : string;
  p_birth_date : Z;
  p_gender : Gender;
  p_sexuality : Sexuality;
  p_photos : list string;
  p_max_distance_miles : Q;
  p_min_age_preference : Z;
  p_max_age_preference : Z;
  p_gender_preference : list Gender;
  p_is_visible : bool;
  p_created_at : Time;
  p_updated_at : Time
}.

Record FollowRel := {
  follow_created_at : Time;
  request_accepted_at : option Time
}.

Record RequestRel := {
  request_created_at : Time;
  request_status : FollowRequestStatus
}.

Record MatchRel := {
  match_id : UUID;
  match_created_at : Time;
  match_updated_at : Time;
  match_compatibility_score : Q
}.

Record ViewRel := {
  view_count : Z;
  view_created_at : Time;
  view_updated_at : Time
}.

(** An [:INTERACTED_WITH] relationship from a user to a post. *)
Record InteractionRel := {
  completion_rate : Q;
  engagement_signals : list InteractionType;
  unregretted : bool
}.

Record Graph := {
  users : gmap UUID UserNode;
  posts : gmap UUID PostNode;
  (** [(user)-[:HAS_DATING_PROFILE]->(profile)]: the id of the user and
      the profile node, in creation order *)
  dating_profiles : list (UUID * ProfileNode);
  FOLLOWS : gmap (UUID * UUID) FollowRel;
  REQUESTED_TO_FOLLOW : gmap (UUID * UUID) RequestRel;
  BLOCKS : gmap (UUID * UUID) Time;
  BLOCKED_BY : gmap (UUID * UUID) Time;
  LIKED : gmap (UUID * UUID) Time;
  (** [(a)-[:DATING_ACTION {type: t}]->(b)] with its [updated_at] *)
  DATING_ACTION : gmap (UUID * UUID * InteractionType) Time;
  DATING_MATCH : gmap (UUID * UUID) MatchRel;
  DATING_PROFILE_VIEW : gmap (UUID * UUID) ViewRel;
  (** [:SIMILAR] relationships written by the node-similarity job *)
  SIMILAR : gmap (UUID * UUID) Q;
  INTERACTED_WITH : list (UUID * UUID * InteractionRel);
  POSTED : gset (UUID * UUID)
}.

Definition set_users (f : gmap UUID UserNode -> gmap UUID UserNode)
    (g : Graph) : Graph :=
  {| users := f (users g); posts := posts g;
     dating_profiles := dating_profiles g; FOLLOWS := FOLLOWS g;
     REQUESTED_TO_FOLLOW := REQUESTED_TO_FOLLOW g; BLOCKS := BLOCKS g;
     BLOCKED_BY := BLOCKED_BY g; LIKED := LIKED g;
     DATING_ACTION := DATING_ACTION g; DATING_MATCH := DATING_MATCH g;
     DATING_PROFILE_VIEW := DATING_PROFILE_VIEW g; SIMILAR := SIMILAR g;
     INTERACTED_WITH := INTERACTED_WITH g; POSTED := POSTED g |}.

Definition set_posts (f : gmap UUID PostNode -> gmap UUID PostNode)
    (g : Graph) : Graph :=
  {| users := users g; posts := f (posts g);
     dating_profiles := dating_profiles g; FOLLOWS := FOLLOWS g;
     REQUESTED_TO_FOLLOW := REQUESTED_TO_FOLLOW g; BLOCKS := BLOCKS g;
     BLOCKED_BY := BLOCKED_BY g; LIKED := LIKED g;
     DATING_ACTION := DATING_ACTION g; DATING_MATCH := DATING_MATCH g;
     DATING_PROFILE_VIEW := DATING_PROFILE_VIEW g; SIMILAR := SIMILAR g;
     INTERACTED_WITH := INTERACTED_WITH g; POSTED := POSTED g |}.

Definition set_dating_profiles
    (f : list (UUID * ProfileNode) -> list (UUID * ProfileNode))
    (g : Graph) : Graph :=
  {| users := users g; posts := posts g;
     dating_profiles := f (dating_profiles g); FOLLOWS := FOLLOWS g;
     REQUESTED_TO_FOLLOW := REQUESTED_TO_FOLLOW g; BLOCKS := BLOCKS g;
     BLOCKED_BY := BLOCKED_BY g; LIKED := LIKED g;
     DATING_ACTION := DATING_ACTION g; DATING_MATCH := DATING_MATCH g;
     DATING_PROFILE_VIEW := DATING_PROFILE_VIEW g; SIMILAR := SIMILAR g;
     INTERACTED_WITH := INTERACTED_WITH g; POSTED := POSTED g |}.

Definition set_FOLLOWS
    (f : gmap (UUID * UUID) FollowRel -> gmap (UUID * UUID) FollowRel)
    (g : Graph) : Graph :=
  {| users := users g; posts := posts g;
     dating_profiles := dating_profiles g; FOLLOWS := f (FOLLOWS g);
     REQUESTED_TO_FOLLOW := REQUESTED_TO_FOLLOW g; BLOCKS := BLOCKS g;
     BLOCKED_BY := BLOCKED_BY g; LIKED := LIKED g;
     DATING_ACTION := DATING_ACTION g; DATING_MATCH := DATING_MATCH g;
     DATING_PROFILE_VIEW := DATING_PROFILE_VIEW g; SIMILAR := SIMILAR g;
     INTERACTED_WITH := INTERACTED_WITH g; POSTED := POSTED g |}.

Definition set_REQUESTED_TO_FOLLOW
    (f : gmap (UUID * UUID) RequestRel -> gmap (UUID * UUID) RequestRel)
    (g : Graph) : Graph :=
  {| users := users g; posts := posts g;
     dating_profiles := dating_profiles g; FOLLOWS := FOLLOWS g;
     REQUESTED_TO_FOLLOW := f (REQUESTED_TO_FOLLOW g); BLOCKS := BLOCKS g;
     BLOCKED_BY := BLOCKED_BY g; LIKED := LIKED g;
     DATING_ACTION := DATING_ACTION g; DATING_MATCH := DATING_MATCH g;
     DATING_PROFILE_VIEW := DATING_PROFILE_VIEW g; SIMILAR := SIMILAR g;
     INTERACTED_WITH := INTERACTED_WITH g; POSTED := POSTED g |}.

Definition set_BLOCKS
    (f : gmap (UUID * UUID) Time -> gmap (UUID * UUID) Time)
    (g : Graph) : Graph :=
  {| users := users g; posts := posts g;
     dating_profiles := dating_profiles g; FOLLOWS := FOLLOWS g;
     REQUESTED_TO_FOLLOW := REQUESTED_TO_FOLLOW g; BLOCKS := f (BLOCKS g);
     BLOCKED_BY := BLOCKED_BY g; LIKED := LIKED g;
     DATING_ACTION := DATING_ACTION g; DATING_MATCH := DATING_MATCH g;
     DATING_PROFILE_VIEW := DATING_PROFILE_VIEW g; SIMILAR := SIMILAR g;
     INTERACTED_WITH := INTERACTED_WITH g; POSTED := POSTED g |}.

Definition set_LIKED
    (f : gmap (UUID * UUID) Time -> gmap (UUID * UUID) Time)
    (g : Graph) : Graph :=
  {| users := users g; posts := posts g;
     dating_profiles := dating_profiles g; FOLLOWS := FOLLOWS g;
     REQUESTED_TO_FOLLOW := REQUESTED_TO_FOLLOW g; BLOCKS := BLOCKS g;
     BLOCKED_BY := BLOCKED_BY g; LIKED := f (LIKED g);
     DATING_ACTION := DATING_ACTION g; DATING_MATCH := DATING_MATCH g;
     DATING_PROFILE_VIEW := DATING_PROFILE_VIEW g; SIMILAR := SIMILAR g;
     INTERACTED_WITH := INTERACTED_WITH g; POSTED := POSTED g |}.

Definition set_DATING_ACTION
    (f : gmap (UUID * UUID * InteractionType) Time ->
         gmap (UUID * UUID * InteractionType) Time)
    (g : Graph) : Graph :=
  {| users := users g; posts := posts g;
     dating_profiles := dating_profiles g; FOLLOWS := FOLLOWS g;
     REQUESTED_TO_FOLLOW := REQUESTED_TO_FOLLOW g; BLOCKS := BLOCKS g;
     BLOCKED_BY := BLOCKED_BY g; LIKED := LIKED g;
     DATING_ACTION := f (DATING_ACTION g); DATING_MATCH := DATING_MATCH g;
     DATING_PROFILE_VIEW := DATING_PROFILE_VIEW g; SIMILAR := SIMILAR g;
     INTERACTED_WITH := INTERACTED_WITH g; POSTED := POSTED g |}.

Definition set_DATING_MATCH
    (f : gmap (UUID * UUID) MatchRel -> gmap (UUID * UUID) MatchRel)
    (g : Graph) : Graph :=
  {| users := users g; posts := posts g;
     dating_profiles := dating_profiles g; FOLLOWS := FOLLOWS g;
     REQUESTED_TO_FOLLOW := REQUESTED_TO_FOLLOW g; BLOCKS := BLOCKS g;
     BLOCKED_BY := BLOCKED_BY g; LIKED := LIKED g;
     DATING_ACTION := DATING_ACTION g; DATING_MATCH := f (DATING_MATCH g);
     DATING_PROFILE_VIEW := DATING_PROFILE_VIEW g; SIMILAR := SIMILAR g;
     INTERACTED_WITH := INTERACTED_WITH g; POSTED := POSTED g |}.

Definition set_DATING_PROFILE_VIEW
    (f : gmap (UUID * UUID) ViewRel -> gmap (UUID * UUID) ViewRel)
    (g : Graph) : Graph :=
  {| users := users g; posts := posts g;
     dating_profiles := dating_profiles g; FOLLOWS := FOLLOWS g;
     REQUESTED_TO_FOLLOW := REQUESTED_TO_FOLLOW g; BLOCKS := BLOCKS g;
     BLOCKED_BY := BLOCKED_BY g; LIKED := LIKED g;
     DATING_ACTION := DATING_ACTION g; DATING_MATCH := DATING_MATCH g;
     DATING_PROFILE_VIEW := f (DATING_PROFILE_VIEW g); SIMILAR := SIMILAR g;
     INTERACTED_WITH := INTERACTED_WITH g; POSTED := POSTED g |}.

Definition set_following_count (c : option Z) (u : UserNode) : UserNode :=
  {| following_count := c; follower_count := follower_count u;
     is_private := is_private u; latitude := latitude u;
     longitude := longitude u; embedding := embedding u;
     other_errors := other_errors u |}.

Definition set_follower_count (c : option Z) (u : UserNode) : UserNode :=
  {| following_count := following_count u; follower_count := c;
     is_private := is_private u; latitude := latitude u;
     longitude := longitude u; embedding := embedding u;
     other_errors := other_errors u |}.

(** A relationship from [a] to [b] exists. *)
Definition has_rel {A} (m : gmap (UUID * UUID) A) (a b : UUID) : bool :=
  bool_decide (is_Some (m !! (a, b))).

(** Cypher [coalesce(x, d)] and arithmetic on a possibly null integer. *)
Definition coalesce {A} (x : option A) (d : A) : A :=
  match x with Some v => v | None => d end.

Definition null_add (x : option Z) (k : Z) : option Z :=
  match x with Some v => Some (v + k)%Z | None => None end.

(** Values that travel in query results.  [VTime] is a timestamp in a
    form the [datetime] fields of the models take: the ISO string the
    dating queries store.  [VDateTime] is the [neo4j.time.DateTime] the
    driver returns for a property that was written from a Python
    [datetime].  [VUser], [VFollowRel] and [VRequestRel] are a node and
    relationship entities. *)
#[warnings="-register-all"]
Inductive val :=
| VNull
| VBool (b : bool)
| VInt (z : Z)
| VNum (q : Q)
| VStr (s : string)
| VId (u : UUID)
| VTime (t : Time)
| VDateTime (t : Time)
| VUser (n : UserNode)
| VFollowRel (r : FollowRel)
| VRequestRel (r : RequestRel)
| VMap (m : list (string * val)).

Abbreviation kwargs := (list (string * val)) (only parsing).

Fixpoint kw_get (kw : kwargs) (k : string) : option val :=
  match kw with
  | [] => None
  | (k', v) :: rest => if String.eqb k' k then Some v else kw_get rest k
  end.

(** A returned row: the column name and the value.  Every query below
    returns one column. *)
Abbreviation Row := (string * val)%type (only parsing).

(** [Result.single()]: the first row, [None] when there is none. *)
Definition single (rows : list Row) : option Row := head rows.

(** [record[key]] raises [KeyError] for a column the row does not have. *)
Definition getitem (r : Row) (key : string) : result val :=
  if String.eqb (fst r) key then Ok (snd r)
  else Err (Raise KeyError ("'" +:+ key +:+ "'")).

(** Head line of the text of a pydantic validation error with [n]
    errors; the per-field lines that follow it in the real message are not
    kept. *)
Definition validation_error (model : string) (n : nat) : exn :=
  Raise ValidationError
    (NilEmpty.string_of_uint (Nat.to_uint n) +:+ " validation error"
     +:+ (if Nat.eqb n 1 then "" else "s") +:+ " for " +:+ model).

(** [session.execute_write(fn, ...)]: the transaction commits when [fn]
    returns and is rolled back when it raises. *)
Definition execute_write {A} (fn : Graph -> result A * Graph) (g : Graph)
    : result A * Graph :=
  match fn g with
  | (Ok a, g') => (Ok a, g')
  | (Err e, _) => (Err e, g)
  end.

(** ** [app/schemas/database_records.py] *)

Record CreateBlockRecord := {
  cb_success : bool;
  blocked_user_id : UUID;
  removed_forward_follow : bool;
  removed_reverse_follow : bool
}.

(** The value a required field takes from the keywords, [None] when the
    keyword is missing or its value is not of the type of the field; such
    a field reports one error. *)
Definition kw_bool (kw : kwargs) (k : string) : option bool :=
  match kw_get kw k with Some (VBool b) => Some b | _ => None end.

Definition kw_id (kw : kwargs) (k : string) : option UUID :=
  match kw_get kw k with Some (VId u) => Some u | _ => None end.

(** A [datetime] field: a [neo4j.time.DateTime] is refused. *)
Definition kw_time (kw : kwargs) (k : string) : option Time :=
  match kw_get kw k with Some (VTime t) => Some t | _ => None end.

Definition kw_num (kw : kwargs) (k : string) : option Q :=
  match kw_get kw k with Some (VNum q) => Some q | _ => None end.

Definition missing {A} (x : option A) : nat :=
  match x with Some _ => 0 | None => 1 end.

(** [User] built from a node, which is what the [User] fields of the
    records are given: the number of errors.  [is_private] is required,
    the coordinates are optional and bounded, the counters default to
    0. *)
Definition out_of_range (lo hi : Q) (x : option Q) : nat :=
  match x with
  | Some v => if Qle_bool lo v && Qle_bool v hi then 0 else 1
  | None => 0
  end.

Definition User_errors (n : UserNode) : nat :=
  missing (is_private n) + out_of_range (-90) 90 (latitude n)
  + out_of_range (-180) 180 (longitude n) + other_errors n.

Definition kw_user (kw : kwargs) (k : string) : option UserNode :=
  match kw_get kw k with
  | Some (VUser u) => if Nat.eqb (User_errors u) 0 then Some u else None
  | _ => None
  end.

Definition kw_user_errors (kw : kwargs) (k : string) : nat :=
  match kw_get kw k with
  | Some (VUser u) => User_errors u
  | _ => 1
  end.

(** [CreateBlockRecord] built from the keywords of a result map: the
    four fields are required; a keyword that names no field is ignored. *)
Definition CreateBlockRecord_new (v : val) : result CreateBlockRecord :=
  match v with
  | VMap kw =>
      match kw_bool kw "success", kw_id kw "blocked_user_id",
            kw_bool kw "removed_forward_follow",
            kw_bool kw "removed_reverse_follow" with
      | Some s, Some b, Some f, Some r =>
          Ok {| cb_success := s; blocked_user_id := b;
                removed_forward_follow := f; removed_reverse_follow := r |}
      | s, b, f, r =>
          Err (validation_error "CreateBlockRecord"
                 (missing s + missing b + missing f + missing r))
      end
  | _ => Err (Raise Exception "argument after ** must be a mapping")
  end.

Record RemoveBlockRecord := {
  rb_success : bool;
  blocker_exists : bool;
  blockee_exists : bool;
  rb_blocker : UserNode;
  rb_blockee : UserNode
}.

Definition RemoveBlockRecord_new (v : val) : result RemoveBlockRecord :=
  match v with
  | VMap kw =>
      match kw_bool kw "success", kw_bool kw "blocker_exists",
            kw_bool kw "blockee_exists", kw_user kw "blocker",
            kw_user kw "blockee" with
      | Some s, Some a, Some b, Some x, Some y =>
          Ok {| rb_success := s; blocker_exists := a; blockee_exists := b;
                rb_blocker := x; rb_blockee := y |}
      | s, a, b, _, _ =>
          Err (validation_error "RemoveBlockRecord"
                 (missing s + missing a + missing b
                  + kw_user_errors kw "blocker"
                  + kw_user_errors kw "blockee"))
      end
  | _ => Err (Raise Exception "argument after ** must be a mapping")
  end.

(** ** [app/services/block.py] *)

Module BlockService.

(** The query of [_create_block_relationship]. *)
Definition create_block_query (origin_id target_id : UUID)
    (current_time : Time) (g : Graph) : Graph * list Row :=
  match users g !! origin_id, users g !! target_id with
  | Some blocker, Some blockee =>
      if N.eqb origin_id target_id then (g, [])
      else
        let f1_exists := has_rel (FOLLOWS g) origin_id target_id in
        let f2_exists := has_rel (FOLLOWS g) target_id origin_id in
        (* DELETE f1, f2 *)
        let g1 :=
          set_FOLLOWS (fun m => delete (target_id, origin_id)
                                  (delete (origin_id, target_id) m)) g in
        (* SET the four cached counters *)
        let blocker' :=
          set_follower_count
            (if f2_exists then Some (coalesce (follower_count blocker) 1 - 1)%Z
             else follower_count blocker)
            (set_following_count
               (if f1_exists
                then Some (coalesce (following_count blocker) 1 - 1)%Z
                else following_count blocker)
               blocker) in
        let blockee' :=
          set_follower_count
            (if f1_exists then Some (coalesce (follower_count blockee) 1 - 1)%Z
             else follower_count blockee)
            (set_following_count
               (if f2_exists
                then Some (coalesce (following_count blockee) 1 - 1)%Z
                else following_count blockee)
               blockee) in
        let g2 :=
          set_users (fun m => <[target_id := blockee']>
                                (<[origin_id := blocker']> m)) g1 in
        (* MERGE (blocker)-[r:BLOCKS]->(blockee) ON CREATE SET r.created_at *)
        let g3 :=
          set_BLOCKS (fun m => match m !! (origin_id, target_id) with
                               | Some _ => m
                               | None => <[(origin_id, target_id) := current_time]> m
                               end) g2 in
        (g3, [("result",
               VMap [("success", VBool true);
                     ("blocked_user", VId target_id);
                     ("removed_forward_follow", VBool f1_exists);
                     ("removed_reverse_follow", VBool f2_exists)])])
  | _, _ => (g, [])
  end.

Definition _create_block_relationship (origin_id target_id : UUID)
    (current_time : Time) (g : Graph) : result CreateBlockRecord * Graph :=
  let (g', rows) := create_block_query origin_id target_id current_time g in
  match single rows with
  | Some data =>
      match getitem data "result" with
      | Ok m => (CreateBlockRecord_new m, g')
      | Err e => (Err e, g')
      end
  | None =>
      (Err (Raise ValueError "Something went wrong when trying to block user"),
       g')
  end.

Definition block (origin_id target_id : UUID) (current_time : Time)
    (g : Graph) : result CreateBlockRecord * Graph :=
  if N.eqb origin_id target_id then
    (Err (Raise BlockError "Users cannot block themselves"), g)
  else
    match execute_write
            (_create_block_relationship origin_id target_id current_time) g with
    | (Ok r, g') => (Ok r, g')
    | (Err e, g') =>
        (Err (Raise BlockError ("Failed to block user: " +:+ exn_str e)), g')
    end.

(** The query of [_remove_block_relationship].  Its [RETURN] gives the
    map no alias, so the column is named by the text of the expression. *)
Definition remove_block_column : string :=
  "{success: true, blocker_exists: blocker_exists, blockee_exists: blockee_exists, blocker: blocker, blockee: blockee}".

Definition node_or_null (u : option UserNode) : val :=
  match u with Some n => VUser n | None => VNull end.

Definition remove_block_query (origin_id target_id : UUID) (g : Graph)
    : Graph * list Row :=
  let blocker := users g !! origin_id in
  let blockee := users g !! target_id in
  (* OPTIONAL MATCH (blocker)-[r:BLOCKS]->(blockee) ... DELETE r *)
  let g1 :=
    match blocker, blockee with
    | Some _, Some _ => set_BLOCKS (delete (origin_id, target_id)) g
    | _, _ => g
    end in
  (g1, [(remove_block_column,
         VMap [("success", VBool true);
               ("blocker_exists", VBool (bool_decide (is_Some blocker)));
               ("blockee_exists", VBool (bool_decide (is_Some blockee)));
               ("blocker", node_or_null blocker);
               ("blockee", node_or_null blockee)])]).

Definition _remove_block_relationship (origin_id target_id : UUID)
    (g : Graph) : result RemoveBlockRecord * Graph :=
  let (g', rows) := remove_block_query origin_id target_id g in
  match single rows with
  | Some data =>
      match getitem data "result" with
      | Ok m => (RemoveBlockRecord_new m, g')
      | Err e => (Err e, g')
      end
  | None => (Err (Raise ValueError "Block does not exist"), g')
  end.

(** The [except ValueError] clause of [unblock]. *)
Definition unblock_handler (e : exn) : exn :=
  if isinstance e ValueError then
    if contains "not found" (lower (exn_str e))
    then Raise BlockNotFoundError (exn_str e)
    else Raise BlockError ("Failed to unblock user: " +:+ exn_str e)
  else e.

Definition unblock (origin_id target_id : UUID) (g : Graph)
    : result unit * Graph :=
  if N.eqb origin_id target_id then
    (Err (Raise BlockError "Users cannot unblock themselves"), g)
  else
    match execute_write (_remove_block_relationship origin_id target_id) g with
    | (Ok _, g') => (Ok tt, g')
    | (Err e, g') => (Err (unblock_handler e), g')
    end.

(** The query of [_check_block_status]: a row when both users exist. *)
Definition _check_block_status (user_id target_id : UUID) (g : Graph) : bool :=
  match users g !! user_id, users g !! target_id with
  | Some _, Some _ => has_rel (BLOCKS g) user_id target_id
  | _, _ => false
  end.

Definition is_blocked (user_id target_id : UUID) (g : Graph) : result bool :=
  Ok (_check_block_status user_id target_id g).

End BlockService.

(** ** [app/services/follow.py] *)

Inductive Relationship :=
| RelFollow (r : FollowRel)
| RelRequest (r : RequestRel).

Record CreateFollowRecord := {
  cf_success : bool;
  cf_follower : UserNode;
  cf_following : UserNode;
  cf_relationship : Relationship;
  is_direct_follow : bool
}.

(** The properties of a relationship entity, as the driver returns them.
    [follow.py] writes the timestamps from [datetime.now(UTC)], so they
    are temporal values of the database. *)
Definition FollowRel_properties (r : FollowRel) : kwargs :=
  ("created_at", VDateTime (follow_created_at r)) ::
  match request_accepted_at r with
  | Some t => [("request_accepted_at", VDateTime t)]
  | None => []
  end.

Definition FollowRequestStatus_value (s : FollowRequestStatus) : string :=
  match s with
  | PENDING => "PENDING" | ACCEPTED => "ACCEPTED" | DENIED => "DENIED"
  end.

Definition FollowRequestStatus_of_value (s : string)
    : option FollowRequestStatus :=
  if String.eqb s "PENDING" then Some PENDING
  else if String.eqb s "ACCEPTED" then Some ACCEPTED
  else if String.eqb s "DENIED" then Some DENIED
  else None.

Definition RequestRel_properties (r : RequestRel) : kwargs :=
  [("created_at", VDateTime (request_created_at r));
   ("status", VStr (FollowRequestStatus_value (request_status r)))].

Definition properties_of (v : val) : option kwargs :=
  match v with
  | VFollowRel r => Some (FollowRel_properties r)
  | VRequestRel r => Some (RequestRel_properties r)
  | VMap m => Some m
  | _ => None
  end.

(** A [datetime | None] field with default [None]. *)
Definition kw_opt_time (kw : kwargs) (k : string) : option (option Time) :=
  match kw_get kw k with
  | None | Some VNull => Some None
  | Some (VTime t) => Some (Some t)
  | Some _ => None
  end.

Definition kw_status (kw : kwargs) (k : string) : option FollowRequestStatus :=
  match kw_get kw k with
  | Some (VStr s) => FollowRequestStatus_of_value s
  | _ => None
  end.

(** [FollowRelationship] and [FollowRequestRelationship] built from the
    properties of a relationship, and the number of errors when they are
    refused. *)
Definition FollowRelationship_new (p : kwargs) : option FollowRel :=
  match kw_time p "created_at", kw_opt_time p "request_accepted_at" with
  | Some c, Some a =>
      Some {| follow_created_at := c; request_accepted_at := a |}
  | _, _ => None
  end.

Definition FollowRelationship_errors (p : kwargs) : nat :=
  missing (kw_time p "created_at")
  + missing (kw_opt_time p "request_accepted_at").

Definition FollowRequestRelationship_new (p : kwargs) : option RequestRel :=
  match kw_time p "created_at", kw_status p "status" with
  | Some c, Some s => Some {| request_created_at := c; request_status := s |}
  | _, _ => None
  end.

Definition FollowRequestRelationship_errors (p : kwargs) : nat :=
  missing (kw_time p "created_at") + missing (kw_status p "status").

(** The field [relationship: FollowRelationship | FollowRequestRelationship]:
    the members are tried in the order they are declared, and the errors
    of both are reported when both refuse the value. *)
Definition kw_relationship (kw : kwargs) (k : string) : option Relationship :=
  match kw_get kw k with
  | Some v =>
      match properties_of v with
      | Some p =>
          match FollowRelationship_new p with
          | Some r => Some (RelFollow r)
          | None =>
              match FollowRequestRelationship_new p with
              | Some r => Some (RelRequest r)
              | None => None
              end
          end
      | None => None
      end
  | None => None
  end.

Definition kw_relationship_errors (kw : kwargs) (k : string) : nat :=
  match kw_get kw k with
  | Some v =>
      match properties_of v with
      | Some p =>
          FollowRelationship_errors p + FollowRequestRelationship_errors p
      | None => 2
      end
  | None => 1
  end.

Definition CreateFollowRecord_new (v : val) : result CreateFollowRecord :=
  match v with
  | VMap kw =>
      match kw_bool kw "success", kw_user kw "follower",
            kw_user kw "following", kw_relationship kw "relationship",
            kw_bool kw "is_direct_follow" with
      | Some s, Some a, Some b, Some r, Some d =>
          Ok {| cf_success := s; cf_follower := a; cf_following := b;
                cf_relationship := r; is_direct_follow := d |}
      | s, _, _, _, d =>
          Err (validation_error "CreateFollowRecord"
                 (missing s + kw_user_errors kw "follower"
                  + kw_user_errors kw "following"
                  + kw_relationship_errors kw "relationship" + missing d))
      end
  | _ => Err (Raise Exception "argument after ** must be a mapping")
  end.

Record AcceptFollowRequestRecord := {
  af_success : bool;
  af_follower : UserNode;
  af_following : UserNode;
  af_relationship : FollowRel
}.

Definition kw_follow_rel (kw : kwargs) (k : string) : option FollowRel :=
  match kw_get kw k with
  | Some v =>
      match properties_of v with
      | Some p => FollowRelationship_new p
      | None => None
      end
  | None => None
  end.

Definition kw_follow_rel_errors (kw : kwargs) (k : string) : nat :=
  match kw_get kw k with
  | Some v =>
      match properties_of v with
      | Some p => FollowRelationship_errors p
      | None => 1
      end
  | None => 1
  end.

Definition AcceptFollowRequestRecord_new (v : val)
    : result AcceptFollowRequestRecord :=
  match v with
  | VMap kw =>
      match kw_bool kw "success", kw_user kw "follower",
            kw_user kw "following", kw_follow_rel kw "relationship" with
      | Some s, Some a, Some b, Some r =>
          Ok {| af_success := s; af_follower := a; af_following := b;
                af_relationship := r |}
      | s, _, _, _ =>
          Err (validation_error "AcceptFollowRequestRecord"
                 (missing s + kw_user_errors kw "follower"
                  + kw_user_errors kw "following"
                  + kw_follow_rel_errors kw "relationship"))
      end
  | _ => Err (Raise Exception "argument after ** must be a mapping")
  end.

Module FollowService.

(** The first query of [_create_follow_relationship].  The [WHERE] that
    follows its first [WITH] names [existing_req] and [existing_follow],
    which that [WITH] does not list; the query is read with the two
    variables in scope, as the four conditions intend. *)
Definition create_follow_query (origin_id target_id : UUID)
    (current_time : Time) (g : Graph) : Graph * list Row :=
  match users g !! origin_id, users g !! target_id with
  | Some follower, Some following =>
      if N.eqb origin_id target_id then (g, [])
      else if has_rel (BLOCKS g) origin_id target_id
              || has_rel (BLOCKS g) target_id origin_id
              || has_rel (REQUESTED_TO_FOLLOW g) origin_id target_id
              || has_rel (FOLLOWS g) origin_id target_id
      then (g, [])
      else
        match is_private following with
        | Some true =>
            (* CREATE (follower)-[r:REQUESTED_TO_FOLLOW {...}]->(following) *)
            let r := {| request_created_at := current_time;
                        request_status := PENDING |} in
            (set_REQUESTED_TO_FOLLOW (insert (origin_id, target_id) r) g,
             [("result",
               VMap [("success", VBool true);
                     ("follower", VUser follower);
                     ("following", VUser following);
                     ("relationship", VRequestRel r);
                     ("is_direct_follow", VBool false)])])
        | _ =>
            (* CREATE (follower)-[r:FOLLOWS {...}]->(following) and SET *)
            let r := {| follow_created_at := current_time;
                        request_accepted_at := None |} in
            let follower' :=
              set_following_count
                (Some (coalesce (following_count follower) 0 + 1)%Z) follower in
            let following' :=
              set_follower_count
                (Some (coalesce (follower_count following) 0 + 1)%Z) following in
            (set_users (fun m => <[target_id := following']>
                                   (<[origin_id := follower']> m))
               (set_FOLLOWS (insert (origin_id, target_id) r) g),
             [("result",
               VMap [("success", VBool true);
                     ("follower", VUser follower');
                     ("following", VUser following');
                     ("relationship", VFollowRel r);
                     ("is_direct_follow", VBool true)])])
        end
  | _, _ => (g, [])
  end.

(** The second query of [_create_follow_relationship], run when the first
    returned no row. *)
Definition follow_check_query (origin_id target_id : UUID) (g : Graph)
    : list (bool * bool) :=
  match users g !! origin_id, users g !! target_id with
  | Some _, Some _ =>
      [(has_rel (BLOCKS g) origin_id target_id,
        has_rel (BLOCKS g) target_id origin_id)]
  | _, _ => []
  end.

Definition _create_follow_relationship (origin_id target_id : UUID)
    (current_time : Time) (g : Graph) : result CreateFollowRecord * Graph :=
  let (g', rows) := create_follow_query origin_id target_id current_time g in
  match single rows with
  | Some record =>
      match getitem record "result" with
      | Ok m => (CreateFollowRecord_new m, g')
      | Err e => (Err e, g')
      end
  | None =>
      match head (follow_check_query origin_id target_id g') with
      | Some (blocked_by_follower, blocked_by_target) =>
          if blocked_by_follower then
            (Err (Raise FollowCreationError
                    "Cannot follow a user you have blocked"), g')
          else if blocked_by_target then
            (Err (Raise FollowCreationError
                    "Cannot follow a user who has blocked you"), g')
          else
            (Err (Raise FollowCreationError
                    "Unknown error when following user"), g')
      | None =>
          (Err (Raise FollowCreationError
                  "Unknown error when following user"), g')
      end
  end.

Definition follow_user (origin_id target_id : UUID) (current_time : Time)
    (g : Graph) : result CreateFollowRecord * Graph :=
  if N.eqb origin_id target_id then
    (Err (Raise FollowCreationError "Users cannot follow themselves"), g)
  else
    match execute_write
            (_create_follow_relationship origin_id target_id current_time) g with
    | (Ok r, g') => (Ok r, g')
    | (Err e, g') =>
        (Err (Raise FollowCreationError
                ("Failed to create follow: " +:+ exn_str e)), g')
    end.

(** The query of [_remove_follow], with the number of relationships it
    deleted. *)
Definition remove_follow_query (origin_id target_id : UUID) (g : Graph)
    : Graph * nat :=
  match users g !! origin_id, users g !! target_id,
        FOLLOWS g !! (origin_id, target_id) with
  | Some _, Some _, Some _ =>
      let g1 := set_FOLLOWS (delete (origin_id, target_id)) g in
      let g2 :=
        set_users
          (alter (fun u => set_following_count
                             (null_add (following_count u) (-1)) u)
                 origin_id) g1 in
      let g3 :=
        set_users
          (alter (fun u => set_follower_count
                             (null_add (follower_count u) (-1)) u)
                 target_id) g2 in
      (g3, 1)
  | _, _, _ => (g, 0)
  end.

Definition _remove_follow (origin_id target_id : UUID) (g : Graph)
    : result unit * Graph :=
  let (g', relationships_deleted) := remove_follow_query origin_id target_id g in
  if Nat.eqb relationships_deleted 0 then
    (Err (Raise FollowNotFoundError "Follow relationship not found"), g')
  else (Ok tt, g').

Definition unfollow_user (origin_id target_id : UUID) (g : Graph)
    : result unit * Graph :=
  match execute_write (_remove_follow origin_id target_id) g with
  | (Ok _, g') => (Ok tt, g')
  | (Err e, g') =>
      if isinstance e FollowNotFoundError then (Err e, g')
      else (Err (Raise FollowError
                   ("Failed to unfollow user: " +:+ exn_str e)), g')
  end.

Definition user_val (u : option UserNode) : val :=
  match u with Some n => VUser n | None => VNull end.

Definition is_pending (r : RequestRel) : bool :=
  match request_status r with PENDING => true | _ => false end.

(** The query of [_accept_follow_request].  Its [CREATE] does not test
    for a [FOLLOWS] relationship that is there already; the engine would
    add a second one, the map keeps the new one.  The properties of this
    query are stated for requesters that do not follow the target yet. *)
Definition accept_follow_query (request_user_id target_user_id : UUID)
    (current_time : Time) (g : Graph) : Graph * list Row :=
  match users g !! request_user_id, users g !! target_user_id,
        REQUESTED_TO_FOLLOW g !! (request_user_id, target_user_id) with
  | Some _, Some _, Some request =>
      if is_pending request then
        let follow := {| follow_created_at := current_time;
                         request_accepted_at := Some current_time |} in
        (* DELETE request  CREATE (requester)-[follow:FOLLOWS {...}]->(target) *)
        let g1 :=
          set_FOLLOWS (insert (request_user_id, target_user_id) follow)
            (set_REQUESTED_TO_FOLLOW
               (delete (request_user_id, target_user_id)) g) in
        (* SET requester.following_count = ..., target.follower_count = ... *)
        let g2 :=
          set_users
            (alter (fun u => set_following_count
                               (Some (coalesce (following_count u) 0 + 1)%Z) u)
                   request_user_id) g1 in
        let g3 :=
          set_users
            (alter (fun u => set_follower_count
                               (Some (coalesce (follower_count u) 0 + 1)%Z) u)
                   target_user_id) g2 in
        (g3, [("result",
               VMap [("success", VBool true);
                     ("follower", user_val (users g3 !! request_user_id));
                     ("following", user_val (users g3 !! target_user_id));
                     ("relationship", VFollowRel follow)])])
      else (g, [])
  | _, _, _ => (g, [])
  end.

Definition _accept_follow_request (request_user_id target_user_id : UUID)
    (current_time : Time) (g : Graph)
    : result AcceptFollowRequestRecord * Graph :=
  let (g', rows) :=
    accept_follow_query request_user_id target_user_id current_time g in
  match single rows with
  | Some record =>
      match getitem record "result" with
      | Ok m => (AcceptFollowRequestRecord_new m, g')
      | Err e => (Err e, g')
      end
  | None =>
      (Err (Raise FollowRequestNotFoundError
              "Follow request not found or already processed"), g')
  end.

Definition accept_request (request_user_id target_user_id : UUID)
    (current_time : Time) (g : Graph)
    : result AcceptFollowRequestRecord * Graph :=
  match execute_write
          (_accept_follow_request request_user_id target_user_id current_time)
          g with
  | (Ok r, g') => (Ok r, g')
  | (Err e, g') =>
      if isinstance e FollowRequestNotFoundError then (Err e, g')
      else (Err (Raise FollowRequestError
                   ("Failed to accept follow request: " +:+ exn_str e)), g')
  end.

(** The query of [_deny_follow_request], with the number of relationships
    it deleted. *)
Definition deny_follow_query (request_user_id target_user_id : UUID)
    (g : Graph) : Graph * nat :=
  match users g !! request_user_id, users g !! target_user_id,
        REQUESTED_TO_FOLLOW g !! (request_user_id, target_user_id) with
  | Some _, Some _, Some request =>
      if is_pending request then
        (set_REQUESTED_TO_FOLLOW
           (delete (request_user_id, target_user_id)) g, 1)
      else (g, 0)
  | _, _, _ => (g, 0)
  end.

Definition _deny_follow_request (request_user_id target_user_id : UUID)
    (g : Graph) : result unit * Graph :=
  let (g', relationships_deleted) :=
    deny_follow_query request_user_id target_user_id g in
  if Nat.eqb relationships_deleted 0 then
    (Err (Raise FollowRequestNotFoundError
            "Follow request not found or already processed"), g')
  else (Ok tt, g').

Definition deny_request (request_user_id target_user_id : UUID) (g : Graph)
    : result unit * Graph :=
  match execute_write (_deny_follow_request request_user_id target_user_id)
          g with
  | (Ok _, g') => (Ok tt, g')
  | (Err e, g') =>
      if isinstance e FollowRequestNotFoundError then (Err e, g')
      else (Err (Raise FollowRequestError
                   ("Failed to deny follow request: " +:+ exn_str e)), g')
  end.

End FollowService.

(** ** [app/models/like.py] and [app/services/like.py] *)

Inductive ContentType := POST | COMMENT_CONTENT.

Definition ContentType_value (c : ContentType) : string :=
  match c with POST => "post" | COMMENT_CONTENT => "comment" end.

Definition ContentType_of_value (s : string) : option ContentType :=
  if String.eqb s "post" then Some POST
  else if String.eqb s "comment" then Some COMMENT_CONTENT
  else None.

Record Like := {
  like_user_id : UUID;
  content_id : UUID;
  content_type : ContentType;
  like_created_at : Time
}.

Definition kw_content_type (kw : kwargs) (k : string) : option ContentType :=
  match kw_get kw k with
  | Some (VStr s) => ContentType_of_value s
  | _ => None
  end.

Definition Like_new (v : val) : result Like :=
  match v with
  | VMap kw =>
      match kw_id kw "user_id", kw_id kw "content_id",
            kw_content_type kw "content_type", kw_time kw "created_at" with
      | Some u, Some c, Some t, Some d =>
          Ok {| like_user_id := u; content_id := c; content_type := t;
                like_created_at := d |}
      | u, c, t, d =>
          Err (validation_error "Like"
                 (missing u + missing c + missing t + missing d))
      end
  | _ => Err (Raise Exception "argument after ** must be a mapping")
  end.

Module LikeService.

(** The first query of [_create_post_like].  [r.created_at] was written
    from [datetime.now(UTC)] and is returned as the database keeps it. *)
Definition create_post_like_query (post_id user_id : UUID)
    (content_type : ContentType) (current_datetime : Time) (g : Graph)
    : Graph * list Row :=
  match users g !! user_id, posts g !! post_id with
  | Some _, Some post =>
      (* MERGE (user)-[r:LIKED]->(post) ON CREATE SET ... *)
      let '(g', created_at) :=
        match LIKED g !! (user_id, post_id) with
        | Some t => (g, t)
        | None =>
            (set_posts
               (insert post_id
                  {| like_count := Some (coalesce (like_count post) 0 + 1)%Z |})
               (set_LIKED (insert (user_id, post_id) current_datetime) g),
             current_datetime)
        end in
      (g', [("like",
             VMap [("user_id", VId user_id);
                   ("content_id", VId post_id);
                   ("content_type", VStr (ContentType_value content_type));
                   ("created_at", VDateTime created_at)])])
  | _, _ => (g, [])
  end.

(** The check queries of [_create_post_like] and [_remove_post_like]:
    [user_exists], [post_exists] and [like_exists] of the row, if any. *)
Definition like_check_query (post_id user_id : UUID) (g : Graph)
    : list (bool * bool * bool) :=
  match users g !! user_id, posts g !! post_id with
  | Some _, Some _ =>
      [(true, true, bool_decide (is_Some (LIKED g !! (user_id, post_id))))]
  | _, _ => []
  end.

Definition _create_post_like (post_id user_id : UUID)
    (content_type : ContentType) (current_datetime : Time) (g : Graph)
    : result Like * Graph :=
  let (g', rows) :=
    create_post_like_query post_id user_id content_type current_datetime g in
  match single rows with
  | Some record =>
      match getitem record "like" with
      | Ok m => (Like_new m, g')
      | Err e => (Err e, g')
      end
  | None =>
      match head (like_check_query post_id user_id g') with
      | Some (user_exists, post_exists, _) =>
          if negb user_exists then
            (Err (Raise ValueError "User not found"), g')
          else if negb post_exists then
            (Err (Raise ValueError "Post not found"), g')
          else
            (Err (Raise ValueError
                    "Something went wrong while liking the post"), g')
      | None =>
          (Err (Raise ValueError
                  "Something went wrong while liking the post"), g')
      end
  end.

Definition like_post (user_id post_id : UUID) (content_type : ContentType)
    (current_datetime : Time) (g : Graph) : result Like * Graph :=
  execute_write
    (_create_post_like post_id user_id content_type current_datetime) g.

(** The first query of [_remove_post_like]. *)
Definition remove_post_like_query (post_id user_id : UUID) (g : Graph)
    : Graph * list Row :=
  match users g !! user_id, posts g !! post_id with
  | Some _, Some post =>
      match LIKED g !! (user_id, post_id) with
      | Some _ =>
          (set_posts
             (insert post_id
                {| like_count := null_add (like_count post) (-1) |})
             (set_LIKED (delete (user_id, post_id)) g),
           [("result", VMap [("success", VBool true)])])
      | None => (g, [])
      end
  | _, _ => (g, [])
  end.

Definition _remove_post_like (post_id user_id : UUID) (g : Graph)
    : result unit * Graph :=
  let (g', rows) := remove_post_like_query post_id user_id g in
  match single rows with
  | Some _ => (Ok tt, g')
  | None =>
      match head (like_check_query post_id user_id g') with
      | Some (user_exists, post_exists, like_exists) =>
          if negb user_exists then
            (Err (Raise ValueError "User not found"), g')
          else if negb post_exists then
            (Err (Raise ValueError "Post not found"), g')
          else if negb like_exists then
            (Err (Raise ValueError "You haven't liked this post"), g')
          else
            (Err (Raise ValueError
                    "Something went wrong removing your post like"), g')
      | None =>
          (Err (Raise ValueError
                  "Something went wrong removing your post like"), g')
      end
  end.

Definition unlike_post (user_id post_id : UUID) (g : Graph)
    : result unit * Graph :=
  execute_write (_remove_post_like post_id user_id) g.

End LikeService.

(** ** [app/models/dating.py] *)

Record DatingProfile := {
  user_id : UUID;
  bio : string;
  birth_date : Z;
  gender : Gender;
  sexuality : Sexuality;
  photos : list string;
  max_distance_miles : Q;
  min_age_preference : Z;
  max_age_preference : Z;
  gender_preference : list Gender;
  is_visible : bool;
  created_at : Time;
  updated_at : Time
}.

(** The keyword arguments of [DatingProfile(...)]; a field with a default
    may be left out.  A photo is the text of an [HttpUrl] that has been
    parsed. *)
Record DatingProfileArgs := {
  a_user_id : UUID;
  a_bio : string;
  a_birth_date : Z;
  a_gender : Gender;
  a_sexuality : Sexuality;
  a_photos : list string;
  a_max_distance_miles : option Q;
  a_min_age_preference : option Z;
  a_max_age_preference : option Z;
  a_gender_preference : list Gender;
  a_is_visible : option bool;
  a_created_at : Time;
  a_updated_at : Time
}.

(** [validate_age]: [age = (date.today() - v).days / 365.25], rejected when
    [age < 18] or [age > 100].  With [365.25 = 1461 / 4] the two tests are
    comparisons of integers. *)
Definition validate_age (today v : Z) : bool :=
  let days := (today - v)%Z in
  negb (4 * days <? 18 * 1461)%Z && negb (100 * 1461 <? 4 * days)%Z.

(** [Field(ge=lo, le=hi)] on an integer. *)
Definition int_in_range (lo hi v : Z) : bool :=
  (lo <=? v)%Z && (v <=? hi)%Z.

Definition num_in_range (lo hi v : Q) : bool :=
  Qle_bool lo v && Qle_bool v hi.

(** [info.data.get("min_age_preference", 18)]: the field when it passed
    its own validation (or took its default), 18 when it failed. *)
Definition validated_min_age (m : option Z) : Z :=
  match m with
  | None => 18%Z
  | Some v => if int_in_range 18 100 v then v else 18%Z
  end.

(** [validate_age_range], run after the range check of the field; a
    default is not validated. *)
Definition validate_max_age (min_given max_given : option Z) : bool :=
  match max_given with
  | None => true
  | Some v =>
      int_in_range 18 100 v && negb (v <? validated_min_age min_given)%Z
  end.

Definition opt_check {A} (f : A -> bool) (x : option A) : bool :=
  match x with None => true | Some v => f v end.

(** A value given to the field [birth_date: date]: a Python [date], or
    the [neo4j.time.Date] the driver returns for a property written by
    Cypher's [date()], which the field refuses before its validator
    runs. *)
Inductive date_input :=
| PyDate (d : Z)
| Neo4jDate (d : Z).

Definition birth_date_accepted (today : Z) (v : date_input) : bool :=
  match v with
  | PyDate d => validate_age today d
  | Neo4jDate _ => false
  end.

(** The fields of [DatingProfile] that fail validation, in declaration
    order; [birth_date_ok] tells whether [birth_date] passed. *)
Definition DatingProfile_field_errors (birth_date_ok : bool)
    (a : DatingProfileArgs) : list string :=
  (if (String.length (a_bio a) <=? 500)%nat then [] else ["bio"]) ++
  (if birth_date_ok then [] else ["birth_date"]) ++
  (if (length (a_photos a) <=? 5)%nat then [] else ["photos"]) ++
  (if opt_check (num_in_range 1 100) (a_max_distance_miles a)
   then [] else ["max_distance_miles"]) ++
  (if opt_check (int_in_range 18 100) (a_min_age_preference a)
   then [] else ["min_age_preference"]) ++
  (if validate_max_age (a_min_age_preference a) (a_max_age_preference a)
   then [] else ["max_age_preference"]) ++
  (match a_gender_preference a with
   | [] => ["gender_preference"]
   | _ :: _ => []
   end).

Definition DatingProfile_errors (today : Z) (a : DatingProfileArgs)
    : list string :=
  DatingProfile_field_errors
    (birth_date_accepted today (PyDate (a_birth_date a))) a.

Definition DatingProfile_build (birth_date_ok : bool) (a : DatingProfileArgs)
    : result DatingProfile :=
  match DatingProfile_field_errors birth_date_ok a with
  | [] =>
      Ok {| user_id := a_user_id a;
            bio := a_bio a;
            birth_date := a_birth_date a;
            gender := a_gender a;
            sexuality := a_sexuality a;
            photos := a_photos a;
            max_distance_miles := coalesce (a_max_distance_miles a) 50%Q;
            min_age_preference := coalesce (a_min_age_preference a) 18%Z;
            max_age_preference := coalesce (a_max_age_preference a) 100%Z;
            gender_preference := a_gender_preference a;
            is_visible := coalesce (a_is_visible a) true;
            created_at := a_created_at a;
            updated_at := a_updated_at a |}
  | e :: l => Err (validation_error "DatingProfile" (length (e :: l)))
  end.

(** [DatingProfile(...)] with a Python [date] for [birth_date]. *)
Definition DatingProfile_new (today : Z) (a : DatingProfileArgs)
    : result DatingProfile :=
  DatingProfile_build (birth_date_accepted today (PyDate (a_birth_date a))) a.

(** What the docstrings and validators of [DatingProfile] promise of a
    profile on the day [today]. *)
Definition DatingProfile_invariant (today : Z) (p : DatingProfile) : Prop :=
  (18 * 1461 <= 4 * (today - birth_date p) <= 100 * 1461)%Z /\
  (length (photos p) <= 5)%nat /\
  gender_preference p <> [] /\
  (min_age_preference p <= max_age_preference p)%Z.

Record DatingMatch := {
  dm_match_id : UUID;
  user_id_a : UUID;
  user_id_b : UUID;
  user_a_action : option InteractionType;
  user_b_action : option InteractionType;
  distance_miles : Q;
  compatibility_score : Q;
  is_mutual : bool;
  dm_created_at : Time;
  dm_updated_at : Time
}.

Definition InteractionType_of_value (s : string) : option InteractionType :=
  find (fun a => String.eqb (InteractionType_value a) s)
    [LIKE; COMMENT; SHARE; FOLLOW; BLOCK; REPORT; SWIPE_LEFT; SWIPE_RIGHT;
     SUPER_LIKE; MATCH; MESSAGE].

(** A field typed [InteractionType | None = None]. *)
Definition kw_action (kw : kwargs) (k : string)
    : option (option InteractionType) :=
  match kw_get kw k with
  | None | Some VNull => Some None
  | Some (VStr s) =>
      match InteractionType_of_value s with
      | Some a => Some (Some a)
      | None => None
      end
  | Some _ => None
  end.

(** [compatibility_score: Field(ge=0, le=1)] and [is_mutual: bool = False] *)
Definition kw_score (kw : kwargs) (k : string) : option Q :=
  match kw_num kw k with
  | Some c => if num_in_range 0 1 c then Some c else None
  | None => None
  end.

Definition kw_bool_default (kw : kwargs) (k : string) (d : bool)
    : option bool :=
  match kw_get kw k with
  | None => Some d
  | Some (VBool b) => Some b
  | Some _ => None
  end.

Definition DatingMatch_new (v : val) : result DatingMatch :=
  match v with
  | VMap kw =>
      match kw_id kw "match_id", kw_id kw "user_id_a", kw_id kw "user_id_b",
            kw_action kw "user_a_action", kw_action kw "user_b_action",
            kw_num kw "distance_miles", kw_score kw "compatibility_score",
            kw_bool_default kw "is_mutual" false,
            kw_time kw "created_at", kw_time kw "updated_at" with
      | Some m, Some a, Some b, Some aa, Some ab, Some d, Some c, Some im,
        Some ca, Some ua =>
          Ok {| dm_match_id := m; user_id_a := a; user_id_b := b;
                user_a_action := aa; user_b_action := ab;
                distance_miles := d; compatibility_score := c;
                is_mutual := im;
                dm_created_at := ca; dm_updated_at := ua |}
      | m, a, b, aa, ab, d, c, im, ca, ua =>
          Err (validation_error "DatingMatch"
                 (missing m + missing a + missing b + missing aa + missing ab
                  + missing d + missing c + missing im + missing ca
                  + missing ua))
      end
  | _ => Err (Raise Exception "argument after ** must be a mapping")
  end.

Record DatingFilter := {
  f_max_distance_miles : Q;
  min_age : Z;
  max_age : Z;
  f_gender_preference : option (list Gender);
  exclude_seen : bool;
  exclude_matched : bool;
  min_compatibility : Q;
  limit : Z;
  offset : Z
}.

(** The [Field] bounds and the validator of [DatingFilter]. *)
Definition DatingFilter_valid (f : DatingFilter) : bool :=
  num_in_range 1 100 (f_max_distance_miles f) &&
  int_in_range 18 100 (min_age f) &&
  int_in_range 18 100 (max_age f) &&
  negb (max_age f <? min_age f)%Z &&
  num_in_range 0 1 (min_compatibility f) &&
  int_in_range 1 100 (limit f) &&
  (0 <=? offset f)%Z.

(** ** [app/services/dating.py] *)

Record MatchRow := {
  row_profile : ProfileNode;
  row_age : Z;
  row_score : Q
}.

(** [point({latitude: .., longitude: ..})], null when a coordinate is. *)
Definition point (u : UserNode) : option (Q * Q) :=
  match latitude u, longitude u with
  | Some la, Some lo => Some (la, lo)
  | _, _ => None
  end.

Definition meters_to_miles : Q := 621371 # 1000000000.

Definition Qsum (l : list Q) : Q := fold_right Qplus 0%Q l.

Definition Qavg (l : list Q) : Q :=
  (Qsum l / inject_Z (Z.of_nat (length l)))%Q.

(** The profile map of a row as keyword arguments of [DatingProfile]; the
    extra keys [age] and [compatibility_score] name no field.  The
    timestamps are the ISO strings [_create_dating_profile] stored, the
    other properties strings, numbers and lists; [birth_date] is set apart
    ([DatingProfile_of_node]). *)
Definition args_of_node (n : ProfileNode) : DatingProfileArgs :=
  {| a_user_id := p_user_id n;
     a_bio := p_bio n;
     a_birth_date := p_birth_date n;
     a_gender := p_gender n;
     a_sexuality := p_sexuality n;
     a_photos := p_photos n;
     a_max_distance_miles := Some (p_max_distance_miles n);
     a_min_age_preference := Some (p_min_age_preference n);
     a_max_age_preference := Some (p_max_age_preference n);
     a_gender_preference := p_gender_preference n;
     a_is_visible := Some (p_is_visible n);
     a_created_at := p_created_at n;
     a_updated_at := p_updated_at n |}.

(** [DatingProfile] built from the map of a stored node, whose
    [birth_date] is a [neo4j.time.Date]. *)
Definition DatingProfile_of_node (today : Z) (n : ProfileNode)
    : result DatingProfile :=
  DatingProfile_build (birth_date_accepted today (Neo4jDate (p_birth_date n)))
    (args_of_node n).

(** Python [l[o:]]. *)
Definition slice_from {A} (o : Z) (l : list A) : list A :=
  if (0 <=? o)%Z then skipn (Z.to_nat o) l
  else skipn (length l - Z.to_nat (- o)) l.

Module DatingService.

Section Engine.

(** Functions the graph engine and its extensions provide:
    [apoc.date.diff(birth, today, 'years')], [gds.similarity.cosine] and
    [point.distance] (in meters). *)
Variable apoc_date_diff_years : Z -> Z -> Z.
Variable gds_similarity_cosine : list Q -> list Q -> Q.
Variable point_distance : Q * Q -> Q * Q -> Q.

(** The verdict of the engine on the text of the query of
    [_get_potential_matches], which has a [USING INDEX] hint that names an
    index and no label and property, a [#] comment, and [avg] applied to a
    list inside a [CASE] over a variable that is no grouping key: [None]
    when the engine runs the query, the message of the [CypherSyntaxError]
    that [tx.run] raises when it does not.  [potential_matches_query] below
    is what the clauses of the query compute when it runs. *)
Variable query_rejected : option string.

(** [NOT (a)-[:BLOCKS|BLOCKED_BY]->(b)] *)
Definition blocks_or_blocked_by (g : Graph) (a b : UUID) : bool :=
  has_rel (BLOCKS g) a b || has_rel (BLOCKED_BY g) a b.

Definition embedding_sim (user target : UserNode) : option Q :=
  match embedding user, embedding target with
  | Some a, Some b => Some (gds_similarity_cosine a b)
  | _, _ => None
  end.

(** [OPTIONAL MATCH (user)-[sim:SIMILAR]-(target)]: one row for each
    relationship in either direction, one row with null when none.  The
    rows are grouped by [collect(int)] further down, with [node_sim] among
    the keys: two relationships of equal similarity end in one row (whose
    collected list holds every interaction twice, which leaves the mean as
    it is). *)
Definition node_sims (g : Graph) (u t : UUID) : list (option Q) :=
  match SIMILAR g !! (u, t), SIMILAR g !! (t, u) with
  | None, None => [None]
  | Some a, None => [Some a]
  | None, Some b => [Some b]
  | Some a, Some b => if Qeq_bool a b then [Some a] else [Some a; Some b]
  end.

(** The [CASE] that defines [distance_miles]. *)
Definition candidate_distance (user target : UserNode) : option Q :=
  match point user, point target with
  | Some p, Some q => Some (point_distance p q * meters_to_miles)%Q
  | _, _ => Some 10000%Q
  end.

(** [collect(int)] over
    [(user)-[int:INTERACTED_WITH]->(post:Post)<-[:POSTED]-(target)]. *)
Definition interactions (g : Graph) (u t : UUID) : list InteractionRel :=
  flat_map
    (fun '(a, p, i) =>
       if N.eqb a u && bool_decide (is_Some (posts g !! p))
          && bool_decide ((t, p) ∈ POSTED g)
       then [i] else [])
    (INTERACTED_WITH g).

(** The mean of [completion_rate * size(engagement_signals) * boost] over
    the interactions, 0 when there are none. *)
Definition interaction_score (ints : list InteractionRel) : Q :=
  match ints with
  | [] => 0%Q
  | _ :: _ =>
      Qavg (map (fun i =>
                   completion_rate i
                   * inject_Z (Z.of_nat (length (engagement_signals i)))
                   * (if unregretted i then 3 # 2 else 1))%Q
                ints)
  end.

(** The compatibility score of the query. *)
Definition compatibility (embedding_sim node_sim : option Q)
    (interaction_score : Q) (distance_miles : option Q)
    (max_distance_miles : Q) : Q :=
  (coalesce embedding_sim 0 * (3 # 10)
   + coalesce node_sim 0 * (2 # 10)
   + interaction_score * (2 # 10)
   + match distance_miles with
     | Some d => (1 - d / max_distance_miles) * (3 # 10)
     | None => 15 # 100
     end)%Q.

(** [ORDER BY compatibility_score DESC]: insertion keeps the relative
    order of rows with equal scores. *)
Fixpoint insert_desc (r : MatchRow) (l : list MatchRow) : list MatchRow :=
  match l with
  | [] => [r]
  | x :: xs =>
      if Qle_bool (row_score r) (row_score x) then x :: insert_desc r xs
      else r :: l
  end.

Definition order_by_score_desc (l : list MatchRow) : list MatchRow :=
  fold_right insert_desc [] l.

(** The rows one candidate [(target)-[:HAS_DATING_PROFILE]->(target_profile)]
    contributes, clause by clause. *)
Definition candidate_rows (today : Z) (g : Graph) (user_id : UUID)
    (user : UserNode) (min_age max_age : Z) (gender_preference : list Gender)
    (max_distance_miles : Q) (c : UUID * ProfileNode) : list MatchRow :=
  let '(target_id, target_profile) := c in
  match users g !! target_id with
  | None => []
  | Some target =>
      if N.eqb target_id user_id
         || negb (p_is_visible target_profile)
         || blocks_or_blocked_by g user_id target_id
         || blocks_or_blocked_by g target_id user_id
      then []
      else
        let target_age :=
          apoc_date_diff_years (p_birth_date target_profile) today in
        if negb ((min_age <=? target_age)%Z && (target_age <=? max_age)%Z
                 && bool_decide (p_gender target_profile ∈ gender_preference))
        then []
        else
          let emb := embedding_sim user target in
          flat_map
            (fun node_sim =>
               let distance_miles := candidate_distance user target in
               if match distance_miles with
                  | None => true
                  | Some d => Qle_bool d max_distance_miles
                  end
               then
                 [{| row_profile := target_profile;
                     row_age := target_age;
                     row_score :=
                       compatibility emb node_sim
                         (interaction_score (interactions g user_id target_id))
                         distance_miles max_distance_miles |}]
               else [])
            (node_sims g user_id target_id)
  end.

(** The query of [_get_potential_matches]. *)
Definition potential_matches_query (today : Z) (user_id : UUID)
    (min_age max_age : Z) (gender_preference : list Gender)
    (max_distance_miles : Q) (offset limit : nat) (g : Graph)
    : list MatchRow :=
  match users g !! user_id with
  | None => []
  | Some user =>
      firstn limit
        (skipn offset
           (order_by_score_desc
              (flat_map
                 (fun user_profile : UUID * ProfileNode =>
                    flat_map
                      (candidate_rows today g user_id user min_age max_age
                         gender_preference max_distance_miles)
                      (dating_profiles g))
                 (filter (fun c => N.eqb (fst c) user_id)
                    (dating_profiles g)))))
  end.

(** The query of [_check_existing_match]. *)
Definition _check_existing_match (user_id target_id : UUID) (g : Graph)
    : bool :=
  bool_decide (is_Some (users g !! user_id))
  && bool_decide (is_Some (users g !! target_id))
  && (has_rel (DATING_MATCH g) user_id target_id
      || has_rel (DATING_MATCH g) target_id user_id).

(** The loop of [_get_potential_matches] over the rows still to read. *)
Fixpoint matches_loop (today : Z) (g : Graph) (user_id : UUID)
    (filters : DatingFilter) (seen_ids : gset UUID) (rows : list MatchRow)
    (matches : list DatingProfile) : result (list DatingProfile) :=
  match rows with
  | [] => Ok matches
  | record :: rest =>
      let profile_data := row_profile record in
      if exclude_seen filters
         && bool_decide (p_user_id profile_data ∈ seen_ids)
      then matches_loop today g user_id filters seen_ids rest matches
      else if exclude_matched filters
              && _check_existing_match user_id (p_user_id profile_data) g
      then matches_loop today g user_id filters seen_ids rest matches
      else if negb (Qle_bool (min_compatibility filters) (row_score record))
      then matches_loop today g user_id filters seen_ids rest matches
      else
        match DatingProfile_of_node today profile_data with
        | Err e => Err e
        | Ok p =>
            let matches' := (matches ++ [p])%list in
            if (limit filters <=? Z.of_nat (length matches'))%Z
            then Ok matches'
            else matches_loop today g user_id filters seen_ids rest matches'
        end
  end.

(** [[g.value for g in filters.gender_preference]
     if filters.gender_preference else []] *)
Definition gender_preference_param (filters : DatingFilter) : list Gender :=
  match f_gender_preference filters with
  | Some (x :: l) => x :: l
  | _ => []
  end.

Definition _get_potential_matches (today : Z) (user_id : UUID)
    (filters : DatingFilter) (g : Graph) : result (list DatingProfile) :=
  match query_rejected with
  | Some message => Err (Raise CypherSyntaxError message)
  | None =>
      let result :=
        potential_matches_query today user_id (min_age filters)
          (max_age filters) (gender_preference_param filters)
          (f_max_distance_miles filters) 0 1000 g in
      let seen_ids : gset UUID := ∅ in
      match matches_loop today g user_id filters seen_ids result [] with
      | Ok matches => Ok (slice_from (offset filters) matches)
      | Err e => Err e
      end
  end.

Definition get_potential_matches (today : Z) (user_id : UUID)
    (filters : DatingFilter) (g : Graph) : result (list DatingProfile) :=
  _get_potential_matches today user_id filters g.

(** The first query of [_record_dating_action]: [is_blocked] of the row,
    if both users exist. *)
Definition action_check_query (user_id target_id : UUID) (g : Graph)
    : list (bool * bool * bool) :=
  match users g !! user_id, users g !! target_id with
  | Some _, Some _ =>
      [(true, true,
        has_rel (BLOCKS g) user_id target_id
        || has_rel (BLOCKS g) target_id user_id)]
  | _, _ => []
  end.

Definition is_positive (action : InteractionType) : bool :=
  match action with
  | SWIPE_RIGHT | SUPER_LIKE => true
  | _ => false
  end.

(** Membership in [{SWIPE_RIGHT, SWIPE_LEFT, SUPER_LIKE}]. *)
Definition is_dating_action (action : InteractionType) : bool :=
  match action with
  | SWIPE_RIGHT | SWIPE_LEFT | SUPER_LIKE => true
  | _ => false
  end.

Definition has_action (g : Graph) (a b : UUID) (t : InteractionType) : bool :=
  bool_decide (is_Some (DATING_ACTION g !! (a, b, t))).

(** [MERGE (user)-[match:DATING_MATCH]-(target)]: the relationship in
    either direction, if there is one. *)
Definition find_match (g : Graph) (a b : UUID) : option MatchRel :=
  match DATING_MATCH g !! (a, b) with
  | Some m => Some m
  | None => DATING_MATCH g !! (b, a)
  end.

(** The second query of [_record_dating_action]. *)
Definition record_action_query (user_id target_id : UUID)
    (action : InteractionType) (new_match_id : UUID) (current_time : Time)
    (g : Graph) : Graph * list Row :=
  match users g !! user_id, users g !! target_id with
  | Some user, Some target =>
      (* MERGE (user)-[action:DATING_ACTION {type: $action}]->(target)
         SET action.updated_at = $current_time *)
      let g1 :=
        set_DATING_ACTION (insert (user_id, target_id, action) current_time) g in
      let they_like := has_action g1 target_id user_id SWIPE_RIGHT in
      let they_super := has_action g1 target_id user_id SUPER_LIKE in
      if is_positive action && (they_like || they_super) then
        let '(g2, m) :=
          match find_match g1 user_id target_id with
          | Some m => (g1, m)
          | None =>
              let m := {| match_id := new_match_id;
                          match_created_at := current_time;
                          match_updated_at := current_time;
                          match_compatibility_score := 0 |} in
              (set_DATING_MATCH (insert (user_id, target_id) m) g1, m)
          end in
        (g2,
         [("match",
           VMap [("match_id", VId (match_id m));
                 ("user_id_a", VId user_id);
                 ("user_id_b", VId target_id);
                 ("user_a_action", VStr (InteractionType_value action));
                 ("user_b_action",
                  VStr (if they_super then "SUPER_LIKE" else "SWIPE_RIGHT"));
                 ("distance_miles",
                  match point user, point target with
                  | Some p, Some q =>
                      VNum (point_distance p q * meters_to_miles)%Q
                  | _, _ => VNull
                  end);
                 ("compatibility_score", VNum 0);
                 ("is_mutual", VBool true);
                 ("created_at", VTime (match_created_at m));
                 ("updated_at", VTime (match_updated_at m))])])
      else (g1, [])
  | _, _ => (g, [])
  end.

(** The body of the [try] of [_record_dating_action]. *)
Definition record_dating_action_body (user_id target_id : UUID)
    (action : InteractionType) (new_match_id : UUID) (current_time : Time)
    (g : Graph) : result (option DatingMatch) * Graph :=
  match head (action_check_query user_id target_id g) with
  | None => (Err (Raise ActionRecordingError "Failed to verify users"), g)
  | Some (user_exists, target_exists, is_blocked) =>
      if negb user_exists then
        (Err (Raise ActionRecordingError "User not found"), g)
      else if negb target_exists then
        (Err (Raise ActionRecordingError "Target user not found"), g)
      else if is_blocked then
        (Err (Raise ActionRecordingError "Cannot interact with blocked user"),
         g)
      else
        let (g', rows) :=
          record_action_query user_id target_id action new_match_id
            current_time g in
        match single rows with
        | Some record =>
            match getitem record "match" with
            | Ok m =>
                match DatingMatch_new m with
                | Ok d => (Ok (Some d), g')
                | Err e => (Err e, g')
                end
            | Err e => (Err e, g')
            end
        | None => (Ok None, g')
        end
  end.

(** The [except Exception] clause of [_record_dating_action]. *)
Definition record_action_handler (e : exn) : exn :=
  if contains "match" (lower (exn_str e))
  then Raise MatchCreationError ("Failed to create match: " +:+ exn_str e)
  else Raise ActionRecordingError ("Failed to record action: " +:+ exn_str e).

Definition _record_dating_action (user_id target_id : UUID)
    (action : InteractionType) (new_match_id : UUID) (current_time : Time)
    (g : Graph) : result (option DatingMatch) * Graph :=
  match record_dating_action_body user_id target_id action new_match_id
          current_time g with
  | (Ok r, g') => (Ok r, g')
  | (Err e, g') => (Err (record_action_handler e), g')
  end.

Definition record_dating_action (user_id target_id : UUID)
    (action : InteractionType) (new_match_id : UUID) (current_time : Time)
    (g : Graph) : result (option DatingMatch) * Graph :=
  if N.eqb user_id target_id then
    (Err (Raise ActionRecordingError
            "Cannot perform dating action on yourself"), g)
  else if negb (is_dating_action action)
  then (Err (Raise ActionRecordingError "Invalid dating action type"), g)
  else
    execute_write
      (_record_dating_action user_id target_id action new_match_id
         current_time) g.

(** The query of [_record_profile_view], with the numbers of
    relationships created and of properties set. *)
Definition record_profile_view_query (viewer_id creator_id : UUID)
    (current_time : Time) (g : Graph) : Graph * (nat * nat) :=
  match users g !! viewer_id, users g !! creator_id with
  | Some _, Some _ =>
      if N.eqb viewer_id creator_id then (g, (0, 0))
      else
        match DATING_PROFILE_VIEW g !! (viewer_id, creator_id) with
        | None =>
            (set_DATING_PROFILE_VIEW
               (insert (viewer_id, creator_id)
                  {| view_count := 1; view_created_at := current_time;
                     view_updated_at := current_time |}) g,
             (1, 3))
        | Some v =>
            (set_DATING_PROFILE_VIEW
               (insert (viewer_id, creator_id)
                  {| view_count := view_count v + 1;
                     view_created_at := view_created_at v;
                     view_updated_at := current_time |}) g,
             (0, 2))
        end
  | _, _ => (g, (0, 0))
  end.

Definition _record_profile_view (viewer_id creator_id : UUID)
    (current_time : Time) (g : Graph) : result unit * Graph :=
  let '(g', (relationships_created, properties_set)) :=
    record_profile_view_query viewer_id creator_id current_time g in
  if Nat.eqb relationships_created 0 && Nat.eqb properties_set 0 then
    (Err (Raise ValueError "Failed to record profile view"), g')
  else (Ok tt, g').

(** The query of [_get_dating_profile]. *)
Definition get_profile_query (user_id : UUID) (g : Graph)
    : list ProfileNode :=
  match users g !! user_id with
  | None => []
  | Some _ =>
      map snd (filter (fun c => N.eqb (fst c) user_id) (dating_profiles g))
  end.

Definition _get_dating_profile (today : Z) (user_id : UUID) (g : Graph)
    : result DatingProfile :=
  match head (get_profile_query user_id g) with
  | Some profile_data => DatingProfile_of_node today profile_data
  | None => Err (Raise ValueError "Dating profile not found")
  end.

Definition node_of_profile (p : DatingProfile) (created updated : Time)
    : ProfileNode :=
  {| p_user_id := user_id p;
     p_bio := bio p;
     p_birth_date := birth_date p;
     p_gender := gender p;
     p_sexuality := sexuality p;
     p_photos := photos p;
     p_max_distance_miles := max_distance_miles p;
     p_min_age_preference := min_age_preference p;
     p_max_age_preference := max_age_preference p;
     p_gender_preference := gender_preference p;
     p_is_visible := is_visible p;
     p_created_at := created;
     p_updated_at := updated |}.

(** [_create_dating_profile]: the query creates one node when the user
    exists; the profile given is returned as it is. *)
Definition _create_dating_profile (profile : DatingProfile)
    (current_time : Time) (g : Graph) : result DatingProfile * Graph :=
  match users g !! user_id profile with
  | Some _ =>
      (Ok profile,
       set_dating_profiles
         (fun l => (l ++ [(user_id profile,
                           node_of_profile profile current_time current_time)])%list)
         g)
  | None => (Err (Raise ValueError "Failed to create dating profile"), g)
  end.

(** [_update_dating_profile]: [SET profile += {...}] on every profile of
    the user, then [DatingProfile] is built from the first row. *)
Definition _update_dating_profile (today : Z) (profile : DatingProfile)
    (current_time : Time) (g : Graph) : result DatingProfile * Graph :=
  let g' :=
    match users g !! user_id profile with
    | None => g
    | Some _ =>
        set_dating_profiles
          (map (fun c : UUID * ProfileNode =>
                  if N.eqb (fst c) (user_id profile)
                  then (fst c,
                        {| p_user_id := p_user_id (snd c);
                           p_bio := bio profile;
                           p_birth_date := birth_date profile;
                           p_gender := gender profile;
                           p_sexuality := sexuality profile;
                           p_photos := photos profile;
                           p_max_distance_miles := max_distance_miles profile;
                           p_min_age_preference := min_age_preference profile;
                           p_max_age_preference := max_age_preference profile;
                           p_gender_preference := gender_preference profile;
                           p_is_visible := is_visible profile;
                           p_created_at := p_created_at (snd c);
                           p_updated_at := current_time |})
                  else c))
          g
    end in
  match head (get_profile_query (user_id profile) g') with
  | Some profile_data => (DatingProfile_of_node today profile_data, g')
  | None => (Err (Raise ValueError "Failed to update dating profile"), g')
  end.

Definition create_dating_profile (profile : DatingProfile)
    (current_time : Time) (g : Graph) : result DatingProfile * Graph :=
  execute_write (_create_dating_profile profile current_time) g.

Definition get_dating_profile (today : Z) (user_id : UUID) (g : Graph)
    : result DatingProfile :=
  _get_dating_profile today user_id g.

Definition update_dating_profile (today : Z) (profile : DatingProfile)
    (current_time : Time) (g : Graph) : result DatingProfile * Graph :=
  execute_write (_update_dating_profile today profile current_time) g.

End Engine.

End DatingService.

(** ** Observations used in the statements *)

(** [raises r c]: the call raised an exception an [except c] would catch. *)
Definition raises {A} (r : result A) (c : exn_class) : bool :=
  match r with
  | Ok _ => false
  | Err e => isinstance e c
  end.

(** A relationship under key [k] exists after a call and did not before,
    or the other way round. *)
Definition relationship_created {K A} `{Countable K}
    (before after : gmap K A) (k : K) : bool :=
  bool_decide (before !! k = None) && bool_decide (is_Some (after !! k)).


(** The target already has a positive action towards the acting user. *)
Definition they_are_positive (g : Graph) (user_id target_id : UUID) : bool :=
  DatingService.has_action g target_id user_id SWIPE_RIGHT
  || DatingService.has_action g target_id user_id SUPER_LIKE.

(** The action recorded is positive and answers a positive action. *)
Definition mutual (g : Graph) (user_id target_id : UUID)
    (action : InteractionType) : bool :=
  DatingService.is_positive action && they_are_positive g user_id target_id.

(** Non-increasing order of the compatibility score. *)
Definition score_desc (a b : MatchRow) : Prop :=
  (row_score b <= row_score a)%Q.

(** A row passes the post-filters on matched users and on the minimum
    compatibility. *)
Definition qualifies (g : Graph) (user_id : UUID) (filters : DatingFilter)
    (r : MatchRow) : bool :=
  negb (exclude_matched filters
        && DatingService._check_existing_match user_id
             (p_user_id (row_profile r)) g)
  && Qle_bool (min_compatibility filters) (row_score r).



(** The score as the specification words it: a sum with one weighted term
    for each of five signals, recency decay among them. *)
Record ScoreWeights := {
  w_embedding : Q;
  w_node : Q;
  w_interaction : Q;
  w_recency : Q;
  w_distance : Q
}.

Definition spec_weighted_score (w : ScoreWeights)
    (embedding_sim node_sim interaction recency distance_term : Q) : Q :=
  (w_embedding w * embedding_sim + w_node w * node_sim
   + w_interaction w * interaction + w_recency w * recency
   + w_distance w * distance_term)%Q.

(** The inputs [DatingProfile] must reject, on the fields as they would be
    stored. *)
Definition violates_invariant (today : Z) (a : DatingProfileArgs) : Prop :=
  (4 * (today - a_birth_date a) < 18 * 1461)%Z
  \/ (100 * 1461 < 4 * (today - a_birth_date a))%Z
  \/ (5 < length (a_photos a))%nat
  \/ a_gender_preference a = []
  \/ (coalesce (a_max_age_preference a) 100 <
      coalesce (a_min_age_preference a) 18)%Z.

(** A pending request and a follow never join the same ordered pair of
    users. *)
Definition request_excludes_follow (g : Graph) : Prop :=
  forall a b : UUID,
    is_Some (REQUESTED_TO_FOLLOW g !! (a, b)) -> FOLLOWS g !! (a, b) = None.

(** The numbers of [FOLLOWS] relationships leaving and reaching a user,
    and of [LIKED] relationships reaching a post. *)
Definition following_edges (g : Graph) (u : UUID) : nat :=
  size (filter (fun kv : (UUID * UUID) * FollowRel => fst (fst kv) = u)
          (FOLLOWS g)).

Definition follower_edges (g : Graph) (u : UUID) : nat :=
  size (filter (fun kv : (UUID * UUID) * FollowRel => snd (fst kv) = u)
          (FOLLOWS g)).


(** The cached counters of every user, and of every post, are the numbers
    of relationships they stand for. *)
Definition follow_counters_exact (g : Graph) : Prop :=
  forall (u : UUID) (n : UserNode),
    users g !! u = Some n ->
    following_count n = Some (Z.of_nat (following_edges g u))
    /\ follower_count n = Some (Z.of_nat (follower_edges g u)).


(** Every profile node is attached to the user its [user_id] names. *)
Definition profiles_consistent (g : Graph) : Prop :=
  forall (u : UUID) (n : ProfileNode),
    (u, n) ∈ dating_profiles g -> p_user_id n = u.

(** The [DATING_MATCH] relationship a mutual action ends with: the one
    that joins the two users already, in either direction, or a new one
    with the identifier and the time of the call. *)
Definition match_after (g : Graph) (user_id target_id new_match_id : UUID)
    (current_time : Time) : MatchRel :=
  match DatingService.find_match g user_id target_id with
  | Some m => m
  | None => {| match_id := new_match_id; match_created_at := current_time;
               match_updated_at := current_time;
               match_compatibility_score := 0 |}
  end.

(** The graph after [_record_profile_view] ran for the same viewer and
    creator at each of the [times], in turn. *)
Definition view_at_times (viewer_id creator_id : UUID) (times : list Time)
    (g : Graph) : Graph :=
  fold_left
    (fun g now =>
       snd (DatingService._record_profile_view viewer_id creator_id now g))
    times g.

(** ** Example graphs *)

Module Examples.

Definition alice : UUID := 1.
Definition bob : UUID := 2.
Definition carol : UUID := 3.
Definition post7 : UUID := 7.

(** A user as [_create_user_from_auth0] writes it, with the privacy
    setting given. *)
Definition new_user (private : bool) : UserNode :=
  {| following_count := Some 0%Z; follower_count := Some 0%Z;
     is_private := Some private; latitude := None; longitude := None;
     embedding := None; other_errors := 1 |}.

Definition empty_graph : Graph :=
  {| users := ∅; posts := ∅; dating_profiles := [];
     FOLLOWS := ∅; REQUESTED_TO_FOLLOW := ∅; BLOCKS := ∅; BLOCKED_BY := ∅;
     LIKED := ∅; DATING_ACTION := ∅; DATING_MATCH := ∅;
     DATING_PROFILE_VIEW := ∅; SIMILAR := ∅; INTERACTED_WITH := [];
     POSTED := ∅ |}.

(** Alice and Bob are public, Carol is private; one post. *)
Definition three_users : Graph :=
  set_posts (insert post7 {| like_count := Some 0%Z |})
    (set_users (fun _ => {[ alice := new_user false; bob := new_user false;
                            carol := new_user true ]})
       empty_graph).

(** Alice follows Bob: the relationship and the two counters, as the
    query of [_create_follow_relationship] writes them. *)
Definition alice_follows_bob : Graph :=
  set_users
    (fun m => <[bob := set_follower_count (Some 1%Z) (new_user false)]>
                (<[alice := set_following_count (Some 1%Z) (new_user false)]> m))
    (set_FOLLOWS
       (insert (alice, bob)
          {| follow_created_at := 10; request_accepted_at := None |})
       three_users).


(** A dating pool.  Day 20000 is the day of the calls; everybody was born
    on day 9000 and lives at the same place; Alice looks for women. *)
Definition today : Z := 20000.

Definition apoc_date_diff_years (birth now : Z) : Z := ((now - birth) / 365)%Z.
Definition gds_similarity_cosine (a b : list Q) : Q := 1 # 2.
Definition point_distance (p q : Q * Q) : Q := 1000.

Definition dating_user : UserNode :=
  {| following_count := Some 0%Z; follower_count := Some 0%Z;
     is_private := Some false; latitude := Some 48%Q; longitude := Some 2%Q;
     embedding := Some [1%Q; 0%Q]; other_errors := 1 |}.

Definition profile_of (u : UUID) (sex : Gender) (likes : list Gender)
    : ProfileNode :=
  {| p_user_id := u; p_bio := "hello"; p_birth_date := 9000;
     p_gender := sex; p_sexuality := STRAIGHT; p_photos := ["https://example.com/photo1.jpg"];
     p_max_distance_miles := 50; p_min_age_preference := 21;
     p_max_age_preference := 35; p_gender_preference := likes;
     p_is_visible := true; p_created_at := 1; p_updated_at := 1 |}.

Definition dating_pool : Graph :=
  {| users := {[ alice := dating_user; bob := dating_user;
                 carol := dating_user ]};
     posts := ∅;
     dating_profiles := [(alice, profile_of alice MALE [FEMALE]);
                         (carol, profile_of carol FEMALE [MALE]);
                         (bob, profile_of bob FEMALE [MALE])];
     FOLLOWS := ∅; REQUESTED_TO_FOLLOW := ∅; BLOCKS := ∅; BLOCKED_BY := ∅;
     LIKED := ∅; DATING_ACTION := ∅; DATING_MATCH := ∅;
     DATING_PROFILE_VIEW := ∅;
     SIMILAR := {[ (alice, bob) := (1 # 2)%Q ]};
     INTERACTED_WITH := []; POSTED := ∅ |}.

Definition dating_profile_of (u : UUID) (sex : Gender) (likes : list Gender)
    : DatingProfile :=
  {| user_id := u; bio := "hello"; birth_date := 9000;
     gender := sex; sexuality := STRAIGHT;
     photos := ["https://example.com/photo1.jpg"];
     max_distance_miles := 50; min_age_preference := 21;
     max_age_preference := 35; gender_preference := likes;
     is_visible := true; created_at := 1; updated_at := 1 |}.

Definition default_filter : DatingFilter :=
  {| f_max_distance_miles := 50; min_age := 18; max_age := 100;
     f_gender_preference := Some [FEMALE]; exclude_seen := true;
     exclude_matched := true; min_compatibility := 0; limit := 50;
     offset := 0 |}.



(** Bob has swiped right on Alice. *)
Definition bob_likes_alice : Graph :=
  snd (DatingService.record_dating_action point_distance bob alice
         SWIPE_RIGHT 100 40 dating_pool).

(** Alice has blocked Bob. *)
Definition alice_blocks_bob : Graph :=
  set_BLOCKS (insert (alice, bob) 5%N) three_users.

(** Alice has asked to follow Carol, whose account is private: the
    pending request, as the query of [_create_follow_relationship] writes
    it. *)
Definition alice_asked_carol : Graph :=
  set_REQUESTED_TO_FOLLOW
    (insert (alice, carol)
       {| request_created_at := 10; request_status := PENDING |})
    three_users.

(** Bob has swiped right on Alice, whose coordinates are not known. *)
Definition alice_nowhere : Graph :=
  set_users (insert alice (new_user false)) bob_likes_alice.

(** Alice has answered Bob's swipe: they are matched. *)
Definition alice_and_bob_matched : Graph :=
  snd (DatingService.record_dating_action point_distance alice bob
         SWIPE_RIGHT 101 50 bob_likes_alice).

End Examples.

(** * Properties *)

(** ** Self-actions *)

(** C4: [block(u, u)], [follow_user(u, u)] and
    [record_dating_action(u, u, action)] raise [BlockError],
    [FollowCreationError] and [ActionRecordingError]; the guard comes before
    the session is opened, so the graph is the one given, whatever it is. *)
Theorem self_action_raises_before_any_write :
  forall (point_distance : Q * Q -> Q * Q -> Q) (u : UUID)
         (action : InteractionType) (new_match_id : UUID)
         (current_time : Time) (g : Graph),
    BlockService.block u u current_time g
    = (Err (Raise BlockError "Users cannot block themselves"), g)
    /\ FollowService.follow_user u u current_time g
       = (Err (Raise FollowCreationError "Users cannot follow themselves"), g)
    /\ DatingService.record_dating_action point_distance u u action
         new_match_id current_time g
       = (Err (Raise ActionRecordingError
                 "Cannot perform dating action on yourself"), g).
Proof.
  intros pd u action mid now g.
  unfold BlockService.block, FollowService.follow_user,
    DatingService.record_dating_action.
  rewrite N.eqb_refl. auto.
Qed.

(** ** Blocking *)

(** What the query of [_create_block_relationship] writes for two distinct
    existing users: the [BLOCKS] relationship is there, no [FOLLOWS]
    relationship is left in either direction, and each counter goes down by
    one exactly when the relationship it caches was removed. *)
Lemma create_block_query_writes :
  forall (a b : UUID) (now : Time) (g : Graph) (ua ub : UserNode),
    a <> b ->
    users g !! a = Some ua ->
    users g !! b = Some ub ->
    let g' := fst (BlockService.create_block_query a b now g) in
    let f1 := has_rel (FOLLOWS g) a b in
    let f2 := has_rel (FOLLOWS g) b a in
    is_Some (BLOCKS g' !! (a, b))
    /\ FOLLOWS g' !! (a, b) = None
    /\ FOLLOWS g' !! (b, a) = None
    /\ (following_count <$> users g' !! a)
       = Some (if f1 then Some (coalesce (following_count ua) 1 - 1)%Z
               else following_count ua)
    /\ (follower_count <$> users g' !! b)
       = Some (if f1 then Some (coalesce (follower_count ub) 1 - 1)%Z
               else follower_count ub)
    /\ (following_count <$> users g' !! b)
       = Some (if f2 then Some (coalesce (following_count ub) 1 - 1)%Z
               else following_count ub)
    /\ (follower_count <$> users g' !! a)
       = Some (if f2 then Some (coalesce (follower_count ua) 1 - 1)%Z
               else follower_count ua).
Proof.
  intros a b now g ua ub Hab Ha Hb g' f1 f2.
  subst g'. unfold BlockService.create_block_query.
  rewrite Ha, Hb.
  destruct (N.eqb_spec a b) as [->|_]; [congruence|].
  cbn [fst].
  repeat split.
  - cbn. destruct (BLOCKS g !! (a, b)) eqn:E; [rewrite E; eauto|].
    rewrite lookup_insert_eq. eauto.
  - cbn. rewrite lookup_delete_ne by congruence. apply lookup_delete_eq.
  - cbn. apply lookup_delete_eq.
  - cbn. rewrite lookup_insert_ne by congruence.
    rewrite lookup_insert_eq. reflexivity.
  - cbn. rewrite lookup_insert_eq. reflexivity.
  - cbn. rewrite lookup_insert_eq. reflexivity.
  - cbn. rewrite lookup_insert_ne by congruence.
    rewrite lookup_insert_eq. reflexivity.
Qed.

(** The result map of the query has no [blocked_user_id] key, which
    [CreateBlockRecord] requires: the transaction function raises whenever
    the query returned a row. *)
Lemma _create_block_relationship_raises :
  forall (a b : UUID) (now : Time) (g : Graph),
    is_ok (fst (BlockService._create_block_relationship a b now g)) = false.
Proof.
  intros a b now g.
  unfold BlockService._create_block_relationship,
    BlockService.create_block_query.
  destruct (users g !! a), (users g !! b); try reflexivity.
  destruct (N.eqb a b); reflexivity.
Qed.

(** C2: [block(a, b)] never succeeds.  The transaction function raises
    after its query ran, [execute_write] rolls the writes back and [block]
    raises [BlockError] with the graph as it was.  At the example graph,
    where Alice follows Bob, the [FOLLOWS] relationship and both counters
    are still there afterwards and no [BLOCKS] relationship exists. *)
Theorem block_raises_and_rolls_back :
  (forall (a b : UUID) (now : Time) (g : Graph),
      exists msg,
        BlockService.block a b now g = (Err (Raise BlockError msg), g))
  /\ (let g := Examples.alice_follows_bob in
      let g' := snd (BlockService.block Examples.alice Examples.bob 20 g) in
      is_ok (fst (BlockService.block Examples.alice Examples.bob 20 g)) = false
      /\ is_Some (users g !! Examples.alice) /\ is_Some (users g !! Examples.bob)
      /\ BLOCKS g' !! (Examples.alice, Examples.bob) = None
      /\ FOLLOWS g' !! (Examples.alice, Examples.bob)
         = Some {| follow_created_at := 10; request_accepted_at := None |}
      /\ (following_count <$> users g' !! Examples.alice) = Some (Some 1%Z)
      /\ (follower_count <$> users g' !! Examples.bob) = Some (Some 1%Z)).
Proof.
  split.
  - intros a b now g. unfold BlockService.block.
    destruct (N.eqb a b); [eauto|].
    unfold execute_write.
    pose proof (_create_block_relationship_raises a b now g) as H.
    destruct (BlockService._create_block_relationship a b now g) as [[r|e] g1];
      [discriminate H|eauto].
  - vm_compute. repeat split; eauto.
Qed.

(** ** Unblocking *)

(** C9: for two distinct users with no [BLOCKS] relationship from the
    first to the second, whatever else the graph holds, [unblock] raises
    neither [BlockError] nor [BlockNotFoundError].  The query matches
    optionally throughout and returns one row, whose only column is named
    by the text of the returned map, so the lookup of the column [result]
    raises [KeyError]; [except ValueError] does not catch it and it leaves
    [unblock] as it is.  The message "Block does not exist", which the
    transaction function would raise for a missing row, is never raised,
    and the handler would turn it into a plain [BlockError]. *)
Theorem unblock_of_missing_block_raises_KeyError :
  forall (a b : UUID) (g : Graph),
    a <> b ->
    BLOCKS g !! (a, b) = None ->
    BlockService.unblock a b g = (Err (Raise KeyError "'result'"), g)
    /\ raises (fst (BlockService.unblock a b g)) BlockError = false
    /\ raises (fst (BlockService.unblock a b g)) BlockNotFoundError = false
    /\ isinstance (Raise KeyError "'result'") ValueError = false
    /\ BlockService.unblock_handler (Raise ValueError "Block does not exist")
       = Raise BlockError "Failed to unblock user: Block does not exist".
Proof.
  intros a b g Hab _.
  assert (H : BlockService.unblock a b g
              = (Err (Raise KeyError "'result'"), g)).
  { unfold BlockService.unblock.
    destruct (N.eqb_spec a b) as [->|_]; [congruence|].
    reflexivity. }
  rewrite H. repeat split.
Qed.

(** Alice has not blocked Bob and unblocks him. *)
Lemma unblock_of_missing_block_witness :
  BlockService.unblock Examples.alice Examples.bob Examples.three_users
  = (Err (Raise KeyError "'result'"), Examples.three_users)
  /\ raises (fst (BlockService.unblock Examples.alice Examples.bob
                    Examples.three_users)) BlockError = false
  /\ raises (fst (BlockService.unblock Examples.alice Examples.bob
                    Examples.three_users)) BlockNotFoundError = false
  /\ isinstance (Raise KeyError "'result'") ValueError = false
  /\ BlockService.unblock_handler (Raise ValueError "Block does not exist")
     = Raise BlockError "Failed to unblock user: Block does not exist".
Proof.
  apply (unblock_of_missing_block_raises_KeyError Examples.alice Examples.bob
           Examples.three_users); [discriminate | reflexivity].
Defined.

(** ** Following *)

(** What the first query of [_create_follow_relationship] writes for two
    distinct users with no block in either direction, no pending request
    and no follow from the first to the second: towards a private account
    a [PENDING] [REQUESTED_TO_FOLLOW] relationship and nothing on any user
    node; otherwise ([is_private] false or not set) the [FOLLOWS]
    relationship, one more on the follower's [following_count] and on the
    target's [follower_count], and nothing else on any user node.  It
    returns a row in both cases. *)
Lemma create_follow_query_writes :
  forall (a b : UUID) (now : Time) (g : Graph) (ua ub : UserNode),
    a <> b ->
    users g !! a = Some ua ->
    users g !! b = Some ub ->
    BLOCKS g !! (a, b) = None ->
    BLOCKS g !! (b, a) = None ->
    REQUESTED_TO_FOLLOW g !! (a, b) = None ->
    FOLLOWS g !! (a, b) = None ->
    let g' := fst (FollowService.create_follow_query a b now g) in
    length (snd (FollowService.create_follow_query a b now g)) = 1%nat
    /\ match is_private ub with
       | Some true =>
           REQUESTED_TO_FOLLOW g' !! (a, b)
           = Some {| request_created_at := now; request_status := PENDING |}
           /\ FOLLOWS g' = FOLLOWS g
           /\ users g' = users g
       | _ =>
           FOLLOWS g' !! (a, b)
           = Some {| follow_created_at := now; request_accepted_at := None |}
           /\ REQUESTED_TO_FOLLOW g' = REQUESTED_TO_FOLLOW g
           /\ users g' !! a
              = Some (set_following_count
                        (Some (coalesce (following_count ua) 0 + 1)%Z) ua)
           /\ users g' !! b
              = Some (set_follower_count
                        (Some (coalesce (follower_count ub) 0 + 1)%Z) ub)
           /\ (forall c, c <> a -> c <> b -> users g' !! c = users g !! c)
       end.
Proof.
  intros a b now g ua ub Hab Ha Hb Hb1 Hb2 Hreq Hfol g'.
  subst g'. unfold FollowService.create_follow_query, has_rel.
  rewrite Ha, Hb.
  destruct (N.eqb_spec a b) as [->|_]; [congruence|].
  rewrite Hb1, Hb2, Hreq, Hfol.
  rewrite !bool_decide_eq_false_2 by apply is_Some_None.
  cbn [orb].
  destruct (is_private ub) as [[|]|]; cbn.
  - split; [reflexivity|]. split; [apply lookup_insert_eq|].
    split; reflexivity.
  - split; [reflexivity|]. split; [apply lookup_insert_eq|].
    split; [reflexivity|].
    split; [rewrite lookup_insert_ne by congruence; apply lookup_insert_eq|].
    split; [apply lookup_insert_eq|].
    intros c Hca Hcb. rewrite !lookup_insert_ne by congruence. reflexivity.
  - split; [reflexivity|]. split; [apply lookup_insert_eq|].
    split; [reflexivity|].
    split; [rewrite lookup_insert_ne by congruence; apply lookup_insert_eq|].
    split; [apply lookup_insert_eq|].
    intros c Hca Hcb. rewrite !lookup_insert_ne by congruence. reflexivity.
Qed.

(** [CreateFollowRecord] and [AcceptFollowRequestRecord] refuse the result
    map of their queries. *)
Lemma CreateFollowRecord_new_raises kw :
  kw_relationship kw "relationship" = None ->
  exists n,
    CreateFollowRecord_new (VMap kw)
    = Err (validation_error "CreateFollowRecord" n).
Proof.
  intros H. unfold CreateFollowRecord_new. rewrite H.
  destruct (kw_bool kw "success"), (kw_user kw "follower"),
    (kw_user kw "following"); eauto.
Qed.

Lemma AcceptFollowRequestRecord_new_raises kw :
  kw_follow_rel kw "relationship" = None ->
  exists n,
    AcceptFollowRequestRecord_new (VMap kw)
    = Err (validation_error "AcceptFollowRequestRecord" n).
Proof.
  intros H. unfold AcceptFollowRequestRecord_new. rewrite H.
  destruct (kw_bool kw "success"), (kw_user kw "follower"),
    (kw_user kw "following"); eauto.
Qed.

Lemma _create_follow_relationship_raises :
  forall (a b : UUID) (now : Time) (g : Graph),
    is_ok (fst (FollowService._create_follow_relationship a b now g)) = false.
Proof.
  intros a b now g.
  unfold FollowService._create_follow_relationship,
    FollowService.create_follow_query, FollowService.follow_check_query.
  destruct (users g !! a) as [ua|] eqn:Ha; [|cbn; rewrite Ha; reflexivity].
  destruct (users g !! b) as [ub|] eqn:Hb; [|cbn; rewrite Ha, Hb; reflexivity].
  destruct (N.eqb a b).
  { cbn. rewrite Ha, Hb. cbn.
    destruct (has_rel (BLOCKS g) a b), (has_rel (BLOCKS g) b a); reflexivity. }
  destruct (_ || _ || _ || _).
  { cbn. rewrite Ha, Hb. cbn.
    destruct (has_rel (BLOCKS g) a b), (has_rel (BLOCKS g) b a); reflexivity. }
  destruct (is_private ub) as [[|]|]; cbn -[CreateFollowRecord_new];
    match goal with
    | |- context [CreateFollowRecord_new (VMap ?kw)] =>
        destruct (CreateFollowRecord_new_raises kw eq_refl) as [n ->]
    end; reflexivity.
Qed.

(** C8: [follow_user] never succeeds.  The query of
    [_create_follow_relationship] branches on the privacy of the target as
    claimed ([create_follow_query_writes]), but [CreateFollowRecord] is
    then built from a row whose relationship has the timestamp of the
    database, the transaction function raises, [execute_write] rolls the
    writes back and [follow_user] raises [FollowCreationError] with the
    graph as it was.  At the example graph of three users without any
    relationship, Alice following Bob (public) leaves no [FOLLOWS]
    relationship and the counters at 0, and Alice following Carol
    (private) leaves no [REQUESTED_TO_FOLLOW] relationship. *)
Theorem follow_user_raises_and_rolls_back :
  (forall (a b : UUID) (now : Time) (g : Graph),
      exists msg,
        FollowService.follow_user a b now g
        = (Err (Raise FollowCreationError msg), g))
  /\ (let g := Examples.three_users in
      let g' := snd (FollowService.follow_user Examples.alice Examples.bob
                       10 g) in
      let g'' := snd (FollowService.follow_user Examples.alice Examples.carol
                        10 g) in
      (is_private <$> users g !! Examples.alice) = Some (Some false)
      /\ (is_private <$> users g !! Examples.bob) = Some (Some false)
      /\ (is_private <$> users g !! Examples.carol) = Some (Some true)
      /\ BLOCKS g = ∅ /\ FOLLOWS g = ∅ /\ REQUESTED_TO_FOLLOW g = ∅
      /\ is_ok (fst (FollowService.follow_user Examples.alice Examples.bob
                       10 g)) = false
      /\ FOLLOWS g' !! (Examples.alice, Examples.bob) = None
      /\ (following_count <$> users g' !! Examples.alice) = Some (Some 0%Z)
      /\ (follower_count <$> users g' !! Examples.bob) = Some (Some 0%Z)
      /\ is_ok (fst (FollowService.follow_user Examples.alice Examples.carol
                       10 g)) = false
      /\ REQUESTED_TO_FOLLOW g'' !! (Examples.alice, Examples.carol) = None).
Proof.
  split.
  - intros a b now g. unfold FollowService.follow_user.
    destruct (N.eqb a b); [eauto|].
    unfold execute_write.
    pose proof (_create_follow_relationship_raises a b now g) as H.
    destruct (FollowService._create_follow_relationship a b now g)
      as [[r|e] g1]; [discriminate H|eauto].
  - vm_compute. repeat split.
Qed.

(** ** Counters *)

(** The first query of [_create_post_like] adds one to [like_count]
    exactly when its [MERGE] creates the [LIKED] relationship. *)
Lemma create_post_like_query_counter u p ct now g n :
  posts g !! p = Some {| like_count := Some n |} ->
  let g' := fst (LikeService.create_post_like_query p u ct now g) in
  posts g' !! p
  = Some {| like_count :=
              Some (n + if relationship_created (LIKED g) (LIKED g') (u, p)
                        then 1 else 0)%Z |}.
Proof.
  intros Hp g'. subst g'.
  unfold relationship_created, LikeService.create_post_like_query.
  destruct (users g !! u) as [un|] eqn:Hu; [rewrite Hp|].
  - destruct (LIKED g !! (u, p)) as [t|] eqn:Hl.
    + cbn. rewrite Hp, Z.add_0_r. reflexivity.
    + cbn. rewrite !lookup_insert_eq. cbn. reflexivity.
  - cbn. rewrite Hp.
    destruct (LIKED g !! (u, p)); cbn; rewrite Z.add_0_r; reflexivity.
Qed.










(** ** Dating actions and matches *)

Lemma has_action_after_merge g u t a now x :
  u <> t ->
  DatingService.has_action
    (set_DATING_ACTION (insert (u, t, a) now) g) t u x
  = DatingService.has_action g t u x.
Proof.
  intros Hne. unfold DatingService.has_action. cbn.
  rewrite lookup_insert_ne by congruence. reflexivity.
Qed.

(** The second query of [_record_dating_action] returns a row, and may
    create the [DATING_MATCH] relationship, only for a mutual positive
    action. *)
Lemma record_action_query_matches pd u t a mid now g :
  u <> t ->
  let g' := fst (DatingService.record_action_query pd u t a mid now g) in
  let rows := snd (DatingService.record_action_query pd u t a mid now g) in
  (mutual g u t a = false -> DATING_MATCH g' = DATING_MATCH g /\ rows = [])
  /\ (forall k, DATING_MATCH g !! k = None -> is_Some (DATING_MATCH g' !! k) ->
        mutual g u t a = true /\ k = (u, t)).
Proof.
  intros Hne g' rows. subst g' rows.
  unfold DatingService.record_action_query, mutual, they_are_positive.
  destruct (users g !! u) as [user|];
    [|cbn; split; [auto|intros k -> [? ?]; discriminate]].
  destruct (users g !! t) as [target|];
    [|cbn; split; [auto|intros k -> [? ?]; discriminate]].
  rewrite !has_action_after_merge by assumption.
  destruct (DatingService.is_positive a
            && (DatingService.has_action g t u SWIPE_RIGHT
                || DatingService.has_action g t u SUPER_LIKE)) eqn:Hm.
  - split; [discriminate|].
    intros k Hk Hs. split; [reflexivity|].
    unfold DatingService.find_match in Hs. cbn in Hs.
    destruct (DATING_MATCH g !! (u, t)) eqn:E1.
    { cbn in Hs. rewrite Hk in Hs. destruct Hs; discriminate. }
    destruct (DATING_MATCH g !! (t, u)) eqn:E2.
    { cbn in Hs. rewrite Hk in Hs. destruct Hs; discriminate. }
    cbn in Hs. destruct (decide (k = (u, t))) as [->|Hk']; [reflexivity|].
    rewrite lookup_insert_ne in Hs by congruence.
    rewrite Hk in Hs. destruct Hs; discriminate.
  - cbn. split; [auto|]. intros k Hk [? Hs]. rewrite Hk in Hs. discriminate.
Qed.

Lemma is_Some_None_elim {A} (P : Prop) : is_Some (@None A) -> P.
Proof. intros [? ?]; discriminate. Qed.

(** The example the claim C1 fails at: recording [COMMENT], which is not a
    positive action, between two existing users does not return [None]; it
    raises [ActionRecordingError]. *)
Lemma record_non_dating_action_raises :
  DatingService.is_positive COMMENT = false
  /\ is_Some (users Examples.dating_pool !! Examples.alice)
  /\ is_Some (users Examples.dating_pool !! Examples.bob)
  /\ DatingService.record_dating_action Examples.point_distance
       Examples.alice Examples.bob COMMENT 100 40 Examples.dating_pool
     = (Err (Raise ActionRecordingError "Invalid dating action type"),
        Examples.dating_pool).
Proof. vm_compute. repeat split; eauto. Qed.

(** C1 (amended): [record_dating_action] creates a [DATING_MATCH]
    relationship only between the two users of the call, and only when the
    action is [SWIPE_RIGHT] or [SUPER_LIKE] and the target already has a
    [SWIPE_RIGHT] or [SUPER_LIKE] action towards the acting user.  In every
    other case no match relationship is created and the call returns [None]
    or raises [ActionRecordingError]: it returns [None] when the two users
    are distinct, exist, have not blocked each other and the action is one
    of the three dating actions, and it raises, leaving the graph as it
    was, when the two users are the same, the action is not a dating
    action, one of the users does not exist or one has blocked the
    other. *)
Theorem dating_match_only_when_mutual :
  forall (pd : Q * Q -> Q * Q -> Q) (u t : UUID) (a : InteractionType)
         (mid : UUID) (now : Time) (g : Graph),
    let r := fst (DatingService.record_dating_action pd u t a mid now g) in
    let g' := snd (DatingService.record_dating_action pd u t a mid now g) in
    (forall k, DATING_MATCH g !! k = None -> is_Some (DATING_MATCH g' !! k) ->
       mutual g u t a = true /\ k = (u, t))
    /\ (mutual g u t a = false ->
        DATING_MATCH g' = DATING_MATCH g
        /\ (r = Ok None \/ raises r ActionRecordingError = true))
    /\ (mutual g u t a = false -> u <> t ->
        DatingService.is_dating_action a = true ->
        is_Some (users g !! u) -> is_Some (users g !! t) ->
        BLOCKS g !! (u, t) = None -> BLOCKS g !! (t, u) = None ->
        r = Ok None)
    /\ (u = t \/ DatingService.is_dating_action a = false
        \/ users g !! u = None \/ users g !! t = None
        \/ is_Some (BLOCKS g !! (u, t)) \/ is_Some (BLOCKS g !! (t, u)) ->
        raises r ActionRecordingError = true /\ g' = g).
Proof.
  intros pd u t a mid now g r g'. subst r g'.
  unfold DatingService.record_dating_action.
  destruct (N.eqb_spec u t) as [->|Hne].
  { cbn. split; [intros k -> Hs; exact (is_Some_None_elim _ Hs)|].
    split; [auto|]. split; [intros _ H; congruence|auto]. }
  destruct (DatingService.is_dating_action a) eqn:Hda; cbn [negb].
  2:{ cbn. split; [intros k -> Hs; exact (is_Some_None_elim _ Hs)|].
      split; [auto|]. split; [intros; discriminate|auto]. }
  unfold execute_write, DatingService._record_dating_action,
    DatingService.record_dating_action_body, DatingService.action_check_query.
  destruct (users g !! u) as [user|] eqn:Hu.
  2:{ cbn. split; [intros k -> Hs; exact (is_Some_None_elim _ Hs)|].
      split; [auto|].
      split; [intros _ _ _ Hs; exact (is_Some_None_elim _ Hs)|auto]. }
  destruct (users g !! t) as [target|] eqn:Ht.
  2:{ cbn. split; [intros k -> Hs; exact (is_Some_None_elim _ Hs)|].
      split; [auto|].
      split; [intros _ _ _ _ Hs; exact (is_Some_None_elim _ Hs)|auto]. }
  cbn [head negb].
  destruct (has_rel (BLOCKS g) u t || has_rel (BLOCKS g) t u) eqn:Hblk.
  { cbn. split; [intros k -> Hs; exact (is_Some_None_elim _ Hs)|].
    split; [auto|]. split; [|auto]. intros _ _ _ _ _ H1 H2.
    unfold has_rel in Hblk. rewrite H1, H2 in Hblk.
    rewrite !bool_decide_eq_false_2 in Hblk by apply is_Some_None.
    discriminate. }
  assert (Hother :
            u = t \/ true = false \/ Some user = None \/ Some target = None
            \/ is_Some (BLOCKS g !! (u, t)) \/ is_Some (BLOCKS g !! (t, u)) ->
            False).
  { apply orb_false_elim in Hblk as [Hb1 Hb2].
    unfold has_rel in Hb1, Hb2.
    apply bool_decide_eq_false_1 in Hb1, Hb2.
    intros [?|[?|[?|[?|[?|?]]]]]; try congruence; tauto. }
  pose proof (record_action_query_matches pd u t a mid now g Hne) as [Hq1 Hq2].
  destruct (DatingService.record_action_query pd u t a mid now g)
    as [gq rows] eqn:Hq.
  cbn [fst snd] in Hq1, Hq2.
  destruct (mutual g u t a) eqn:Hm.
  - split.
    + intros k Hk Hs.
      destruct rows as [|row rows']; cbn in Hs; [auto|].
      destruct (getitem row "match") as [m|e]; cbn in Hs.
      * destruct (DatingMatch_new m); cbn in Hs; [auto|].
        rewrite Hk in Hs. exact (is_Some_None_elim _ Hs).
      * rewrite Hk in Hs. exact (is_Some_None_elim _ Hs).
    + split; [discriminate|]. split; [discriminate|].
      intros H. destruct (Hother H).
  - destruct (Hq1 eq_refl) as [Hdm ->]. cbn.
    split; [intros k Hk Hs; rewrite Hdm, Hk in Hs;
            exact (is_Some_None_elim _ Hs)|].
    split; [auto|]. split; [auto|].
    intros H. destruct (Hother H).
Qed.

(** Bob has swiped right on Alice.  Alice swiping left gets [None] and no
    match; Alice swiping right on herself raises. *)
Lemma dating_match_witness :
  let g := Examples.bob_likes_alice in
  let r := fst (DatingService.record_dating_action Examples.point_distance
                  Examples.alice Examples.bob SWIPE_LEFT 101 50 g) in
  let g' := snd (DatingService.record_dating_action Examples.point_distance
                   Examples.alice Examples.bob SWIPE_LEFT 101 50 g) in
  mutual g Examples.alice Examples.bob SWIPE_LEFT = false
  /\ DATING_MATCH g' = DATING_MATCH g
  /\ r = Ok None
  /\ raises (fst (DatingService.record_dating_action Examples.point_distance
                    Examples.alice Examples.alice SWIPE_RIGHT 101 50 g))
       ActionRecordingError = true.
Proof.
  pose proof (dating_match_only_when_mutual Examples.point_distance
                Examples.alice Examples.bob SWIPE_LEFT 101 50
                Examples.bob_likes_alice) as (_ & H2 & H3 & _).
  split; [reflexivity|]. split; [|split].
  - exact (proj1 (H2 eq_refl)).
  - apply H3; try reflexivity; try discriminate; vm_compute; eauto.
  - exact (proj1 (proj2 (proj2 (proj2
             (dating_match_only_when_mutual Examples.point_distance
                Examples.alice Examples.alice SWIPE_RIGHT 101 50
                Examples.bob_likes_alice))) (or_introl eq_refl))).
Defined.

(** Alice swiping right answers Bob's swipe: the match is created and
    returned. *)
Example mutual_swipe_creates_match :
  let g := Examples.bob_likes_alice in
  let r := fst (DatingService.record_dating_action Examples.point_distance
                  Examples.alice Examples.bob SWIPE_RIGHT 101 50 g) in
  let g' := snd (DatingService.record_dating_action Examples.point_distance
                   Examples.alice Examples.bob SWIPE_RIGHT 101 50 g) in
  mutual g Examples.alice Examples.bob SWIPE_RIGHT = true
  /\ DATING_MATCH g !! (Examples.alice, Examples.bob) = None
  /\ (match_id <$> DATING_MATCH g' !! (Examples.alice, Examples.bob))
     = Some 101%N
  /\ (dm_match_id <$> match r with Ok x => x | Err _ => None end)
     = Some 101%N.
Proof. vm_compute. repeat split. Qed.

(** ** Ranking of potential matches *)

Lemma score_desc_trans a b c :
  score_desc a b -> score_desc b c -> score_desc a c.
Proof. unfold score_desc. intros H1 H2. eapply Qle_trans; eauto. Qed.

Lemma insert_desc_elem r l x :
  x ∈ DatingService.insert_desc r l <-> x = r \/ x ∈ l.
Proof.
  induction l as [|y l IH]; cbn.
  - rewrite list_elem_of_singleton, elem_of_nil. tauto.
  - destruct (Qle_bool (row_score r) (row_score y)).
    + rewrite !elem_of_cons, IH. tauto.
    + rewrite !elem_of_cons. tauto.
Qed.

Lemma insert_desc_sorted r l :
  StronglySorted score_desc l ->
  StronglySorted score_desc (DatingService.insert_desc r l).
Proof.
  induction 1 as [|y l Hs IH Hall]; cbn.
  - repeat constructor.
  - destruct (Qle_bool (row_score r) (row_score y)) eqn:E.
    + constructor; [exact IH|].
      apply Forall_forall. intros x Hx.
      apply insert_desc_elem in Hx as [->|Hx].
      * apply Qle_bool_iff in E. exact E.
      * rewrite Forall_forall in Hall. auto.
    + assert (Hry : score_desc r y).
      { unfold score_desc. apply Qlt_le_weak, Qnot_le_lt.
        intros H. apply Qle_bool_iff in H. congruence. }
      constructor; [constructor; assumption|].
      constructor; [exact Hry|].
      eapply Forall_impl; [exact Hall|].
      intros x Hx. eapply score_desc_trans; eauto.
Qed.

Lemma order_by_score_desc_sorted l :
  StronglySorted score_desc (DatingService.order_by_score_desc l).
Proof.
  induction l as [|r l IH]; cbn; [constructor|].
  apply insert_desc_sorted, IH.
Qed.

Lemma order_by_score_desc_elem l x :
  x ∈ DatingService.order_by_score_desc l <-> x ∈ l.
Proof.
  induction l as [|r l IH]; cbn; [reflexivity|].
  rewrite insert_desc_elem, elem_of_cons, IH. reflexivity.
Qed.

Lemma StronglySorted_sublist {A} (R : A -> A -> Prop) (l k : list A) :
  l `sublist_of` k -> StronglySorted R k -> StronglySorted R l.
Proof.
  induction 1 as [|x l k Hsub IH|x l k Hsub IH]; intros Hk.
  - constructor.
  - apply StronglySorted_inv in Hk as [Hk Hx].
    constructor; [auto|].
    apply Forall_forall. intros y Hy. rewrite Forall_forall in Hx.
    apply Hx. eapply elem_of_sublist; eauto.
  - apply StronglySorted_inv in Hk as [Hk _]. auto.
Qed.

Lemma elem_of_flat_map {A B} (f : A -> list B) (l : list A) (y : B) :
  y ∈ flat_map f l <-> exists x, x ∈ l /\ y ∈ f x.
Proof.
  induction l as [|a l IH]; cbn.
  - rewrite elem_of_nil. split; [tauto|].
    intros (x & Hx & _). inversion Hx.
  - rewrite elem_of_app, IH. split.
    + intros [H|(x & Hx & Hy)].
      * exists a. split; [left|exact H].
      * exists x. split; [right; exact Hx|exact Hy].
    + intros (x & Hx & Hy). apply elem_of_cons in Hx as [->|Hx].
      * left. exact Hy.
      * right. exists x. auto.
Qed.

Lemma not_seen (x : UUID) (d : Decision (x ∈ (∅ : gset UUID))) :
  @bool_decide _ d = false.
Proof. apply bool_decide_eq_false_2, not_elem_of_empty. Qed.

Section Ranking.

Variable apoc_date_diff_years : Z -> Z -> Z.
Variable gds_similarity_cosine : list Q -> list Q -> Q.
Variable point_distance : Q * Q -> Q * Q -> Q.

Lemma potential_matches_query_sorted today u mina maxa gp maxd o l g :
  StronglySorted score_desc
    (DatingService.potential_matches_query apoc_date_diff_years
       gds_similarity_cosine point_distance today u mina maxa gp maxd o l g).
Proof.
  unfold DatingService.potential_matches_query.
  destruct (users g !! u); [|constructor].
  eapply StronglySorted_sublist; [apply sublist_take|].
  eapply StronglySorted_sublist; [apply sublist_drop|].
  apply order_by_score_desc_sorted.
Qed.

End Ranking.

(** [DatingProfile] refuses the map of every stored node: its
    [birth_date] is a date of the database. *)
Lemma DatingProfile_of_node_raises today n :
  exists k,
    DatingProfile_of_node today n
    = Err (validation_error "DatingProfile" (S k)).
Proof.
  unfold DatingProfile_of_node, DatingProfile_build,
    DatingProfile_field_errors, birth_date_accepted.
  destruct (String.length (a_bio (args_of_node n)) <=? 500)%nat;
    cbn [app length]; eauto.
Qed.

Lemma DatingProfile_of_node_not_ok today n :
  is_ok (DatingProfile_of_node today n) = false.
Proof.
  destruct (DatingProfile_of_node_raises today n) as [k ->]. reflexivity.
Qed.

(** The loop returns only when no row reaches the construction of a
    profile, and then it returns the list it started with. *)
Lemma matches_loop_returns_acc today g u f seen rows :
  forall acc out,
    DatingService.matches_loop today g u f seen rows acc = Ok out ->
    out = acc.
Proof.
  induction rows as [|r rows IH]; intros acc out Hrun;
    cbn [DatingService.matches_loop] in Hrun.
  - congruence.
  - destruct (_ && _); [eauto|].
    destruct (_ && _); [eauto|].
    destruct (negb _); [eauto|].
    destruct (DatingProfile_of_node_raises today (row_profile r)) as [k Hk].
    rewrite Hk in Hrun. discriminate.
Qed.

(** It raises the validation error of the first row that passes the
    filters on matched users and on the score. *)
Lemma matches_loop_raises today g u f rows :
  forall acc r,
    r ∈ rows -> qualifies g u f r = true ->
    raises (DatingService.matches_loop today g u f ∅ rows acc)
      ValidationError = true.
Proof.
  induction rows as [|x rows IH]; intros acc r Hr Hq;
    [inversion Hr|].
  cbn [DatingService.matches_loop].
  rewrite not_seen, andb_false_r.
  destruct (exclude_matched f
            && DatingService._check_existing_match u
                 (p_user_id (row_profile x)) g) eqn:Em.
  { apply elem_of_cons in Hr as [->|Hr]; [|eauto].
    unfold qualifies in Hq. rewrite Em in Hq. discriminate. }
  destruct (Qle_bool (min_compatibility f) (row_score x)) eqn:Es;
    cbn [negb].
  - destruct (DatingProfile_of_node_raises today (row_profile x)) as [k ->].
    reflexivity.
  - apply elem_of_cons in Hr as [->|Hr]; [|eauto].
    unfold qualifies in Hq. rewrite Es, andb_false_r in Hq. discriminate.
Qed.

Lemma slice_from_nil {A} (o : Z) : slice_from o (@nil A) = [].
Proof.
  unfold slice_from. destruct (0 <=? o)%Z; apply skipn_nil.
Qed.

(** C5: [get_potential_matches] returns no profile.  When the engine
    refuses the text of the query the call raises the syntax error.  When
    it runs, the rows come ranked by their score, but [DatingProfile] is
    built from the first row that passes the filters on matched users and
    on the score and refuses its [birth_date]: the call raises a
    validation error whenever a candidate qualifies, and returns, the
    empty list, only when none does.  In the example pool Bob and Carol
    qualify for Alice, in this order, and the call does not return. *)
Theorem get_potential_matches_returns_no_profile :
  (forall (apoc_date_diff_years : Z -> Z -> Z)
          (gds_similarity_cosine : list Q -> list Q -> Q)
          (point_distance : Q * Q -> Q * Q -> Q)
          (query_rejected : option string) (today : Z) (u : UUID)
          (f : DatingFilter) (g : Graph) (out : list DatingProfile),
      DatingService.get_potential_matches apoc_date_diff_years
        gds_similarity_cosine point_distance query_rejected today u f g
      = Ok out ->
      out = [])
  /\ (forall (apoc_date_diff_years : Z -> Z -> Z)
             (gds_similarity_cosine : list Q -> list Q -> Q)
             (point_distance : Q * Q -> Q * Q -> Q) (today : Z) (u : UUID)
             (f : DatingFilter) (g : Graph) (r : MatchRow),
         r ∈ DatingService.potential_matches_query apoc_date_diff_years
               gds_similarity_cosine point_distance today u (min_age f)
               (max_age f) (DatingService.gender_preference_param f)
               (f_max_distance_miles f) 0 1000 g ->
         qualifies g u f r = true ->
         raises (DatingService.get_potential_matches apoc_date_diff_years
                   gds_similarity_cosine point_distance None today u f g)
           ValidationError = true)
  /\ (forall (apoc_date_diff_years : Z -> Z -> Z)
             (gds_similarity_cosine : list Q -> list Q -> Q)
             (point_distance : Q * Q -> Q * Q -> Q) (message : string)
             (today : Z) (u : UUID) (f : DatingFilter) (g : Graph),
         DatingService.get_potential_matches apoc_date_diff_years
           gds_similarity_cosine point_distance (Some message) today u f g
         = Err (Raise CypherSyntaxError message))
  /\ (forall (apoc_date_diff_years : Z -> Z -> Z)
             (gds_similarity_cosine : list Q -> list Q -> Q)
             (point_distance : Q * Q -> Q * Q -> Q) (today : Z) (u : UUID)
             (mina maxa : Z) (gp : list Gender) (maxd : Q) (o l : nat)
             (g : Graph),
         StronglySorted score_desc
           (DatingService.potential_matches_query apoc_date_diff_years
              gds_similarity_cosine point_distance today u mina maxa gp maxd
              o l g))
  /\ (let rows :=
        DatingService.potential_matches_query Examples.apoc_date_diff_years
          Examples.gds_similarity_cosine Examples.point_distance
          Examples.today Examples.alice 18 100 [FEMALE] 50 0 1000
          Examples.dating_pool in
      DatingFilter_valid Examples.default_filter = true
      /\ map (fun r => p_user_id (row_profile r)) rows
         = [Examples.bob; Examples.carol]
      /\ map (qualifies Examples.dating_pool Examples.alice
                Examples.default_filter) rows = [true; true]
      /\ forall query_rejected : option string,
           is_ok (DatingService.get_potential_matches
                    Examples.apoc_date_diff_years
                    Examples.gds_similarity_cosine Examples.point_distance
                    query_rejected Examples.today Examples.alice
                    Examples.default_filter Examples.dating_pool) = false).
Proof.
  split; [|split; [|split; [|split]]].
  - intros adiff cos pd qr today u f g out.
    unfold DatingService.get_potential_matches,
      DatingService._get_potential_matches.
    destruct qr; [discriminate|].
    destruct (DatingService.matches_loop _ _ _ _ _ _ _) as [ms|e] eqn:Hloop;
      [|discriminate].
    apply matches_loop_returns_acc in Hloop. subst ms.
    rewrite slice_from_nil. congruence.
  - intros adiff cos pd today u f g r Hr Hq.
    unfold DatingService.get_potential_matches,
      DatingService._get_potential_matches.
    pose proof (matches_loop_raises today g u f _ [] r Hr Hq) as H.
    destruct (DatingService.matches_loop _ _ _ _ _ _ _) as [ms|e];
      [discriminate H|exact H].
  - reflexivity.
  - intros. apply potential_matches_query_sorted.
  - split; [reflexivity|]. split; [vm_compute; reflexivity|].
    split; [vm_compute; reflexivity|].
    intros [msg|]; [reflexivity|vm_compute; reflexivity].
Qed.

(** ** Post-filters *)

Section PostFilters.

Variable apoc_date_diff_years : Z -> Z -> Z.
Variable gds_similarity_cosine : list Q -> list Q -> Q.
Variable point_distance : Q * Q -> Q * Q -> Q.
Variable query_rejected : option string.



End PostFilters.


(** ** The compatibility score *)

Section Score.

Variable apoc_date_diff_years : Z -> Z -> Z.
Variable gds_similarity_cosine : list Q -> list Q -> Q.
Variable point_distance : Q * Q -> Q * Q -> Q.

Lemma candidate_rows_score today g u user mina maxa gp maxd tid tp row :
  row ∈ DatingService.candidate_rows apoc_date_diff_years
          gds_similarity_cosine point_distance today g u user mina maxa gp
          maxd (tid, tp) ->
  exists target node_sim d,
    users g !! tid = Some target
    /\ row_profile row = tp
    /\ node_sim ∈ DatingService.node_sims g u tid
    /\ DatingService.candidate_distance point_distance user target = Some d
    /\ row_score row
       = (coalesce (DatingService.embedding_sim gds_similarity_cosine
                      user target) 0 * (3 # 10)
          + coalesce node_sim 0 * (2 # 10)
          + DatingService.interaction_score
              (DatingService.interactions g u tid) * (2 # 10)
          + (1 - d / maxd) * (3 # 10))%Q.
Proof.
  unfold DatingService.candidate_rows.
  destruct (users g !! tid) as [target|]; [|intros H; inversion H].
  destruct (_ || _ || _ || _); [intros H; inversion H|].
  destruct (negb _); [intros H; inversion H|].
  intros H. apply elem_of_flat_map in H as (ns & Hns & Hrow).
  destruct (DatingService.candidate_distance point_distance user target)
    as [d|] eqn:Hd.
  - destruct (Qle_bool d maxd); [|inversion Hrow].
    apply list_elem_of_singleton in Hrow. subst row.
    exists target, ns, d. cbn. auto.
  - unfold DatingService.candidate_distance in Hd.
    destruct (point user), (point target); discriminate.
Qed.

(** C7 (amended): the score of every row the query returns is a sum of
    four weighted terms, computed from the signals of the candidate of that
    row: 0.3 times the embedding cosine similarity (0 when an embedding is
    missing), 0.2 times the node similarity (0 when there is no [SIMILAR]
    relationship), 0.2 times the interaction score and 0.3 times
    [1 - distance_miles / max_distance_miles].  No other property of the
    profile or of the users enters it. *)
Theorem compatibility_score_is_four_term_sum :
  forall (today : Z) (u : UUID) (mina maxa : Z) (gp : list Gender) (maxd : Q)
         (o l : nat) (g : Graph) (row : MatchRow),
    row ∈ DatingService.potential_matches_query apoc_date_diff_years
            gds_similarity_cosine point_distance today u mina maxa gp maxd
            o l g ->
    exists user target_id target node_sim d,
      users g !! u = Some user
      /\ users g !! target_id = Some target
      /\ (target_id, row_profile row) ∈ dating_profiles g
      /\ node_sim ∈ DatingService.node_sims g u target_id
      /\ DatingService.candidate_distance point_distance user target = Some d
      /\ row_score row
         = (coalesce (DatingService.embedding_sim gds_similarity_cosine
                        user target) 0 * (3 # 10)
            + coalesce node_sim 0 * (2 # 10)
            + DatingService.interaction_score
                (DatingService.interactions g u target_id) * (2 # 10)
            + (1 - d / maxd) * (3 # 10))%Q.
Proof.
  intros today u mina maxa gp maxd o l g row Hrow.
  unfold DatingService.potential_matches_query in Hrow.
  destruct (users g !! u) as [user|] eqn:Hu; [|inversion Hrow].
  eapply elem_of_sublist in Hrow; [|apply sublist_take].
  eapply elem_of_sublist in Hrow; [|apply sublist_drop].
  rewrite order_by_score_desc_elem in Hrow.
  apply elem_of_flat_map in Hrow as (own & _ & Hrow).
  apply elem_of_flat_map in Hrow as ([tid tp] & Hc & Hrow).
  apply candidate_rows_score in Hrow
    as (target & ns & d & Ht & Hp & Hns & Hd & Hs).
  exists user, tid, target, ns, d. subst tp. auto 10.
Qed.

End Score.

(** The first row of Alice's ranking is Bob's. *)
Lemma compatibility_score_witness :
  exists user target_id target node_sim d,
    users Examples.dating_pool !! Examples.alice = Some user
    /\ users Examples.dating_pool !! target_id = Some target
    /\ (target_id, Examples.profile_of Examples.bob FEMALE [MALE])
       ∈ dating_profiles Examples.dating_pool
    /\ node_sim ∈ DatingService.node_sims Examples.dating_pool Examples.alice
                   target_id
    /\ DatingService.candidate_distance Examples.point_distance user target
       = Some d
    /\ (1092543548000000 # 2000000000000000)%Q
       = (coalesce (DatingService.embedding_sim Examples.gds_similarity_cosine
                      user target) 0 * (3 # 10)
          + coalesce node_sim 0 * (2 # 10)
          + DatingService.interaction_score
              (DatingService.interactions Examples.dating_pool Examples.alice
                 target_id) * (2 # 10)
          + (1 - d / 50) * (3 # 10))%Q.
Proof.
  apply (compatibility_score_is_four_term_sum Examples.apoc_date_diff_years
           Examples.gds_similarity_cosine Examples.point_distance
           Examples.today Examples.alice 18 100 [FEMALE] 50 0 1000
           Examples.dating_pool
           {| row_profile := Examples.profile_of Examples.bob FEMALE [MALE];
              row_age := 30;
              row_score := 1092543548000000 # 2000000000000000 |}).
  vm_compute. left.
Defined.

(** The claim C7 as worded fails: no choice of five weights with a
    recency term makes the weighted sum equal to the score of the code,
    whatever function of the distance is taken as the distance signal.
    The score is the same at recency 0 and at recency 1. *)
Lemma score_has_no_recency_term :
  ~ (exists (w : ScoreWeights) (distance_signal : Q -> Q -> Q),
        ~ (w_recency w == 0)%Q
        /\ forall e n i r d maxd : Q,
             (DatingService.compatibility (Some e) (Some n) i (Some d) maxd
              == spec_weighted_score w e n i r (distance_signal d maxd))%Q).
Proof.
  intros (w & ds & Hw & H). apply Hw.
  pose proof (H 0 0 0 0 0 1)%Q as H0.
  pose proof (H 0 0 0 1 0 1)%Q as H1.
  unfold DatingService.compatibility, spec_weighted_score, coalesce in H0, H1.
  rewrite H0 in H1. clear H0 H Hw.
  lra.
Qed.

(** ** Dating profiles *)

Lemma DatingProfile_build_cases ok a :
  match DatingProfile_build ok a with
  | Ok p =>
      ok = true
      /\ (length (a_photos a) <=? 5)%nat = true
      /\ opt_check (int_in_range 18 100) (a_min_age_preference a) = true
      /\ validate_max_age (a_min_age_preference a) (a_max_age_preference a)
         = true
      /\ a_gender_preference a <> []
      /\ birth_date p = a_birth_date a
      /\ photos p = a_photos a
      /\ gender_preference p = a_gender_preference a
      /\ min_age_preference p = coalesce (a_min_age_preference a) 18%Z
      /\ max_age_preference p = coalesce (a_max_age_preference a) 100%Z
  | Err e =>
      e = validation_error "DatingProfile"
            (length (DatingProfile_field_errors ok a))
  end.
Proof.
  unfold DatingProfile_build.
  destruct (DatingProfile_field_errors ok a) as [|e l] eqn:E; [|reflexivity].
  unfold DatingProfile_field_errors in E.
  destruct (String.length (a_bio a) <=? 500)%nat; [|discriminate E].
  destruct ok; [|discriminate E].
  destruct (length (a_photos a) <=? 5)%nat; [|discriminate E].
  destruct (opt_check (num_in_range 1 100) (a_max_distance_miles a));
    [|discriminate E].
  destruct (opt_check (int_in_range 18 100) (a_min_age_preference a));
    [|discriminate E].
  destruct (validate_max_age (a_min_age_preference a) (a_max_age_preference a));
    [|discriminate E].
  destruct (a_gender_preference a) eqn:Hg; [discriminate E|].
  cbn. repeat split; congruence.
Qed.

Lemma DatingProfile_new_cases today a :
  match DatingProfile_new today a with
  | Ok p =>
      validate_age today (a_birth_date a) = true
      /\ (length (a_photos a) <=? 5)%nat = true
      /\ opt_check (int_in_range 18 100) (a_min_age_preference a) = true
      /\ validate_max_age (a_min_age_preference a) (a_max_age_preference a)
         = true
      /\ a_gender_preference a <> []
      /\ birth_date p = a_birth_date a
      /\ photos p = a_photos a
      /\ gender_preference p = a_gender_preference a
      /\ min_age_preference p = coalesce (a_min_age_preference a) 18%Z
      /\ max_age_preference p = coalesce (a_max_age_preference a) 100%Z
  | Err e =>
      e = validation_error "DatingProfile"
            (length (DatingProfile_errors today a))
  end.
Proof.
  exact (DatingProfile_build_cases
           (birth_date_accepted today (PyDate (a_birth_date a))) a).
Qed.

Lemma DatingProfile_new_invariant today a p :
  DatingProfile_new today a = Ok p -> DatingProfile_invariant today p.
Proof.
  intros Hnew. pose proof (DatingProfile_new_cases today a) as H.
  rewrite Hnew in H. unfold DatingProfile_invariant.
  destruct H as (Hage & Hph & Hmin & Hmax & Hgp & -> & -> & -> & -> & ->).
  split; [|split; [|split]].
  - unfold validate_age in Hage.
    apply andb_true_iff in Hage as [H1 H2].
    apply negb_true_iff in H1, H2. lia.
  - apply Nat.leb_le, Hph.
  - exact Hgp.
  - unfold validate_max_age, validated_min_age, opt_check, int_in_range in *.
    destruct (a_min_age_preference a) as [mn|],
             (a_max_age_preference a) as [mx|];
      cbn; try rewrite Hmin in Hmax; lia.
Qed.

Lemma DatingProfile_new_rejects today a :
  violates_invariant today a ->
  DatingProfile_new today a
  = Err (validation_error "DatingProfile"
           (length (DatingProfile_errors today a))).
Proof.
  intros Hv. pose proof (DatingProfile_new_cases today a) as H.
  destruct (DatingProfile_new today a) as [p|e] eqn:Hnew; [|congruence].
  exfalso.
  pose proof (DatingProfile_new_invariant _ _ _ Hnew)
    as (Hage & Hph & Hgp & Hmm).
  destruct H as (_ & _ & _ & _ & _ & Hb & Hp & Hg & Hmn & Hmx).
  rewrite Hb in Hage. rewrite Hp in Hph. rewrite Hg in Hgp.
  rewrite Hmn, Hmx in Hmm.
  destruct Hv as [?|[?|[?|[?|?]]]]; try lia. congruence.
Qed.

(** C10: a [DatingProfile] that construction accepts was born between 18
    and 100 years (of 365.25 days) before the day of construction, has at
    most 5 photos, a non-empty [gender_preference] and
    [max_age_preference >= min_age_preference]; arguments that break one of
    these are rejected with a validation error.  The operations that return
    profiles return constructed ones: [_get_dating_profile],
    [_update_dating_profile] and [get_potential_matches] build each profile
    they return from a stored node (which, the stored [birth_date] being
    refused, leaves them none to return), and [_create_dating_profile]
    returns the profile it was given. *)
Theorem DatingProfile_invariants_hold :
  (forall (today : Z) (a : DatingProfileArgs) (p : DatingProfile),
      DatingProfile_new today a = Ok p -> DatingProfile_invariant today p)
  /\ (forall (today : Z) (a : DatingProfileArgs),
         violates_invariant today a ->
         DatingProfile_new today a
         = Err (validation_error "DatingProfile"
                  (length (DatingProfile_errors today a))))
  /\ (forall (today : Z) (u : UUID) (g : Graph) (p : DatingProfile),
         DatingService._get_dating_profile today u g = Ok p ->
         DatingProfile_invariant today p)
  /\ (forall (today : Z) (profile : DatingProfile) (now : Time) (g : Graph)
             (p : DatingProfile),
         fst (DatingService._update_dating_profile today profile now g) = Ok p ->
         DatingProfile_invariant today p)
  /\ (forall (profile : DatingProfile) (now : Time) (g : Graph)
             (p : DatingProfile),
         fst (DatingService._create_dating_profile profile now g) = Ok p ->
         p = profile)
  /\ (forall (apoc_date_diff_years : Z -> Z -> Z)
             (gds_similarity_cosine : list Q -> list Q -> Q)
             (point_distance : Q * Q -> Q * Q -> Q)
             (query_rejected : option string) (today : Z) (u : UUID)
             (f : DatingFilter) (g : Graph) (out : list DatingProfile),
         DatingService.get_potential_matches apoc_date_diff_years
           gds_similarity_cosine point_distance query_rejected today u f g
         = Ok out ->
         Forall (DatingProfile_invariant today) out).
Proof.
  split; [exact DatingProfile_new_invariant|].
  split; [exact DatingProfile_new_rejects|].
  split; [|split; [|split]].
  - intros today u g p. unfold DatingService._get_dating_profile.
    destruct (head _) as [n|]; [|discriminate].
    destruct (DatingProfile_of_node_raises today n) as [k ->]. discriminate.
  - intros today profile now g p.
    unfold DatingService._update_dating_profile.
    destruct (head _) as [n|]; cbn; [|discriminate].
    destruct (DatingProfile_of_node_raises today n) as [k ->]. discriminate.
  - intros profile now g p. unfold DatingService._create_dating_profile.
    destruct (users g !! user_id profile); cbn; intros H; congruence.
  - intros adiff cos pd qr today u f g out.
    unfold DatingService.get_potential_matches,
      DatingService._get_potential_matches.
    destruct qr; [discriminate|].
    destruct (DatingService.matches_loop _ _ _ _ _ _ _) as [ms|e] eqn:Hloop;
      [|discriminate].
    intros Hout. inversion Hout; subst out.
    apply matches_loop_returns_acc in Hloop. subst ms.
    rewrite slice_from_nil. constructor.
Qed.

(** Bob's profile, built on the day of the examples, and one with six
    photos, rejected. *)
Lemma DatingProfile_invariants_witness :
  DatingProfile_invariant Examples.today
    (Examples.dating_profile_of Examples.bob FEMALE [MALE])
  /\ DatingProfile_new Examples.today
       {| a_user_id := Examples.bob; a_bio := "hello"; a_birth_date := 9000;
          a_gender := FEMALE; a_sexuality := STRAIGHT;
          a_photos := ["https://example.com/photo1.jpg";
                       "https://example.com/photo2.jpg";
                       "https://example.com/photo3.jpg";
                       "https://example.com/photo4.jpg";
                       "https://example.com/photo5.jpg";
                       "https://example.com/photo6.jpg"];
          a_max_distance_miles := None; a_min_age_preference := None;
          a_max_age_preference := None; a_gender_preference := [MALE];
          a_is_visible := None; a_created_at := 1; a_updated_at := 1 |}
     = Err (validation_error "DatingProfile" 1).
Proof.
  split.
  - exact (proj1 DatingProfile_invariants_hold Examples.today
             {| a_user_id := Examples.bob; a_bio := "hello";
                a_birth_date := 9000; a_gender := FEMALE;
                a_sexuality := STRAIGHT;
                a_photos := ["https://example.com/photo1.jpg"];
                a_max_distance_miles := Some 50%Q;
                a_min_age_preference := Some 21%Z;
                a_max_age_preference := Some 35%Z;
                a_gender_preference := [MALE]; a_is_visible := Some true;
                a_created_at := 1; a_updated_at := 1 |}
             (Examples.dating_profile_of Examples.bob FEMALE [MALE])
             eq_refl).
  - apply (proj1 (proj2 DatingProfile_invariants_hold)).
    right. right. left. simpl. lia.
Defined.

(** * Further properties of the services *)

(** ** Maps of relationships *)

Lemma has_rel_true {A} (m : gmap (UUID * UUID) A) a b :
  has_rel m a b = true <-> is_Some (m !! (a, b)).
Proof. unfold has_rel. apply bool_decide_eq_true. Qed.

Lemma has_rel_false {A} (m : gmap (UUID * UUID) A) a b :
  has_rel m a b = false <-> m !! (a, b) = None.
Proof.
  unfold has_rel. rewrite bool_decide_eq_false, <- eq_None_not_Some. tauto.
Qed.

Lemma alter_as_insert {A} (f : A -> A) (m : gmap UUID A) k v :
  m !! k = Some v -> alter f k m = <[k := f v]> m.
Proof.
  intros Hk. apply map_eq. intros j. rewrite lookup_alter, lookup_insert.
  case_decide; subst; [rewrite Hk|]; reflexivity.
Qed.

Section FilterSize.

Context {K A : Type} `{Countable K}.
Context (P : K * A -> Prop) `{!forall x, Decision (P x)}.

Lemma size_filter_insert_fresh (m : gmap K A) k v :
  m !! k = None ->
  size (filter P (<[k := v]> m))
  = (if decide (P (k, v)) then 1 else 0) + size (filter P m).
Proof.
  intros Hk. rewrite map_filter_insert. case_decide.
  - rewrite map_size_insert_None; [reflexivity|].
    apply map_lookup_filter_None_2. left. exact Hk.
  - rewrite delete_id by exact Hk. reflexivity.
Qed.

Lemma size_filter_delete_present (m : gmap K A) k v :
  m !! k = Some v ->
  size (filter P m)
  = (if decide (P (k, v)) then 1 else 0) + size (filter P (delete k m)).
Proof.
  intros Hk.
  rewrite <- (insert_delete_id m k v Hk) at 1.
  apply size_filter_insert_fresh, lookup_delete_eq.
Qed.

End FilterSize.

Lemma three_users_follow_counters_exact :
  follow_counters_exact Examples.three_users.
Proof.
  intros u n Hu.
  assert (Hn : n = Examples.new_user false \/ n = Examples.new_user true).
  { unfold Examples.three_users in Hu. cbn in Hu.
    apply lookup_insert_Some in Hu as [[_ <-]|[_ Hu]]; [auto|].
    apply lookup_insert_Some in Hu as [[_ <-]|[_ Hu]]; [auto|].
    apply lookup_singleton_Some in Hu as [_ <-]. auto. }
  unfold following_edges, follower_edges.
  change (FOLLOWS Examples.three_users) with (∅ : gmap (UUID * UUID) FollowRel).
  rewrite !map_filter_empty, map_size_empty.
  destruct Hn as [-> | ->]; split; reflexivity.
Qed.


Lemma dating_pool_profiles_consistent :
  profiles_consistent Examples.dating_pool.
Proof.
  intros u n Hin. cbn in Hin.
  repeat (apply elem_of_cons in Hin as [Hin|Hin];
          [inversion Hin; reflexivity|]).
  inversion Hin.
Qed.

(** ** Following: refusals *)

(** [follow_user] between two distinct users refuses with the reason the
    check query finds: when [is_blocked(origin, target)] answers true the
    message is the one for a block by the follower, and when only
    [is_blocked(target, origin)] does, the one for a block by the target.
    The graph is left as it was. *)
Theorem follow_user_refuses_blocked_pairs :
  forall (a b : UUID) (now : Time) (g : Graph),
    a <> b ->
    (BlockService.is_blocked a b g = Ok true ->
     FollowService.follow_user a b now g
     = (Err (Raise FollowCreationError
               "Failed to create follow: Cannot follow a user you have blocked"),
        g))
    /\ (BlockService.is_blocked a b g = Ok false ->
        BlockService.is_blocked b a g = Ok true ->
        FollowService.follow_user a b now g
        = (Err (Raise FollowCreationError
                  "Failed to create follow: Cannot follow a user who has blocked you"),
           g)).
Proof.
  intros a b now g Hab.
  unfold BlockService.is_blocked, BlockService._check_block_status,
    FollowService.follow_user.
  destruct (N.eqb_spec a b) as [->|_]; [congruence|].
  unfold execute_write, FollowService._create_follow_relationship,
    FollowService.create_follow_query, FollowService.follow_check_query.
  destruct (users g !! a) as [ua|] eqn:Ha, (users g !! b) as [ub|] eqn:Hb;
    try (split; intros; discriminate).
  destruct (N.eqb_spec a b) as [->|_]; [congruence|].
  split.
  - intros H. inversion H as [H1]. rewrite H1. cbn.
    rewrite Ha, Hb, H1. reflexivity.
  - intros H H'. inversion H as [H1]. inversion H' as [H2]. rewrite H1, H2.
    cbn. rewrite Ha, Hb, H1, H2. reflexivity.
Qed.

(** Alice has blocked Bob: neither can follow the other. *)
Lemma follow_user_blocked_witness :
  FollowService.follow_user Examples.alice Examples.bob 10
    Examples.alice_blocks_bob
  = (Err (Raise FollowCreationError
            "Failed to create follow: Cannot follow a user you have blocked"),
     Examples.alice_blocks_bob)
  /\ FollowService.follow_user Examples.bob Examples.alice 10
       Examples.alice_blocks_bob
     = (Err (Raise FollowCreationError
               "Failed to create follow: Cannot follow a user who has blocked you"),
        Examples.alice_blocks_bob).
Proof.
  split.
  - apply (follow_user_refuses_blocked_pairs Examples.alice Examples.bob 10
             Examples.alice_blocks_bob);
      [discriminate|reflexivity].
  - apply (follow_user_refuses_blocked_pairs Examples.bob Examples.alice 10
             Examples.alice_blocks_bob);
      [discriminate|reflexivity..].
Defined.

(** With no block in either direction, [follow_user] refuses a second
    follow, a follow while a request is waiting, and a follow from or to a
    user that does not exist, each time with the catch-all message and the
    graph as it was. *)
Theorem follow_user_refuses_duplicates :
  forall (a b : UUID) (now : Time) (g : Graph),
    a <> b ->
    BlockService.is_blocked a b g = Ok false ->
    BlockService.is_blocked b a g = Ok false ->
    is_Some (FOLLOWS g !! (a, b)) \/ is_Some (REQUESTED_TO_FOLLOW g !! (a, b))
    \/ users g !! a = None \/ users g !! b = None ->
    FollowService.follow_user a b now g
    = (Err (Raise FollowCreationError
              "Failed to create follow: Unknown error when following user"),
       g).
Proof.
  intros a b now g Hab H1 H2 Hdup.
  unfold BlockService.is_blocked, BlockService._check_block_status in H1, H2.
  unfold FollowService.follow_user.
  destruct (N.eqb_spec a b) as [->|_]; [congruence|].
  unfold execute_write, FollowService._create_follow_relationship,
    FollowService.create_follow_query, FollowService.follow_check_query.
  destruct (users g !! a) as [ua|] eqn:Ha; [|cbn; rewrite Ha; reflexivity].
  destruct (users g !! b) as [ub|] eqn:Hb;
    [|cbn; rewrite Ha, Hb; reflexivity].
  destruct (N.eqb_spec a b) as [->|_]; [congruence|].
  inversion H1 as [H1']. inversion H2 as [H2']. rewrite H1', H2'.
  cbn [orb].
  assert (Hor : has_rel (REQUESTED_TO_FOLLOW g) a b
                || has_rel (FOLLOWS g) a b = true).
  { apply orb_true_iff. destruct Hdup as [H|[H|[H|H]]]; try discriminate.
    - right. apply has_rel_true, H.
    - left. apply has_rel_true, H. }
  rewrite Hor. cbn. rewrite Ha, Hb, H1', H2'. reflexivity.
Qed.

(** Alice follows Bob already. *)
Lemma follow_user_duplicate_witness :
  FollowService.follow_user Examples.alice Examples.bob 11
    Examples.alice_follows_bob
  = (Err (Raise FollowCreationError
            "Failed to create follow: Unknown error when following user"),
     Examples.alice_follows_bob).
Proof.
  apply (follow_user_refuses_duplicates Examples.alice Examples.bob 11
           Examples.alice_follows_bob);
    [discriminate|reflexivity|reflexivity|].
  left. vm_compute. eauto.
Defined.

(** ** Following: what a call does to the graph *)

(** [follow_user] and [accept_request] leave the graph as it was: their
    transaction functions raise. *)
Lemma follow_user_rolls_back a b now g :
  snd (FollowService.follow_user a b now g) = g.
Proof.
  unfold FollowService.follow_user, execute_write.
  destruct (N.eqb a b); [reflexivity|].
  pose proof (_create_follow_relationship_raises a b now g) as H.
  destruct (FollowService._create_follow_relationship a b now g)
    as [[r|e] g1]; [discriminate H|reflexivity].
Qed.

Lemma _accept_follow_request_raises :
  forall (a b : UUID) (now : Time) (g : Graph),
    is_ok (fst (FollowService._accept_follow_request a b now g)) = false.
Proof.
  intros a b now g.
  unfold FollowService._accept_follow_request,
    FollowService.accept_follow_query.
  destruct (users g !! a) as [ua|]; [|reflexivity].
  destruct (users g !! b) as [ub|]; [|reflexivity].
  destruct (REQUESTED_TO_FOLLOW g !! (a, b)) as [r|]; [|reflexivity].
  destruct (FollowService.is_pending r); [|reflexivity].
  cbn -[AcceptFollowRequestRecord_new].
  match goal with
  | |- context [AcceptFollowRequestRecord_new (VMap ?kw)] =>
      destruct (AcceptFollowRequestRecord_new_raises kw eq_refl) as [n ->]
  end.
  reflexivity.
Qed.

Lemma accept_request_rolls_back a b now g :
  snd (FollowService.accept_request a b now g) = g.
Proof.
  unfold FollowService.accept_request, execute_write.
  pose proof (_accept_follow_request_raises a b now g) as H.
  destruct (FollowService._accept_follow_request a b now g)
    as [[r|e] g1]; [discriminate H|].
  destruct (isinstance e FollowRequestNotFoundError); reflexivity.
Qed.

Lemma unfollow_user_cases a b g :
  snd (FollowService.unfollow_user a b g) = g
  \/ exists r,
       is_Some (users g !! a) /\ is_Some (users g !! b)
       /\ FOLLOWS g !! (a, b) = Some r
       /\ snd (FollowService.unfollow_user a b g)
          = set_users
              (alter (fun u => set_follower_count
                                 (null_add (follower_count u) (-1)) u) b)
              (set_users
                 (alter (fun u => set_following_count
                                    (null_add (following_count u) (-1)) u) a)
                 (set_FOLLOWS (delete (a, b)) g)).
Proof.
  unfold FollowService.unfollow_user, execute_write,
    FollowService._remove_follow, FollowService.remove_follow_query.
  destruct (users g !! a) as [ua|]; [|left; reflexivity].
  destruct (users g !! b) as [ub|]; [|left; reflexivity].
  destruct (FOLLOWS g !! (a, b)) as [r|]; [|left; reflexivity].
  right. exists r. cbn. eauto.
Qed.

Lemma deny_request_cases a b g :
  snd (FollowService.deny_request a b g) = g
  \/ snd (FollowService.deny_request a b g)
     = set_REQUESTED_TO_FOLLOW (delete (a, b)) g.
Proof.
  unfold FollowService.deny_request, execute_write,
    FollowService._deny_follow_request, FollowService.deny_follow_query.
  destruct (users g !! a) as [ua|]; [|left; reflexivity].
  destruct (users g !! b) as [ub|]; [|left; reflexivity].
  destruct (REQUESTED_TO_FOLLOW g !! (a, b)) as [r|]; [|left; reflexivity].
  destruct (FollowService.is_pending r); [|left; reflexivity].
  right. reflexivity.
Qed.

(** Following a public account and unfollowing it again gives back the
    graph the first call started from, when the two counters concerned
    were set: [unfollow_user] succeeds, the relationship is gone and both
    counters have their old values. *)

(** [accept_request] never succeeds.  For a pending request between two
    existing users its query deletes the request and creates the [FOLLOWS]
    relationship, with the time of the call as [created_at] and as
    [request_accepted_at], but [AcceptFollowRequestRecord] refuses the
    relationship of the row, whose timestamps are temporal values of the
    database: the call raises [FollowRequestError] and the graph is the
    one given, the request still pending. *)
Theorem accept_request_never_succeeds :
  forall (a b : UUID) (now : Time) (g : Graph) (r : RequestRel),
    is_Some (users g !! a) -> is_Some (users g !! b) ->
    REQUESTED_TO_FOLLOW g !! (a, b) = Some r ->
    request_status r = PENDING ->
    let gq := fst (FollowService.accept_follow_query a b now g) in
    REQUESTED_TO_FOLLOW gq !! (a, b) = None
    /\ FOLLOWS gq !! (a, b)
       = Some {| follow_created_at := now; request_accepted_at := Some now |}
    /\ exists msg,
         FollowService.accept_request a b now g
         = (Err (Raise FollowRequestError msg), g).
Proof.
  intros a b now g r [ua Ha] [ub Hb] Hr Hp gq. subst gq.
  split; [|split].
  - unfold FollowService.accept_follow_query, FollowService.is_pending.
    rewrite Ha, Hb, Hr, Hp. cbn. apply lookup_delete_eq.
  - unfold FollowService.accept_follow_query, FollowService.is_pending.
    rewrite Ha, Hb, Hr, Hp. cbn. apply lookup_insert_eq.
  - unfold FollowService.accept_request, execute_write,
      FollowService._accept_follow_request,
      FollowService.accept_follow_query, FollowService.is_pending.
    rewrite Ha, Hb, Hr, Hp.
    cbn -[AcceptFollowRequestRecord_new].
    match goal with
    | |- context [AcceptFollowRequestRecord_new (VMap ?kw)] =>
        destruct (AcceptFollowRequestRecord_new_raises kw eq_refl) as [n ->]
    end.
    cbn. eauto.
Qed.

(** Alice has asked to follow Carol; Carol accepts. *)
Lemma accept_request_witness :
  exists msg,
    FollowService.accept_request Examples.alice Examples.carol 12
      Examples.alice_asked_carol
    = (Err (Raise FollowRequestError msg), Examples.alice_asked_carol).
Proof.
  apply (accept_request_never_succeeds Examples.alice Examples.carol 12
           Examples.alice_asked_carol
           {| request_created_at := 10; request_status := PENDING |});
    [vm_compute; eauto | vm_compute; eauto | reflexivity | reflexivity].
Defined.

(** When no pending request joins the two users, [accept_request] and
    [deny_request] raise [FollowRequestNotFoundError]; when no [FOLLOWS]
    relationship joins them, or one of them does not exist,
    [unfollow_user] raises [FollowNotFoundError].  The error is passed on
    as it is, not wrapped, and the graph is left as it was. *)
Theorem missing_relationship_is_not_found :
  forall (a b : UUID) (now : Time) (g : Graph),
    ((forall r, REQUESTED_TO_FOLLOW g !! (a, b) = Some r ->
                request_status r <> PENDING) ->
     FollowService.accept_request a b now g
     = (Err (Raise FollowRequestNotFoundError
               "Follow request not found or already processed"), g)
     /\ FollowService.deny_request a b g
        = (Err (Raise FollowRequestNotFoundError
                  "Follow request not found or already processed"), g))
    /\ (FOLLOWS g !! (a, b) = None \/ users g !! a = None
        \/ users g !! b = None ->
        FollowService.unfollow_user a b g
        = (Err (Raise FollowNotFoundError "Follow relationship not found"),
           g)).
Proof.
  intros a b now g. split.
  - intros Hnp.
    unfold FollowService.accept_request, FollowService.deny_request,
      execute_write, FollowService._accept_follow_request,
      FollowService._deny_follow_request, FollowService.accept_follow_query,
      FollowService.deny_follow_query, FollowService.is_pending.
    destruct (users g !! a); [|split; reflexivity].
    destruct (users g !! b); [|split; reflexivity].
    destruct (REQUESTED_TO_FOLLOW g !! (a, b)) as [r|] eqn:Hr;
      [|split; reflexivity].
    specialize (Hnp r eq_refl).
    destruct (request_status r); [congruence|split; reflexivity..].
  - intros H.
    unfold FollowService.unfollow_user, execute_write,
      FollowService._remove_follow, FollowService.remove_follow_query.
    destruct (users g !! a); [|reflexivity].
    destruct (users g !! b); [|reflexivity].
    destruct (FOLLOWS g !! (a, b)) eqn:Hf; [|reflexivity].
    destruct H as [H|[H|H]]; discriminate.
Qed.

(** Nobody has asked to follow Bob, and nobody follows him. *)
Lemma missing_relationship_witness :
  FollowService.accept_request Examples.alice Examples.bob 12
    Examples.three_users
  = (Err (Raise FollowRequestNotFoundError
            "Follow request not found or already processed"),
     Examples.three_users)
  /\ FollowService.unfollow_user Examples.alice Examples.bob
       Examples.three_users
     = (Err (Raise FollowNotFoundError "Follow relationship not found"),
        Examples.three_users).
Proof.
  destruct (missing_relationship_is_not_found Examples.alice Examples.bob 12
              Examples.three_users) as [H1 H2].
  split.
  - apply H1. intros r Hr. discriminate Hr.
  - apply H2. left. reflexivity.
Defined.

(** [deny_request] on a pending request between two existing users
    succeeds and deletes the request; nothing else in the graph changes,
    and no [FOLLOWS] relationship is created. *)
Theorem deny_request_removes_pending_request :
  forall (a b : UUID) (g : Graph) (r : RequestRel),
    is_Some (users g !! a) -> is_Some (users g !! b) ->
    REQUESTED_TO_FOLLOW g !! (a, b) = Some r ->
    request_status r = PENDING ->
    FollowService.deny_request a b g
    = (Ok tt, set_REQUESTED_TO_FOLLOW (delete (a, b)) g).
Proof.
  intros a b g r [ua Ha] [ub Hb] Hr Hp.
  unfold FollowService.deny_request, execute_write,
    FollowService._deny_follow_request, FollowService.deny_follow_query,
    FollowService.is_pending.
  rewrite Ha, Hb, Hr, Hp. reflexivity.
Qed.

(** Alice has asked to follow Carol; Carol denies, and the graph is the
    one before the request. *)
Lemma deny_request_witness :
  FollowService.deny_request Examples.alice Examples.carol
    Examples.alice_asked_carol
  = (Ok tt, Examples.three_users).
Proof.
  exact (deny_request_removes_pending_request Examples.alice Examples.carol
           Examples.alice_asked_carol
           {| request_created_at := 10; request_status := PENDING |}
           (ex_intro _ (Examples.new_user false) eq_refl)
           (ex_intro _ (Examples.new_user true) eq_refl)
           eq_refl eq_refl).
Defined.

(** ** Following: invariants *)

Lemma alice_asked_carol_request_excludes_follow :
  request_excludes_follow Examples.alice_asked_carol.
Proof. intros a b _. apply lookup_empty. Qed.

Lemma alice_follows_bob_request_excludes_follow :
  request_excludes_follow Examples.alice_follows_bob.
Proof.
  intros a b [r Hr]. exfalso. revert Hr.
  change (REQUESTED_TO_FOLLOW Examples.alice_follows_bob)
    with (∅ : gmap (UUID * UUID) RequestRel).
  rewrite lookup_empty. discriminate.
Qed.

(** The four calls that write follow relationships keep requests and
    follows apart: if no pair of users is joined by both a request and a
    follow before the call, none is after it, whether the call succeeds or
    raises. *)
Theorem request_excludes_follow_is_kept :
  forall (a b : UUID) (now : Time) (g : Graph),
    request_excludes_follow g ->
    request_excludes_follow (snd (FollowService.follow_user a b now g))
    /\ request_excludes_follow (snd (FollowService.unfollow_user a b g))
    /\ request_excludes_follow (snd (FollowService.accept_request a b now g))
    /\ request_excludes_follow (snd (FollowService.deny_request a b g)).
Proof.
  intros a b now g Hinv. split; [|split; [|split]].
  - rewrite follow_user_rolls_back. exact Hinv.
  - destruct (unfollow_user_cases a b g) as [->|(r & _ & _ & _ & ->)];
      [exact Hinv|].
    intros x y Hs. cbn in *.
    destruct (decide ((a, b) = (x, y))) as [E|E].
    + rewrite <- E. apply lookup_delete_eq.
    + rewrite lookup_delete_ne by exact E. apply Hinv, Hs.
  - rewrite accept_request_rolls_back. exact Hinv.
  - destruct (deny_request_cases a b g) as [->| ->]; [exact Hinv|].
    intros x y. cbn.
    destruct (decide ((a, b) = (x, y))) as [E|E].
    + rewrite <- E, lookup_delete_eq. intros [? ?]; discriminate.
    + rewrite lookup_delete_ne by exact E. apply Hinv.
Qed.

(** Alice has asked to follow Carol: after Carol accepted, and after
    Carol denied. *)
Lemma request_excludes_follow_witness :
  request_excludes_follow
    (snd (FollowService.accept_request Examples.alice Examples.carol 12
            Examples.alice_asked_carol))
  /\ request_excludes_follow
       (snd (FollowService.deny_request Examples.alice Examples.carol
               Examples.alice_asked_carol)).
Proof.
  pose proof (request_excludes_follow_is_kept Examples.alice Examples.carol
                12 Examples.alice_asked_carol
                alice_asked_carol_request_excludes_follow)
    as (_ & _ & H3 & H4).
  split; [exact H3|exact H4].
Defined.

Lemma edges_after_insert (g h : Graph) a b r u :
  FOLLOWS g !! (a, b) = None ->
  FOLLOWS h = <[(a, b) := r]> (FOLLOWS g) ->
  following_edges h u
  = ((if decide (a = u) then 1 else 0) + following_edges g u)%nat
  /\ follower_edges h u
     = ((if decide (b = u) then 1 else 0) + follower_edges g u)%nat.
Proof.
  intros Hf Hh. unfold following_edges, follower_edges. rewrite Hh.
  rewrite !size_filter_insert_fresh by exact Hf. cbn.
  split; repeat case_decide; congruence.
Qed.

Lemma edges_before_delete (g h : Graph) a b r u :
  FOLLOWS g !! (a, b) = Some r ->
  FOLLOWS h = delete (a, b) (FOLLOWS g) ->
  following_edges g u
  = ((if decide (a = u) then 1 else 0) + following_edges h u)%nat
  /\ follower_edges g u
     = ((if decide (b = u) then 1 else 0) + follower_edges h u)%nat.
Proof.
  intros Hf Hh. unfold following_edges, follower_edges. rewrite Hh.
  rewrite !(size_filter_delete_present _ (FOLLOWS g) (a, b) r Hf). cbn.
  split; repeat case_decide; congruence.
Qed.

Lemma counters_after_follow (g h : Graph) a b r :
  follow_counters_exact g ->
  FOLLOWS g !! (a, b) = None ->
  FOLLOWS h = <[(a, b) := r]> (FOLLOWS g) ->
  users h
  = alter (fun u => set_follower_count
                      (Some (coalesce (follower_count u) 0 + 1)%Z) u) b
      (alter (fun u => set_following_count
                         (Some (coalesce (following_count u) 0 + 1)%Z) u) a
         (users g)) ->
  follow_counters_exact h.
Proof.
  intros Hinv Hf HF HU u n Hn.
  destruct (edges_after_insert g h a b r u Hf HF) as [-> ->].
  rewrite HU in Hn.
  destruct (decide (a = u)) as [Ea|Ea], (decide (b = u)) as [Eb|Eb];
    try subst a; try subst b;
    repeat (rewrite lookup_alter_eq in Hn
            || rewrite lookup_alter_ne in Hn by congruence);
    destruct (users g !! u) as [n0|] eqn:Hu; try discriminate;
    destruct (Hinv u n0 Hu) as [H1 H2];
    cbn in Hn; injection Hn as <-; cbn; rewrite ?H1, ?H2; cbn;
    split; f_equal; lia.
Qed.

Lemma counters_after_unfollow (g h : Graph) a b r :
  follow_counters_exact g ->
  FOLLOWS g !! (a, b) = Some r ->
  FOLLOWS h = delete (a, b) (FOLLOWS g) ->
  users h
  = alter (fun u => set_follower_count (null_add (follower_count u) (-1)) u) b
      (alter (fun u => set_following_count
                         (null_add (following_count u) (-1)) u) a
         (users g)) ->
  follow_counters_exact h.
Proof.
  intros Hinv Hf HF HU u n Hn.
  destruct (edges_before_delete g h a b r u Hf HF) as [E1 E2].
  rewrite HU in Hn.
  destruct (decide (a = u)) as [Ea|Ea], (decide (b = u)) as [Eb|Eb];
    try subst a; try subst b;
    repeat (rewrite lookup_alter_eq in Hn
            || rewrite lookup_alter_ne in Hn by congruence);
    destruct (users g !! u) as [n0|] eqn:Hu; try discriminate;
    destruct (Hinv u n0 Hu) as [H1 H2];
    rewrite E1 in H1; rewrite E2 in H2;
    cbn in Hn; injection Hn as <-; cbn; rewrite ?H1, ?H2; cbn;
    split; f_equal; lia.
Qed.

(** The cached follow counters stay exact: when every user's
    [following_count] and [follower_count] are the numbers of [FOLLOWS]
    relationships leaving and reaching the user, and requests and follows
    are kept apart, the same holds after [follow_user], [unfollow_user],
    [accept_request] and [deny_request], whether they succeed or raise.
    In particular no counter becomes negative or null. *)
Theorem follow_counters_stay_exact :
  forall (a b : UUID) (now : Time) (g : Graph),
    follow_counters_exact g ->
    request_excludes_follow g ->
    follow_counters_exact (snd (FollowService.follow_user a b now g))
    /\ follow_counters_exact (snd (FollowService.unfollow_user a b g))
    /\ follow_counters_exact (snd (FollowService.accept_request a b now g))
    /\ follow_counters_exact (snd (FollowService.deny_request a b g)).
Proof.
  intros a b now g Hinv Hex. split; [|split; [|split]].
  - rewrite follow_user_rolls_back. exact Hinv.
  - destruct (unfollow_user_cases a b g) as [->|(r & _ & _ & Hf & ->)];
      [exact Hinv|].
    eapply (counters_after_unfollow g _ a b r); [exact Hinv|exact Hf| |];
      reflexivity.
  - rewrite accept_request_rolls_back. exact Hinv.
  - destruct (deny_request_cases a b g) as [->| ->]; exact Hinv.
Qed.

(** Alice follows Bob: the counters of the example are exact. *)
Lemma alice_follows_bob_follow_counters_exact :
  follow_counters_exact Examples.alice_follows_bob.
Proof.
  eapply (counters_after_follow Examples.three_users _ Examples.alice
            Examples.bob);
    [exact three_users_follow_counters_exact|reflexivity|reflexivity|].
  cbn.
  rewrite (alter_as_insert _ _ Examples.alice (Examples.new_user false))
    by reflexivity.
  rewrite (alter_as_insert _ _ Examples.bob (Examples.new_user false))
    by reflexivity.
  reflexivity.
Qed.

(** Alice follows Bob, and unfollows him. *)
Lemma follow_counters_witness :
  follow_counters_exact
    (snd (FollowService.unfollow_user Examples.alice Examples.bob
            Examples.alice_follows_bob)).
Proof.
  exact (proj1 (proj2 (follow_counters_stay_exact Examples.alice Examples.bob
                         10 Examples.alice_follows_bob
                         alice_follows_bob_follow_counters_exact
                         alice_follows_bob_request_excludes_follow))).
Defined.

(** ** Likes *)

(** What [like_post] raises, by the nodes it finds; the graph is the one
    given. *)
Lemma like_post_cases u p ct now g :
  match users g !! u, posts g !! p with
  | Some _, Some post =>
      LikeService.like_post u p ct now g
      = (Err (validation_error "Like" 1), g)
  | _, _ =>
      LikeService.like_post u p ct now g
      = (Err (Raise ValueError "Something went wrong while liking the post"),
         g)
  end.
Proof.
  unfold LikeService.like_post, execute_write, LikeService._create_post_like,
    LikeService.create_post_like_query, LikeService.like_check_query.
  destruct (users g !! u) as [un|] eqn:Hu.
  - destruct (posts g !! p) as [post|] eqn:Hp.
    + destruct (LIKED g !! (u, p)) as [t|]; destruct ct; reflexivity.
    + cbn. rewrite Hu, Hp. reflexivity.
  - cbn. rewrite Hu. reflexivity.
Qed.

Lemma unlike_post_cases u p g :
  match users g !! u, posts g !! p with
  | Some _, Some post =>
      match LIKED g !! (u, p) with
      | Some t =>
          LikeService.unlike_post u p g
          = (Ok tt,
             set_posts
               (insert p {| like_count := null_add (like_count post) (-1) |})
               (set_LIKED (delete (u, p)) g))
      | None =>
          LikeService.unlike_post u p g
          = (Err (Raise ValueError "You haven't liked this post"), g)
      end
  | _, _ =>
      LikeService.unlike_post u p g
      = (Err (Raise ValueError "Something went wrong removing your post like"),
         g)
  end.
Proof.
  unfold LikeService.unlike_post, execute_write, LikeService._remove_post_like,
    LikeService.remove_post_like_query, LikeService.like_check_query.
  destruct (users g !! u) as [un|] eqn:Hu.
  - destruct (posts g !! p) as [post|] eqn:Hp.
    + destruct (LIKED g !! (u, p)) as [t|] eqn:Hl; [reflexivity|].
      cbn. rewrite Hu, Hp, Hl. cbn. reflexivity.
    + cbn. rewrite Hu, Hp. reflexivity.
  - cbn. rewrite Hu. reflexivity.
Qed.

(** The errors of the like service.  [like_post] always raises, and
    leaves the graph as it was: when the user and the post exist, whether
    the post is liked already or not, [Like] refuses the [created_at] of
    the row and the call raises its validation error; when one of them
    does not exist it raises the catch-all message, as its check query
    matches nothing either, so that "User not found" and "Post not found"
    are never raised.  [unlike_post] raises "You haven't liked this post"
    when user and post exist, and the catch-all message otherwise.  A call
    that raises leaves the graph as it was. *)
Theorem like_errors_leave_graph :
  forall (u p : UUID) (ct : ContentType) (now : Time) (g : Graph),
    (exists e,
       LikeService.like_post u p ct now g = (Err e, g)
       /\ (is_Some (users g !! u) -> is_Some (posts g !! p) ->
           isinstance e ValidationError = true)
       /\ (users g !! u = None \/ posts g !! p = None ->
           e = Raise ValueError "Something went wrong while liking the post"))
    /\ (forall e g', LikeService.unlike_post u p g = (Err e, g') ->
          g' = g
          /\ e = Raise ValueError
                   (if bool_decide (is_Some (users g !! u)
                                    /\ is_Some (posts g !! p))
                    then "You haven't liked this post"
                    else "Something went wrong removing your post like")
          /\ (is_Some (users g !! u) -> is_Some (posts g !! p) ->
              LIKED g !! (u, p) = None)).
Proof.
  intros u p ct now g. split.
  - pose proof (like_post_cases u p ct now g) as Hc.
    destruct (users g !! u) as [un|]; [destruct (posts g !! p) as [post|]|];
      rewrite Hc; eexists; (split; [reflexivity|]); split;
      try reflexivity; try (intros _ _; reflexivity).
    + intros [H|H]; discriminate.
    + intros _ Hs. destruct (is_Some_None Hs).
    + intros Hs. destruct (is_Some_None Hs).
  - intros e g' H. pose proof (unlike_post_cases u p g) as Hc.
    destruct (users g !! u) as [un|]; [destruct (posts g !! p) as [post|]|].
    + destruct (LIKED g !! (u, p)); [congruence|].
      rewrite Hc in H. inversion H.
      rewrite bool_decide_eq_true_2 by (split; eauto). auto.
    + rewrite Hc in H. inversion H.
      rewrite bool_decide_eq_false_2
        by (intros [_ Hs]; exact (is_Some_None Hs)).
      split; [reflexivity|]. split; [reflexivity|].
      intros _ Hs. destruct (is_Some_None Hs).
    + rewrite Hc in H. inversion H.
      rewrite bool_decide_eq_false_2
        by (intros [Hs _]; exact (is_Some_None Hs)).
      split; [reflexivity|]. split; [reflexivity|].
      intros Hs. destruct (is_Some_None Hs).
Qed.

(** Alice likes the post, which nobody has liked; she unlikes a post she
    has not liked. *)
Lemma like_errors_witness :
  (exists e,
     LikeService.like_post Examples.alice Examples.post7 POST 5
       Examples.three_users = (Err e, Examples.three_users)
     /\ isinstance e ValidationError = true)
  /\ snd (LikeService.unlike_post Examples.alice Examples.post7
            Examples.three_users) = Examples.three_users.
Proof.
  split.
  - destruct (proj1 (like_errors_leave_graph Examples.alice Examples.post7
                       POST 5 Examples.three_users)) as (e & He & Hv & _).
    exists e. split; [exact He|].
    apply Hv; vm_compute; eauto.
  - exact (proj1 (proj2 (like_errors_leave_graph Examples.alice Examples.post7
                           POST 5 Examples.three_users)
                    (Raise ValueError "You haven't liked this post")
                    (snd (LikeService.unlike_post Examples.alice
                            Examples.post7 Examples.three_users))
                    eq_refl)).
Defined.




(** ** Unblocking, whatever the graph *)

(** [unblock] never removes a block.  For two different identifiers the
    query returns one row whether the users and the block exist or not,
    the row has no column [result], and [unblock] raises the [KeyError]
    of the lookup; the transaction is rolled back, so the graph is the one
    given and [is_blocked] answers as before. *)
Theorem unblock_always_raises :
  forall (a b : UUID) (g : Graph),
    BlockService.unblock a b g
    = (Err (if N.eqb a b
            then Raise BlockError "Users cannot unblock themselves"
            else Raise KeyError "'result'"), g)
    /\ BlockService.is_blocked a b (snd (BlockService.unblock a b g))
       = BlockService.is_blocked a b g.
Proof.
  intros a b g.
  assert (H : BlockService.unblock a b g
              = (Err (if N.eqb a b
                      then Raise BlockError "Users cannot unblock themselves"
                      else Raise KeyError "'result'"), g)).
  { unfold BlockService.unblock.
    destruct (N.eqb a b); reflexivity. }
  rewrite H. auto.
Qed.

(** Alice has blocked Bob, and still has after [unblock]. *)
Lemma unblock_witness :
  BlockService.is_blocked Examples.alice Examples.bob
    Examples.alice_blocks_bob = Ok true
  /\ BlockService.is_blocked Examples.alice Examples.bob
       (snd (BlockService.unblock Examples.alice Examples.bob
               Examples.alice_blocks_bob)) = Ok true.
Proof.
  split; [reflexivity|].
  rewrite (proj2 (unblock_always_raises Examples.alice Examples.bob
                    Examples.alice_blocks_bob)).
  reflexivity.
Defined.

(** ** Dating actions *)

Section Actions.

Variable point_distance : Q * Q -> Q * Q -> Q.

(** What [record_dating_action] returns and writes for two distinct
    existing users with no block between them. *)
Lemma record_dating_action_cases u t a mid now g user target :
  u <> t ->
  DatingService.is_dating_action a = true ->
  users g !! u = Some user -> users g !! t = Some target ->
  BLOCKS g !! (u, t) = None -> BLOCKS g !! (t, u) = None ->
  let g1 := set_DATING_ACTION (insert (u, t, a) now) g in
  DatingService.record_dating_action point_distance u t a mid now g
  = if mutual g u t a then
      match point user, point target with
      | Some p, Some q =>
          let m := match_after g u t mid now in
          (Ok (Some {| dm_match_id := match_id m;
                       user_id_a := u; user_id_b := t;
                       user_a_action := Some a;
                       user_b_action :=
                         Some (if DatingService.has_action g t u SUPER_LIKE
                               then SUPER_LIKE else SWIPE_RIGHT);
                       distance_miles :=
                         (point_distance p q * meters_to_miles)%Q;
                       compatibility_score := 0;
                       is_mutual := true;
                       dm_created_at := match_created_at m;
                       dm_updated_at := match_updated_at m |}),
           match DatingService.find_match g u t with
           | Some _ => g1
           | None => set_DATING_MATCH (insert (u, t) m) g1
           end)
      | _, _ =>
          (Err (Raise MatchCreationError
                  "Failed to create match: 1 validation error for DatingMatch"),
           g)
      end
    else (Ok None, g1).
Proof.
  intros Hne Hda Hu Ht Hb1 Hb2 g1. subst g1.
  unfold DatingService.record_dating_action.
  destruct (N.eqb_spec u t) as [->|_]; [congruence|].
  rewrite Hda. cbn [negb].
  unfold execute_write, DatingService._record_dating_action,
    DatingService.record_dating_action_body, DatingService.action_check_query.
  rewrite Hu, Ht. cbn [head negb].
  rewrite (proj2 (has_rel_false _ _ _) Hb1), (proj2 (has_rel_false _ _ _) Hb2).
  cbn [orb].
  unfold DatingService.record_action_query. rewrite Hu, Ht.
  rewrite !has_action_after_merge by assumption.
  unfold mutual, they_are_positive, match_after.
  destruct (DatingService.is_positive a
            && (DatingService.has_action g t u SWIPE_RIGHT
                || DatingService.has_action g t u SUPER_LIKE)) eqn:Hm;
    [|reflexivity].
  change (DatingService.find_match
            (set_DATING_ACTION (insert (u, t, a) now) g) u t)
    with (DatingService.find_match g u t).
  destruct (DatingService.find_match g u t) as [m|];
    destruct (point user) as [p|], (point target) as [q|];
    destruct a; try discriminate Hda; cbn in Hm; try discriminate Hm;
    destruct (DatingService.has_action g t u SUPER_LIKE);
    reflexivity.
Qed.

(** The graph [record_dating_action] ends with is the graph given, or that
    graph with the action, or that graph with the action and a new match
    between users that had none. *)
Lemma record_dating_action_graph u t a mid now g :
  let g' := snd (DatingService.record_dating_action point_distance u t a mid
                   now g) in
  let g1 := set_DATING_ACTION (insert (u, t, a) now) g in
  g' = g \/ g' = g1
  \/ (DatingService.find_match g u t = None
      /\ g' = set_DATING_MATCH
                (insert (u, t) {| match_id := mid; match_created_at := now;
                                  match_updated_at := now;
                                  match_compatibility_score := 0 |}) g1).
Proof.
  intros g' g1. subst g' g1.
  unfold DatingService.record_dating_action.
  destruct (N.eqb u t); [left; reflexivity|].
  destruct (negb (DatingService.is_dating_action a)); [left; reflexivity|].
  unfold execute_write, DatingService._record_dating_action,
    DatingService.record_dating_action_body, DatingService.action_check_query.
  destruct (users g !! u) as [user|] eqn:Hu; [|left; reflexivity].
  destruct (users g !! t) as [target|] eqn:Ht; [|left; reflexivity].
  cbn [head negb].
  destruct (has_rel (BLOCKS g) u t || has_rel (BLOCKS g) t u);
    [left; reflexivity|].
  unfold DatingService.record_action_query. rewrite Hu, Ht.
  destruct (DatingService.is_positive a && _); [|right; left; reflexivity].
  change (DatingService.find_match
            (set_DATING_ACTION (insert (u, t, a) now) g) u t)
    with (DatingService.find_match g u t).
  destruct (DatingService.find_match g u t) as [m|]; cbn -[DatingMatch_new].
  - match goal with |- context [DatingMatch_new ?v] =>
      destruct (DatingMatch_new v) end;
      [right; left; reflexivity|left; reflexivity].
  - match goal with |- context [DatingMatch_new ?v] =>
      destruct (DatingMatch_new v) end;
      [right; right; split; reflexivity|left; reflexivity].
Qed.

(** A dating action that is not answered is stored and nothing else is
    written: for two distinct existing users with no block between them,
    [record_dating_action] returns [None] and the graph differs from the
    one given by the [DATING_ACTION] relationship of that type alone, with
    the time of the call. *)
Theorem unanswered_swipe_is_stored :
  forall (u t : UUID) (a : InteractionType) (mid : UUID) (now : Time)
         (g : Graph),
    u <> t ->
    DatingService.is_dating_action a = true ->
    is_Some (users g !! u) -> is_Some (users g !! t) ->
    BLOCKS g !! (u, t) = None -> BLOCKS g !! (t, u) = None ->
    mutual g u t a = false ->
    DatingService.record_dating_action point_distance u t a mid now g
    = (Ok None, set_DATING_ACTION (insert (u, t, a) now) g).
Proof.
  intros u t a mid now g Hne Hda [user Hu] [target Ht] Hb1 Hb2 Hm.
  rewrite (record_dating_action_cases u t a mid now g user target)
    by assumption.
  rewrite Hm. reflexivity.
Qed.

(** A positive action that answers one, between two users whose
    coordinates are known, returns the match: its identifier and times are
    those of the [DATING_MATCH] relationship that joins the two users
    already, in either direction, and otherwise the new identifier and the
    time of the call; [user_b_action] is [SUPER_LIKE] when the target
    super-liked and [SWIPE_RIGHT] otherwise; the score is 0.  The graph
    gets the action and, when there was no match, the match. *)
Theorem mutual_swipe_returns_stored_match :
  forall (u t : UUID) (a : InteractionType) (mid : UUID) (now : Time)
         (g : Graph) (user target : UserNode) (p q : Q * Q),
    u <> t ->
    users g !! u = Some user -> users g !! t = Some target ->
    BLOCKS g !! (u, t) = None -> BLOCKS g !! (t, u) = None ->
    mutual g u t a = true ->
    point user = Some p -> point target = Some q ->
    let m := match_after g u t mid now in
    let g1 := set_DATING_ACTION (insert (u, t, a) now) g in
    DatingService.record_dating_action point_distance u t a mid now g
    = (Ok (Some {| dm_match_id := match_id m;
                   user_id_a := u; user_id_b := t;
                   user_a_action := Some a;
                   user_b_action :=
                     Some (if DatingService.has_action g t u SUPER_LIKE
                           then SUPER_LIKE else SWIPE_RIGHT);
                   distance_miles := (point_distance p q * meters_to_miles)%Q;
                   compatibility_score := 0;
                   is_mutual := true;
                   dm_created_at := match_created_at m;
                   dm_updated_at := match_updated_at m |}),
       match DatingService.find_match g u t with
       | Some _ => g1
       | None => set_DATING_MATCH (insert (u, t) m) g1
       end).
Proof.
  intros u t a mid now g user target p q Hne Hu Ht Hb1 Hb2 Hm Hp Hq m g1.
  assert (Hda : DatingService.is_dating_action a = true).
  { unfold mutual in Hm. destruct a; try discriminate Hm; reflexivity. }
  rewrite (record_dating_action_cases u t a mid now g user target)
    by assumption.
  rewrite Hm, Hp, Hq. reflexivity.
Qed.

(** A mutual positive action between users one of whom has no coordinates
    cannot be recorded: the distance of the row is null, [DatingMatch]
    rejects it, and [record_dating_action] raises [MatchCreationError]
    (the text of the validation error contains "match").  The transaction
    is rolled back: neither the match nor the action is stored. *)
Theorem mutual_swipe_without_location_is_rolled_back :
  forall (u t : UUID) (a : InteractionType) (mid : UUID) (now : Time)
         (g : Graph) (user target : UserNode),
    u <> t ->
    users g !! u = Some user -> users g !! t = Some target ->
    BLOCKS g !! (u, t) = None -> BLOCKS g !! (t, u) = None ->
    mutual g u t a = true ->
    point user = None \/ point target = None ->
    let r := DatingService.record_dating_action point_distance u t a mid now
               g in
    raises (fst r) MatchCreationError = true
    /\ raises (fst r) ActionRecordingError = false
    /\ snd r = g.
Proof.
  intros u t a mid now g user target Hne Hu Ht Hb1 Hb2 Hm Hloc r. subst r.
  assert (Hda : DatingService.is_dating_action a = true).
  { unfold mutual in Hm. destruct a; try discriminate Hm; reflexivity. }
  rewrite (record_dating_action_cases u t a mid now g user target)
    by assumption.
  rewrite Hm.
  destruct Hloc as [-> | ->]; [|destruct (point user)]; cbn; auto.
Qed.

(** The refusals of [record_dating_action] for a dating action between
    two different identifiers: when one of the users does not exist the
    check query returns no row and the message is "Failed to verify
    users" ("User not found" and "Target user not found" are never
    raised); when a [BLOCKS] relationship joins the users in either
    direction the message is "Cannot interact with blocked user".  Both
    are wrapped by the handler as [ActionRecordingError] and the graph is
    left as it was. *)
Theorem record_dating_action_refusals :
  forall (u t : UUID) (a : InteractionType) (mid : UUID) (now : Time)
         (g : Graph),
    u <> t ->
    DatingService.is_dating_action a = true ->
    (users g !! u = None \/ users g !! t = None ->
     DatingService.record_dating_action point_distance u t a mid now g
     = (Err (Raise ActionRecordingError
               "Failed to record action: Failed to verify users"), g))
    /\ (is_Some (users g !! u) -> is_Some (users g !! t) ->
        is_Some (BLOCKS g !! (u, t)) \/ is_Some (BLOCKS g !! (t, u)) ->
        DatingService.record_dating_action point_distance u t a mid now g
        = (Err (Raise ActionRecordingError
                  "Failed to record action: Cannot interact with blocked user"),
           g)).
Proof.
  intros u t a mid now g Hne Hda.
  unfold DatingService.record_dating_action.
  destruct (N.eqb_spec u t) as [->|_]; [congruence|].
  rewrite Hda. cbn [negb].
  unfold execute_write, DatingService._record_dating_action,
    DatingService.record_dating_action_body, DatingService.action_check_query.
  split.
  - intros [-> | Ht]; [reflexivity|].
    rewrite Ht. destruct (users g !! u); reflexivity.
  - intros [user ->] [target ->] Hb. cbn [head negb].
    assert (has_rel (BLOCKS g) u t || has_rel (BLOCKS g) t u = true) as ->.
    { apply orb_true_iff. unfold has_rel.
      destruct Hb; [left|right]; apply bool_decide_eq_true_2; assumption. }
    reflexivity.
Qed.

(** [record_dating_action] only adds: every [DATING_ACTION] relationship
    other than the one of the call is as it was, no action that was there
    is gone (a pass does not take back an earlier like), every
    [DATING_MATCH] relationship that was there is unchanged, and users,
    blocks, follows and profiles are not touched. *)
Theorem swipe_keeps_everything_else :
  forall (u t : UUID) (a : InteractionType) (mid : UUID) (now : Time)
         (g : Graph),
    let g' := snd (DatingService.record_dating_action point_distance u t a
                     mid now g) in
    (forall k, k <> (u, t, a) -> DATING_ACTION g' !! k = DATING_ACTION g !! k)
    /\ (forall x y b, DatingService.has_action g x y b = true ->
                      DatingService.has_action g' x y b = true)
    /\ (forall k m, DATING_MATCH g !! k = Some m ->
                    DATING_MATCH g' !! k = Some m)
    /\ users g' = users g /\ BLOCKS g' = BLOCKS g /\ FOLLOWS g' = FOLLOWS g
    /\ dating_profiles g' = dating_profiles g.
Proof.
  intros u t a mid now g g'.
  destruct (record_dating_action_graph u t a mid now g)
    as [H|[H|[Hfm H]]]; fold g' in H; rewrite H; clear H.
  - repeat split; auto.
  - split; [|split; [|repeat split; auto]].
    + intros k Hk. cbn. apply lookup_insert_ne. congruence.
    + intros x y b. unfold DatingService.has_action. cbn.
      rewrite !bool_decide_eq_true. intros Hs.
      destruct (decide ((u, t, a) = (x, y, b))) as [<-|Hk].
      * rewrite lookup_insert_eq. eauto.
      * rewrite lookup_insert_ne by exact Hk. exact Hs.
  - split; [|split; [|split; [|repeat split; auto]]].
    + intros k Hk. cbn. apply lookup_insert_ne. congruence.
    + intros x y b. unfold DatingService.has_action. cbn.
      rewrite !bool_decide_eq_true. intros Hs.
      destruct (decide ((u, t, a) = (x, y, b))) as [<-|Hk].
      * rewrite lookup_insert_eq. eauto.
      * rewrite lookup_insert_ne by exact Hk. exact Hs.
    + intros k m Hk. cbn.
      destruct (decide ((u, t) = k)) as [<-|Hk'].
      * unfold DatingService.find_match in Hfm. rewrite Hk in Hfm.
        discriminate.
      * rewrite lookup_insert_ne by exact Hk'. exact Hk.
Qed.

(** One match for a pair of users: after a mutual positive action from
    [u] to [t] created the match, a positive action from [t] to [u]
    returns a match with the identifier of the first call, and the
    [DATING_MATCH] relationships are those of the first call; the
    relationship is stored from [u] to [t] only. *)
Theorem answering_swipe_reuses_match :
  forall (u t : UUID) (a b : InteractionType) (mid mid' : UUID)
         (now now' : Time) (g : Graph) (user target : UserNode)
         (p q : Q * Q),
    u <> t ->
    users g !! u = Some user -> users g !! t = Some target ->
    BLOCKS g !! (u, t) = None -> BLOCKS g !! (t, u) = None ->
    point user = Some p -> point target = Some q ->
    mutual g u t a = true ->
    DatingService.is_positive b = true ->
    DatingService.find_match g u t = None ->
    let g1 := snd (DatingService.record_dating_action point_distance u t a
                     mid now g) in
    let r2 := DatingService.record_dating_action point_distance t u b mid'
                now' g1 in
    (dm_match_id <$> match fst r2 with Ok x => x | Err _ => None end)
    = Some mid
    /\ DATING_MATCH (snd r2) = DATING_MATCH g1
    /\ DATING_MATCH g1 !! (t, u) = None
    /\ (match_id <$> DATING_MATCH g1 !! (u, t)) = Some mid.
Proof.
  intros u t a b mid mid' now now' g user target p q Hne Hu Ht Hb1 Hb2 Hp Hq
    Hm Hb Hfm g1 r2. subst r2 g1.
  assert (Hda : DatingService.is_dating_action a = true).
  { unfold mutual in Hm. destruct a; try discriminate Hm; reflexivity. }
  assert (Hdb : DatingService.is_dating_action b = true).
  { destruct b; try discriminate Hb; reflexivity. }
  rewrite (record_dating_action_cases u t a mid now g user target)
    by assumption.
  rewrite Hm, Hp, Hq. cbn [snd]. rewrite Hfm.
  unfold match_after. rewrite Hfm.
  unfold DatingService.find_match in Hfm.
  destruct (DATING_MATCH g !! (u, t)) eqn:E1; [discriminate|].
  set (m := {| match_id := mid; match_created_at := now;
               match_updated_at := now; match_compatibility_score := 0 |}).
  set (g2 := set_DATING_MATCH (insert (u, t) m)
               (set_DATING_ACTION (insert (u, t, a) now) g)).
  assert (Hm2 : mutual g2 t u b = true).
  { unfold mutual, they_are_positive, DatingService.has_action. rewrite Hb.
    cbn. unfold mutual in Hm. apply andb_true_iff in Hm as [Ha _].
    destruct a; try discriminate Ha; rewrite lookup_insert_eq; cbn;
      rewrite ?orb_true_r; reflexivity. }
  assert (Hf2 : DatingService.find_match g2 t u = Some m).
  { unfold DatingService.find_match. cbn.
    rewrite lookup_insert_ne by congruence. rewrite Hfm.
    apply lookup_insert_eq. }
  rewrite (record_dating_action_cases t u b mid' now' g2 target user);
    try assumption; try congruence.
  rewrite Hm2, Hp, Hq, Hf2. unfold match_after. rewrite Hf2. cbn.
  rewrite lookup_insert_ne by congruence. rewrite lookup_insert_eq.
  auto.
Qed.

End Actions.

(** Alice swipes right on Bob, who has not acted. *)
Lemma unanswered_swipe_witness :
  DatingService.record_dating_action Examples.point_distance Examples.alice
    Examples.bob SWIPE_RIGHT 100 40 Examples.dating_pool
  = (Ok None,
     set_DATING_ACTION (insert (Examples.alice, Examples.bob, SWIPE_RIGHT)
                          40%N) Examples.dating_pool).
Proof.
  apply (unanswered_swipe_is_stored Examples.point_distance Examples.alice
           Examples.bob SWIPE_RIGHT 100 40 Examples.dating_pool);
    [discriminate|reflexivity|vm_compute; eauto|vm_compute; eauto
    |reflexivity..].
Defined.

(** Bob has swiped right on Alice; Alice swipes right on Bob. *)
Lemma mutual_swipe_witness :
  let r := DatingService.record_dating_action Examples.point_distance
             Examples.alice Examples.bob SWIPE_RIGHT 101 50
             Examples.bob_likes_alice in
  (dm_match_id <$> match fst r with Ok x => x | Err _ => None end)
  = Some 101%N
  /\ (match_id <$> DATING_MATCH (snd r) !! (Examples.alice, Examples.bob))
     = Some 101%N.
Proof.
  pose proof (mutual_swipe_returns_stored_match Examples.point_distance
                Examples.alice Examples.bob SWIPE_RIGHT 101 50
                Examples.bob_likes_alice Examples.dating_user
                Examples.dating_user (48%Q, 2%Q) (48%Q, 2%Q)
                ltac:(discriminate) eq_refl eq_refl eq_refl eq_refl eq_refl
                eq_refl eq_refl) as H.
  cbv zeta in H. cbv zeta. rewrite H. split; reflexivity.
Defined.

(** The same, when the coordinates of Alice are not known. *)
Lemma mutual_swipe_without_location_witness :
  let r := DatingService.record_dating_action Examples.point_distance
             Examples.alice Examples.bob SWIPE_RIGHT 101 50
             Examples.alice_nowhere in
  raises (fst r) MatchCreationError = true
  /\ raises (fst r) ActionRecordingError = false
  /\ snd r = Examples.alice_nowhere.
Proof.
  apply (mutual_swipe_without_location_is_rolled_back Examples.point_distance
           Examples.alice Examples.bob SWIPE_RIGHT 101 50
           Examples.alice_nowhere (Examples.new_user false)
           Examples.dating_user);
    [discriminate|reflexivity..|left; reflexivity].
Defined.

(** Nobody has the identifier 99, and Alice has blocked Bob. *)
Lemma record_dating_action_refusals_witness :
  DatingService.record_dating_action Examples.point_distance Examples.alice
    99 SWIPE_RIGHT 100 40 Examples.three_users
  = (Err (Raise ActionRecordingError
            "Failed to record action: Failed to verify users"),
     Examples.three_users)
  /\ DatingService.record_dating_action Examples.point_distance Examples.bob
       Examples.alice SUPER_LIKE 100 40 Examples.alice_blocks_bob
     = (Err (Raise ActionRecordingError
               "Failed to record action: Cannot interact with blocked user"),
        Examples.alice_blocks_bob).
Proof.
  split.
  - apply (record_dating_action_refusals Examples.point_distance
             Examples.alice 99 SWIPE_RIGHT 100 40 Examples.three_users);
      [discriminate|reflexivity|right; reflexivity].
  - apply (record_dating_action_refusals Examples.point_distance
             Examples.bob Examples.alice SUPER_LIKE 100 40
             Examples.alice_blocks_bob);
      [discriminate|reflexivity|vm_compute; eauto|vm_compute; eauto
      |right; vm_compute; eauto].
Defined.

(** Bob has swiped right on Alice and now swipes left: the right swipe is
    still there. *)
Lemma swipe_keeps_witness :
  DatingService.has_action
    (snd (DatingService.record_dating_action Examples.point_distance
            Examples.bob Examples.alice SWIPE_LEFT 102 60
            Examples.bob_likes_alice))
    Examples.bob Examples.alice SWIPE_RIGHT = true.
Proof.
  apply (swipe_keeps_everything_else Examples.point_distance Examples.bob
           Examples.alice SWIPE_LEFT 102 60 Examples.bob_likes_alice).
  reflexivity.
Defined.

(** Alice answers Bob's swipe, and Bob super-likes Alice afterwards. *)
Lemma answering_swipe_witness :
  let g1 := snd (DatingService.record_dating_action Examples.point_distance
                   Examples.alice Examples.bob SWIPE_RIGHT 101 50
                   Examples.bob_likes_alice) in
  let r2 := DatingService.record_dating_action Examples.point_distance
              Examples.bob Examples.alice SUPER_LIKE 102 60 g1 in
  (dm_match_id <$> match fst r2 with Ok x => x | Err _ => None end)
  = Some 101%N
  /\ DATING_MATCH (snd r2) = DATING_MATCH g1.
Proof.
  pose proof (answering_swipe_reuses_match Examples.point_distance
                Examples.alice Examples.bob SWIPE_RIGHT SUPER_LIKE 101 102
                50 60 Examples.bob_likes_alice Examples.dating_user
                Examples.dating_user (48%Q, 2%Q) (48%Q, 2%Q)
                ltac:(discriminate) eq_refl eq_refl eq_refl eq_refl eq_refl
                eq_refl eq_refl eq_refl eq_refl) as (H1 & H2 & _).
  split; [exact H1|exact H2].
Defined.

(** ** Potential matches *)

Section Pool.

Variable apoc_date_diff_years : Z -> Z -> Z.
Variable gds_similarity_cosine : list Q -> list Q -> Q.
Variable point_distance : Q * Q -> Q * Q -> Q.

(** What the clauses of the query have checked of a candidate that
    contributes a row. *)
Lemma candidate_rows_facts today g u user mina maxa gp maxd tid tp r :
  r ∈ DatingService.candidate_rows apoc_date_diff_years
        gds_similarity_cosine point_distance today g u user mina maxa gp maxd
        (tid, tp) ->
  row_profile r = tp
  /\ tid <> u
  /\ p_is_visible tp = true
  /\ DatingService.blocks_or_blocked_by g u tid = false
  /\ DatingService.blocks_or_blocked_by g tid u = false
  /\ (mina <= apoc_date_diff_years (p_birth_date tp) today <= maxa)%Z
  /\ p_gender tp ∈ gp
  /\ exists target d,
       users g !! tid = Some target
       /\ DatingService.candidate_distance point_distance user target = Some d
       /\ (d <= maxd)%Q.
Proof.
  unfold DatingService.candidate_rows.
  destruct (users g !! tid) as [target|]; [|intros H; inversion H].
  destruct (N.eqb_spec tid u) as [->|Hne]; [intros H; inversion H|].
  destruct (p_is_visible tp); [|intros H; inversion H].
  destruct (DatingService.blocks_or_blocked_by g u tid);
    [intros H; inversion H|].
  destruct (DatingService.blocks_or_blocked_by g tid u);
    [intros H; inversion H|].
  cbn [orb negb].
  destruct (Z.leb_spec mina (apoc_date_diff_years (p_birth_date tp) today))
    as [Hlo|_]; [|intros H; inversion H].
  destruct (Z.leb_spec (apoc_date_diff_years (p_birth_date tp) today) maxa)
    as [Hhi|_]; [|intros H; inversion H].
  cbn [andb].
  destruct (bool_decide (p_gender tp ∈ gp)) eqn:Eg; [|intros H; inversion H].
  apply bool_decide_eq_true in Eg. cbn [negb].
  intros Hr. apply elem_of_flat_map in Hr as (ns & _ & Hr).
  destruct (DatingService.candidate_distance point_distance user target)
    as [d|] eqn:Ed.
  2:{ unfold DatingService.candidate_distance in Ed.
      destruct (point user), (point target); discriminate. }
  destruct (Qle_bool d maxd) eqn:Ele; [|inversion Hr].
  apply list_elem_of_singleton in Hr as ->. cbn.
  repeat split; try assumption; try lia.
  exists target, d. split; [reflexivity|]. split; [exact Ed|].
  apply Qle_bool_iff, Ele.
Qed.

Lemma potential_matches_query_elem today u mina maxa gp maxd o l g r :
  r ∈ DatingService.potential_matches_query apoc_date_diff_years
        gds_similarity_cosine point_distance today u mina maxa gp maxd o l g ->
  exists user up tid,
    users g !! u = Some user
    /\ (u, up) ∈ dating_profiles g
    /\ (tid, row_profile r) ∈ dating_profiles g
    /\ r ∈ DatingService.candidate_rows apoc_date_diff_years
             gds_similarity_cosine point_distance today g u user mina maxa gp
             maxd (tid, row_profile r).
Proof.
  unfold DatingService.potential_matches_query.
  destruct (users g !! u) as [user|]; [|intros H; inversion H].
  intros Hr.
  eapply elem_of_sublist in Hr; [|apply sublist_take].
  eapply elem_of_sublist in Hr; [|apply sublist_drop].
  rewrite order_by_score_desc_elem in Hr.
  apply elem_of_flat_map in Hr as ([u' up] & Hup & Hr).
  apply list_elem_of_filter in Hup as [Hu' Hup]. cbn in Hu'.
  apply Is_true_true, N.eqb_eq in Hu'. subst u'.
  apply elem_of_flat_map in Hr as ([tid tp] & Htp & Hr).
  pose proof (candidate_rows_facts _ _ _ _ _ _ _ _ _ _ _ Hr) as [E _].
  subst tp. exists user, up, tid. auto.
Qed.

(** The pattern of [_check_existing_match] has no direction. *)
Lemma _check_existing_match_sym a b g :
  DatingService._check_existing_match a b g
  = DatingService._check_existing_match b a g.
Proof.
  unfold DatingService._check_existing_match.
  destruct (bool_decide (is_Some (users g !! a))),
    (bool_decide (is_Some (users g !! b))),
    (has_rel (DATING_MATCH g) a b), (has_rel (DATING_MATCH g) b a);
    reflexivity.
Qed.

(** Who gets no row.  A row of the potential-matches query belongs to a
    stored profile of another user than the requesting one, who has a
    dating profile too; the profile is visible, its gender is one of the
    genders asked for and its age within the bounds; no [BLOCKS] or
    [BLOCKED_BY] relationship leaves either user for the other; and the
    distance of the row is within the bound.  When that bound is at most
    100 miles, as [DatingFilter] has it, both users have a latitude and a
    longitude: a missing coordinate makes the distance 10000 miles, so the
    score's branch for an unknown location is never used. *)
Theorem potential_match_rows_leave_out :
  forall (today : Z) (u : UUID) (mina maxa : Z) (gp : list Gender) (maxd : Q)
         (o l : nat) (g : Graph) (r : MatchRow),
    r ∈ DatingService.potential_matches_query apoc_date_diff_years
          gds_similarity_cosine point_distance today u mina maxa gp maxd
          o l g ->
    exists (tid : UUID) (user target : UserNode) (d : Q),
      users g !! u = Some user
      /\ users g !! tid = Some target
      /\ (tid, row_profile r) ∈ dating_profiles g
      /\ (exists up, (u, up) ∈ dating_profiles g)
      /\ tid <> u
      /\ p_is_visible (row_profile r) = true
      /\ BLOCKS g !! (u, tid) = None /\ BLOCKED_BY g !! (u, tid) = None
      /\ BLOCKS g !! (tid, u) = None /\ BLOCKED_BY g !! (tid, u) = None
      /\ (mina <= apoc_date_diff_years (p_birth_date (row_profile r)) today
          <= maxa)%Z
      /\ p_gender (row_profile r) ∈ gp
      /\ DatingService.candidate_distance point_distance user target = Some d
      /\ (d <= maxd)%Q
      /\ ((maxd <= 100)%Q ->
          exists pu pt : Q * Q,
            point user = Some pu /\ point target = Some pt
            /\ d = (point_distance pu pt * meters_to_miles)%Q).
Proof.
  intros today u mina maxa gp maxd o l g r Hr.
  apply potential_matches_query_elem in Hr
    as (user & up & tid & Hu & Hup & Htp & Hr).
  apply candidate_rows_facts in Hr
    as (_ & Hne & Hvis & Hb1 & Hb2 & Hage & Hg & target & d & Ht & Hd & Hle).
  unfold DatingService.blocks_or_blocked_by in Hb1, Hb2.
  apply orb_false_iff in Hb1 as [Hb1 Hb1'].
  apply orb_false_iff in Hb2 as [Hb2 Hb2'].
  apply has_rel_false in Hb1, Hb1', Hb2, Hb2'.
  exists tid, user, target, d.
  repeat (split; [solve [eauto]|]).
  intros Hmax. unfold DatingService.candidate_distance in Hd.
  destruct (point user) as [pu|] eqn:Epu.
  - destruct (point target) as [pt|] eqn:Ept.
    + inversion Hd; subst d. eauto.
    + inversion Hd; subst d. exfalso. lra.
  - inversion Hd; subst d. exfalso. lra.
Qed.

(** A filter without gender preference finds nobody: [gender_preference]
    is [None] by default, the query is then given the empty list, no
    gender is [IN] it and the query has no row. *)
Theorem empty_gender_preference_gives_no_rows :
  forall (today : Z) (u : UUID) (f : DatingFilter) (o l : nat) (g : Graph),
    f_gender_preference f = None \/ f_gender_preference f = Some [] ->
    DatingService.gender_preference_param f = []
    /\ DatingService.potential_matches_query apoc_date_diff_years
         gds_similarity_cosine point_distance today u (min_age f) (max_age f)
         (DatingService.gender_preference_param f) (f_max_distance_miles f)
         o l g = [].
Proof.
  intros today u f o l g Hgp.
  assert (Hparam : DatingService.gender_preference_param f = []).
  { unfold DatingService.gender_preference_param.
    destruct Hgp as [-> | ->]; reflexivity. }
  split; [exact Hparam|]. rewrite Hparam.
  match goal with |- ?rows = [] => destruct rows as [|r rows'] eqn:E end;
    [reflexivity|].
  assert (Hr : r ∈ r :: rows') by left.
  rewrite <- E in Hr.
  apply potential_matches_query_elem in Hr
    as (user & up & tid & _ & _ & _ & Hr).
  apply candidate_rows_facts in Hr as (_ & _ & _ & _ & _ & _ & Hg & _).
  inversion Hg.
Qed.

(** Matched users are found by [_check_existing_match]: after a mutual
    positive action from [u] to [t] was recorded, between two users whose
    coordinates are known, the check answers true for [u] and [t] in
    either order, so that the loop of [_get_potential_matches] skips the
    row of either for the other when [exclude_matched] is set. *)
Theorem matched_users_are_found :
  forall (u t : UUID) (a : InteractionType) (mid : UUID) (now : Time)
         (g : Graph) (user target : UserNode) (pu pt : Q * Q)
         (f : DatingFilter) (r : MatchRow),
    u <> t ->
    users g !! u = Some user -> users g !! t = Some target ->
    BLOCKS g !! (u, t) = None -> BLOCKS g !! (t, u) = None ->
    mutual g u t a = true ->
    point user = Some pu -> point target = Some pt ->
    exclude_matched f = true ->
    let g' := snd (DatingService.record_dating_action point_distance u t a
                     mid now g) in
    DatingService._check_existing_match u t g' = true
    /\ DatingService._check_existing_match t u g' = true
    /\ (p_user_id (row_profile r) = t -> qualifies g' u f r = false)
    /\ (p_user_id (row_profile r) = u -> qualifies g' t f r = false).
Proof.
  intros u t a mid now g user target pu pt f r Hne Hu Ht Hb1 Hb2 Hm Hpu Hpt
    Hex g'. subst g'.
  assert (Hda : DatingService.is_dating_action a = true).
  { unfold mutual in Hm. destruct a; try discriminate Hm; reflexivity. }
  rewrite (record_dating_action_cases point_distance u t a mid now g
             user target) by assumption.
  rewrite Hm, Hpu, Hpt. cbn [snd].
  match goal with
  | |- DatingService._check_existing_match u t ?h = true /\ _ =>
      assert (Hcheck : DatingService._check_existing_match u t h = true)
  end.
  { unfold DatingService._check_existing_match, has_rel,
      DatingService.find_match, match_after, DatingService.find_match.
    destruct (DATING_MATCH g !! (u, t)) as [m|] eqn:E1;
      [|destruct (DATING_MATCH g !! (t, u)) as [m|] eqn:E2]; cbn;
      rewrite ?Hu, ?Ht, ?E1, ?E2, ?lookup_insert_eq;
      rewrite !bool_decide_eq_true_2 by eauto;
      rewrite ?orb_true_r; reflexivity. }
  split; [exact Hcheck|].
  split; [rewrite _check_existing_match_sym; exact Hcheck|].
  unfold qualifies. rewrite Hex. cbn [andb].
  split; intros ->.
  - rewrite Hcheck. reflexivity.
  - rewrite _check_existing_match_sym, Hcheck. reflexivity.
Qed.

End Pool.

(** Bob's row in Alice's ranking. *)
Lemma potential_match_rows_witness :
  exists (tid : UUID) (user target : UserNode) (d : Q),
    users Examples.dating_pool !! Examples.alice = Some user
    /\ users Examples.dating_pool !! tid = Some target
    /\ (tid, Examples.profile_of Examples.bob FEMALE [MALE])
       ∈ dating_profiles Examples.dating_pool
    /\ (exists up, (Examples.alice, up) ∈ dating_profiles Examples.dating_pool)
    /\ tid <> Examples.alice
    /\ p_is_visible (Examples.profile_of Examples.bob FEMALE [MALE]) = true
    /\ BLOCKS Examples.dating_pool !! (Examples.alice, tid) = None
    /\ BLOCKED_BY Examples.dating_pool !! (Examples.alice, tid) = None
    /\ BLOCKS Examples.dating_pool !! (tid, Examples.alice) = None
    /\ BLOCKED_BY Examples.dating_pool !! (tid, Examples.alice) = None
    /\ (18 <= Examples.apoc_date_diff_years 9000 Examples.today <= 100)%Z
    /\ p_gender (Examples.profile_of Examples.bob FEMALE [MALE]) ∈ [FEMALE]
    /\ DatingService.candidate_distance Examples.point_distance user target
       = Some d
    /\ (d <= 50)%Q
    /\ ((50 <= 100)%Q ->
        exists pu pt : Q * Q,
          point user = Some pu /\ point target = Some pt
          /\ d = (Examples.point_distance pu pt * meters_to_miles)%Q).
Proof.
  apply (potential_match_rows_leave_out Examples.apoc_date_diff_years
           Examples.gds_similarity_cosine Examples.point_distance
           Examples.today Examples.alice 18 100 [FEMALE] 50 0 1000
           Examples.dating_pool
           {| row_profile := Examples.profile_of Examples.bob FEMALE [MALE];
              row_age := 30;
              row_score := 1092543548000000 # 2000000000000000 |}).
  vm_compute. left.
Defined.

(** The default filter of [DatingFilter] has no gender preference. *)
Lemma empty_gender_preference_witness :
  DatingService.gender_preference_param
    {| f_max_distance_miles := 50; min_age := 18; max_age := 100;
       f_gender_preference := None; exclude_seen := true;
       exclude_matched := true; min_compatibility := 0; limit := 50;
       offset := 0 |} = []
  /\ DatingService.potential_matches_query Examples.apoc_date_diff_years
       Examples.gds_similarity_cosine Examples.point_distance Examples.today
       Examples.alice 18 100
       (DatingService.gender_preference_param
          {| f_max_distance_miles := 50; min_age := 18; max_age := 100;
             f_gender_preference := None; exclude_seen := true;
             exclude_matched := true; min_compatibility := 0; limit := 50;
             offset := 0 |}) 50 0 1000 Examples.dating_pool = [].
Proof.
  apply (empty_gender_preference_gives_no_rows Examples.apoc_date_diff_years
           Examples.gds_similarity_cosine Examples.point_distance
           Examples.today Examples.alice
           {| f_max_distance_miles := 50; min_age := 18; max_age := 100;
              f_gender_preference := None; exclude_seen := true;
              exclude_matched := true; min_compatibility := 0; limit := 50;
              offset := 0 |} 0 1000 Examples.dating_pool).
  left. reflexivity.
Defined.

(** Alice and Bob are matched: the check finds the match from either
    side. *)
Lemma matched_users_witness :
  DatingService._check_existing_match Examples.alice Examples.bob
    Examples.alice_and_bob_matched = true
  /\ DatingService._check_existing_match Examples.bob Examples.alice
       Examples.alice_and_bob_matched = true.
Proof.
  pose proof (matched_users_are_found Examples.point_distance Examples.alice
                Examples.bob SWIPE_RIGHT 101 50 Examples.bob_likes_alice
                Examples.dating_user Examples.dating_user (48, 2)%Q (48, 2)%Q
                Examples.default_filter
                {| row_profile := Examples.profile_of Examples.bob FEMALE [MALE];
                   row_age := 30; row_score := 0 |})
    as H.
  destruct H as (H1 & H2 & _); try reflexivity; try discriminate.
  split; [exact H1|exact H2].
Defined.

(** ** Dating profiles *)

(** The profiles of a user after [SET profile += {...}] on each of
    them. *)
Lemma get_profile_query_after_update (f : ProfileNode -> ProfileNode)
    (uid : UUID) (l : list (UUID * ProfileNode)) :
  map snd (filter (fun c => N.eqb (fst c) uid)
             (map (fun c : UUID * ProfileNode =>
                     if N.eqb (fst c) uid then (fst c, f (snd c)) else c) l))
  = map f (map snd (filter (fun c => N.eqb (fst c) uid) l)).
Proof.
  induction l as [|[u n] l IH]; [reflexivity|].
  cbn [map fst snd]. rewrite !filter_cons.
  destruct (N.eqb u uid) eqn:E; cbn [fst snd].
  - rewrite E. rewrite !decide_True by (cbn; exact I).
    cbn. rewrite IH. reflexivity.
  - rewrite E. rewrite !decide_False by (cbn; tauto). exact IH.
Qed.

Section Profiles.

Variable today : Z.

Lemma _get_dating_profile_raises u g :
  DatingService.get_profile_query u g <> [] ->
  raises (DatingService._get_dating_profile today u g) ValidationError = true.
Proof.
  intros Hq. unfold DatingService._get_dating_profile.
  destruct (DatingService.get_profile_query u g) as [|n l]; [congruence|].
  cbn [head].
  destruct (DatingProfile_of_node_raises today n) as [k ->]. reflexivity.
Qed.

(** A stored profile cannot be read back.  [create_dating_profile] for an
    existing user returns the profile it was given and stores a node with
    its fields and with both timestamps set to the time of the call; but
    [get_dating_profile] never returns a profile: it builds
    [DatingProfile] from the stored node, whose [birth_date] is a date of
    the database, and raises the validation error, also for the profile
    that was just created. *)
Theorem created_profile_cannot_be_read_back :
  (forall (u : UUID) (g : Graph),
      is_ok (DatingService.get_dating_profile today u g) = false)
  /\ (forall (p : DatingProfile) (now : Time) (g : Graph),
        is_Some (users g !! user_id p) ->
        let r := DatingService.create_dating_profile p now g in
        fst r = Ok p
        /\ dating_profiles (snd r)
           = (dating_profiles g
              ++ [(user_id p, DatingService.node_of_profile p now now)])%list
        /\ raises (DatingService.get_dating_profile today (user_id p) (snd r))
             ValidationError = true).
Proof.
  split.
  - intros u g. unfold DatingService.get_dating_profile,
      DatingService._get_dating_profile.
    destruct (head _) as [n|]; [|reflexivity].
    apply DatingProfile_of_node_not_ok.
  - intros p now g [un Hu] r. subst r.
    unfold DatingService.create_dating_profile, execute_write,
      DatingService._create_dating_profile.
    rewrite Hu. cbn [fst snd]. split; [reflexivity|].
    split; [reflexivity|].
    apply _get_dating_profile_raises.
    unfold DatingService.get_profile_query.
    cbn [users dating_profiles set_dating_profiles]. rewrite Hu.
    rewrite filter_app, map_app, filter_cons, decide_True
      by (cbn; apply Is_true_true, N.eqb_refl).
    cbn. intros H. apply app_eq_nil in H as [_ H]. discriminate H.
Qed.

(** [update_dating_profile] never commits.  Its query sets the fields on
    the profiles of the user, but [DatingProfile] is then built from the
    first of them and refuses it: the call raises the validation error
    when the user has a profile (and [ValueError] when not), and the
    graph is the one given. *)
Theorem update_dating_profile_never_commits :
  forall (p : DatingProfile) (now : Time) (g : Graph),
    snd (DatingService.update_dating_profile today p now g) = g
    /\ is_ok (fst (DatingService.update_dating_profile today p now g)) = false
    /\ (DatingService.get_profile_query (user_id p) g <> [] ->
        raises (fst (DatingService.update_dating_profile today p now g))
          ValidationError = true).
Proof.
  intros p now g.
  unfold DatingService.update_dating_profile, execute_write,
    DatingService._update_dating_profile.
  match goal with
  | |- context [head (DatingService.get_profile_query _ ?h)] =>
      assert (Hq : DatingService.get_profile_query (user_id p) g <> [] ->
                   DatingService.get_profile_query (user_id p) h <> [])
  end.
  { unfold DatingService.get_profile_query.
    destruct (users g !! user_id p) as [un|] eqn:Hu; [|rewrite Hu; auto].
    cbn [users dating_profiles set_dating_profiles]. rewrite Hu.
    rewrite (get_profile_query_after_update
               (fun x => {| p_user_id := p_user_id x;
                            p_bio := bio p;
                            p_birth_date := birth_date p;
                            p_gender := gender p;
                            p_sexuality := sexuality p;
                            p_photos := photos p;
                            p_max_distance_miles := max_distance_miles p;
                            p_min_age_preference := min_age_preference p;
                            p_max_age_preference := max_age_preference p;
                            p_gender_preference := gender_preference p;
                            p_is_visible := is_visible p;
                            p_created_at := p_created_at x;
                            p_updated_at := now |})).
    destruct (map snd _); [auto|discriminate]. }
  match goal with
  | |- context [head (DatingService.get_profile_query _ ?h)] =>
      destruct (DatingService.get_profile_query (user_id p) h) as [|n l]
  end.
  - cbn. split; [reflexivity|]. split; [reflexivity|].
    intros H. destruct (Hq H eq_refl).
  - cbn [head].
    destruct (DatingProfile_of_node_raises today n) as [k ->]. cbn.
    auto.
Qed.

(** Without the node they need, the profile calls raise [ValueError] and
    write nothing: [create_dating_profile] for a user that does not exist,
    [update_dating_profile] and [get_dating_profile] for a user that has
    no profile. *)
Theorem profile_calls_without_profile_raise :
  forall (p : DatingProfile) (now : Time) (g : Graph),
    (users g !! user_id p = None ->
     DatingService.create_dating_profile p now g
     = (Err (Raise ValueError "Failed to create dating profile"), g))
    /\ (DatingService.get_profile_query (user_id p) g = [] ->
        DatingService.update_dating_profile today p now g
        = (Err (Raise ValueError "Failed to update dating profile"), g)
        /\ DatingService.get_dating_profile today (user_id p) g
           = Err (Raise ValueError "Dating profile not found")).
Proof.
  intros p now g. split.
  - intros Hu. unfold DatingService.create_dating_profile, execute_write,
      DatingService._create_dating_profile. rewrite Hu. reflexivity.
  - intros Hq. split.
    + unfold DatingService.update_dating_profile, execute_write,
        DatingService._update_dating_profile.
      unfold DatingService.get_profile_query in *.
      destruct (users g !! user_id p) as [un|] eqn:Hu.
      * cbn [users dating_profiles set_dating_profiles]. rewrite Hu.
        rewrite (get_profile_query_after_update
                   (fun x => {| p_user_id := p_user_id x;
                                p_bio := bio p;
                                p_birth_date := birth_date p;
                                p_gender := gender p;
                                p_sexuality := sexuality p;
                                p_photos := photos p;
                                p_max_distance_miles := max_distance_miles p;
                                p_min_age_preference := min_age_preference p;
                                p_max_age_preference := max_age_preference p;
                                p_gender_preference := gender_preference p;
                                p_is_visible := is_visible p;
                                p_created_at := p_created_at x;
                                p_updated_at := now |})).
        rewrite Hq. reflexivity.
      * rewrite Hu. reflexivity.
    + unfold DatingService.get_dating_profile,
        DatingService._get_dating_profile. rewrite Hq. reflexivity.
Qed.

(** Profiles stay with their users: when every stored profile carries the
    identifier of the user it is attached to, the same holds after
    [create_dating_profile] and [update_dating_profile], whether they
    succeed or raise. *)
Theorem profiles_stay_consistent :
  forall (p : DatingProfile) (now : Time) (g : Graph),
    profiles_consistent g ->
    profiles_consistent (snd (DatingService.create_dating_profile p now g))
    /\ profiles_consistent
         (snd (DatingService.update_dating_profile today p now g)).
Proof.
  intros p now g Hinv. split.
  - unfold DatingService.create_dating_profile, execute_write,
      DatingService._create_dating_profile.
    destruct (users g !! user_id p) as [un|]; [|exact Hinv].
    intros u n Hin. cbn in Hin. apply elem_of_app in Hin as [Hin|Hin].
    + exact (Hinv u n Hin).
    + apply list_elem_of_singleton in Hin. inversion Hin. reflexivity.
  - unfold DatingService.update_dating_profile, execute_write,
      DatingService._update_dating_profile.
    match goal with
    | |- context [DatingService.get_profile_query _ ?h] =>
        assert (Hg' : profiles_consistent h); [|generalize dependent h]
    end.
    + destruct (users g !! user_id p) as [un|]; [|exact Hinv].
      intros x nd Hin. cbn in Hin.
      apply list_elem_of_fmap in Hin as ([x0 n0] & Heq & Hin).
      cbn in Heq.
      destruct (N.eqb x0 (user_id p)); inversion Heq; subst; cbn;
        exact (Hinv _ _ Hin).
    + intros h Hh. destruct (head _) as [pd|]; [|exact Hinv].
      destruct (DatingProfile_of_node _ _); [exact Hh|exact Hinv].
Qed.

End Profiles.

(** Alice, who has no profile in the graph of three users, gets one at
    time 77. *)
Lemma created_profile_witness :
  let p := Examples.dating_profile_of Examples.alice MALE [FEMALE] in
  let r := DatingService.create_dating_profile p 77 Examples.three_users in
  fst r = Ok p
  /\ dating_profiles (snd r)
     = [(Examples.alice, DatingService.node_of_profile p 77%N 77%N)]
  /\ raises (DatingService.get_dating_profile Examples.today Examples.alice
               (snd r)) ValidationError = true.
Proof.
  apply (proj2 (created_profile_cannot_be_read_back Examples.today)
           (Examples.dating_profile_of Examples.alice MALE [FEMALE]) 77%N
           Examples.three_users).
  vm_compute. eauto.
Defined.

(** Alice hides her profile at time 88. *)
Lemma updated_profile_witness :
  let p := {| user_id := Examples.alice; bio := "away"; birth_date := 9000;
              gender := MALE; sexuality := STRAIGHT; photos := [];
              max_distance_miles := 50; min_age_preference := 21;
              max_age_preference := 35; gender_preference := [FEMALE];
              is_visible := false; created_at := 88; updated_at := 88 |} in
  let r := DatingService.update_dating_profile Examples.today p 88
             Examples.dating_pool in
  snd r = Examples.dating_pool
  /\ is_ok (fst r) = false
  /\ raises (fst r) ValidationError = true.
Proof.
  pose proof (update_dating_profile_never_commits Examples.today
                {| user_id := Examples.alice; bio := "away";
                   birth_date := 9000;
                   gender := MALE; sexuality := STRAIGHT; photos := [];
                   max_distance_miles := 50; min_age_preference := 21;
                   max_age_preference := 35; gender_preference := [FEMALE];
                   is_visible := false; created_at := 88; updated_at := 88 |}
                88 Examples.dating_pool) as (H1 & H2 & H3).
  split; [exact H1|]. split; [exact H2|].
  apply H3. discriminate.
Defined.

(** Nobody has the identifier 99. *)
Lemma profile_calls_witness :
  DatingService.create_dating_profile
    (Examples.dating_profile_of 99 MALE [FEMALE]) 77 Examples.dating_pool
  = (Err (Raise ValueError "Failed to create dating profile"),
     Examples.dating_pool)
  /\ DatingService.get_dating_profile Examples.today 99 Examples.dating_pool
     = Err (Raise ValueError "Dating profile not found").
Proof.
  destruct (profile_calls_without_profile_raise Examples.today
              (Examples.dating_profile_of 99 MALE [FEMALE]) 77
              Examples.dating_pool) as [H1 H2].
  split; [apply H1; reflexivity|apply H2; reflexivity].
Defined.

(** The example pool after Alice got a second profile. *)
Lemma profiles_consistent_witness :
  profiles_consistent
    (snd (DatingService.create_dating_profile
            (Examples.dating_profile_of Examples.alice MALE [FEMALE]) 77
            Examples.dating_pool)).
Proof.
  exact (proj1 (profiles_stay_consistent Examples.today
                  (Examples.dating_profile_of Examples.alice MALE [FEMALE])
                  77 Examples.dating_pool dating_pool_profiles_consistent)).
Defined.

(** ** Profile views *)

Lemma record_profile_view_again v c now g uv uc r :
  v <> c -> users g !! v = Some uv -> users g !! c = Some uc ->
  DATING_PROFILE_VIEW g !! (v, c) = r ->
  let g' := snd (DatingService._record_profile_view v c now g) in
  users g' = users g
  /\ DATING_PROFILE_VIEW g' !! (v, c)
     = Some match r with
            | None => {| view_count := 1; view_created_at := now;
                         view_updated_at := now |}
            | Some x => {| view_count := view_count x + 1;
                           view_created_at := view_created_at x;
                           view_updated_at := now |}
            end.
Proof.
  intros Hne Hv Hc Hr g'. subst g'.
  unfold DatingService._record_profile_view,
    DatingService.record_profile_view_query.
  rewrite Hv, Hc.
  destruct (N.eqb_spec v c) as [?|_]; [congruence|].
  rewrite Hr. destruct r; cbn; rewrite lookup_insert_eq; auto.
Qed.

Lemma last_cons {A} (t : A) (ts : list A) (d : A) :
  List.last (t :: ts) d = List.last ts t.
Proof.
  revert t d. induction ts as [|x ts IH]; intros t d; [reflexivity|].
  change (List.last (t :: x :: ts) d) with (List.last (x :: ts) d).
  rewrite !IH. reflexivity.
Qed.

Lemma view_at_times_counts v c uv uc t0 :
  v <> c ->
  forall (times : list Time) (h : Graph) (k : nat) (tl : Time),
    users h !! v = Some uv -> users h !! c = Some uc ->
    DATING_PROFILE_VIEW h !! (v, c)
    = Some {| view_count := Z.of_nat (S k); view_created_at := t0;
              view_updated_at := tl |} ->
    DATING_PROFILE_VIEW (view_at_times v c times h) !! (v, c)
    = Some {| view_count := Z.of_nat (S (k + length times));
              view_created_at := t0;
              view_updated_at := List.last times tl |}.
Proof.
  intros Hne. induction times as [|t ts IH]; intros h k tl Hv Hc Hh.
  - cbn. rewrite Nat.add_0_r. exact Hh.
  - unfold view_at_times. cbn [fold_left].
    fold (view_at_times v c ts
            (snd (DatingService._record_profile_view v c t h))).
    rewrite last_cons.
    replace (S (k + length (t :: ts))) with (S (S k + length ts))
      by (cbn; lia).
    destruct (record_profile_view_again v c t h uv uc _ Hne Hv Hc Hh)
      as [Hus Hview].
    apply IH.
    + rewrite Hus. exact Hv.
    + rewrite Hus. exact Hc.
    + rewrite Hview. cbn. repeat f_equal. lia.
Qed.

(** Views are counted.  When a viewer who had not seen a creator's profile
    looks at it at the times [t0 :: times], one after the other, the
    [DATING_PROFILE_VIEW] relationship ends with a [view_count] of the
    number of views, the [created_at] of the first one and the
    [updated_at] of the last one. *)
Theorem profile_views_are_counted :
  forall (v c : UUID) (t0 : Time) (times : list Time) (g : Graph),
    v <> c ->
    is_Some (users g !! v) -> is_Some (users g !! c) ->
    DATING_PROFILE_VIEW g !! (v, c) = None ->
    DATING_PROFILE_VIEW (view_at_times v c (t0 :: times) g) !! (v, c)
    = Some {| view_count := Z.of_nat (S (length times));
              view_created_at := t0;
              view_updated_at := List.last times t0 |}.
Proof.
  intros v c t0 times g Hne [uv Hv] [uc Hc] Hnone.
  unfold view_at_times. cbn [fold_left].
  fold (view_at_times v c times
          (snd (DatingService._record_profile_view v c t0 g))).
  destruct (record_profile_view_again v c t0 g uv uc _ Hne Hv Hc Hnone)
    as [Hus Hview].
  apply (view_at_times_counts v c uv uc t0 Hne times _ 0%nat t0).
  - rewrite Hus. exact Hv.
  - rewrite Hus. exact Hc.
  - exact Hview.
Qed.

(** Alice looks at Bob's profile at the times 30, 31 and 35. *)
Lemma profile_views_witness :
  DATING_PROFILE_VIEW
    (view_at_times Examples.alice Examples.bob [30; 31; 35]%N
       Examples.dating_pool)
  !! (Examples.alice, Examples.bob)
  = Some {| view_count := 3; view_created_at := 30; view_updated_at := 35 |}.
Proof.
  apply (profile_views_are_counted Examples.alice Examples.bob 30%N
           [31; 35]%N Examples.dating_pool);
    [discriminate|vm_compute; eauto|vm_compute; eauto|reflexivity].
Defined.

